(** * GithubModelsLLM: the chat-completion client of ai2holodeck

    A shallow embedding of [src/ai2holodeck/generation/github_llm.py]:
    the constructor ([__init__]) that resolves the configuration from
    explicit arguments and the process environment, the header-building
    [_post], and the two-endpoint loop of [__call__].

    Python values that the code probes dynamically (the parsed response
    body) are kept as an untyped [json] tree, and every dynamic operation
    the source applies to them ([in], [.get], subscripts, slices,
    truthiness) is written with the outcome Python gives on each shape,
    exceptions included. *)

From Stdlib Require Import String Ascii ZArith List Bool Lia.
From Stdlib Require Import SpecFloat DecimalString.
From Stdlib Require Import Sorted Permutation.
Import ListNotations.

Set Warnings "-register-all".

Local Open Scope string_scope.
Local Open Scope Z_scope.

(** ** Python strings *)

Module PyStr.

(** [s.rstrip("/")]: every trailing slash is removed. *)
Fixpoint rstrip_slash (s : string) : string :=
  match s with
  | EmptyString => EmptyString
  | String c t =>
      match rstrip_slash t with
      | EmptyString => if Ascii.eqb c "/" then EmptyString else String c EmptyString
      | t' => String c t'
      end
  end.

(** [n] copies of ["/"]. *)
Fixpoint slashes (n : nat) : string :=
  match n with
  | O => EmptyString
  | S k => String "/" (slashes k)
  end.

(** The last character of [s], when there is one. *)
Fixpoint last_char (s : string) : option ascii :=
  match s with
  | EmptyString => None
  | String c EmptyString => Some c
  | String _ t => last_char t
  end.

(** [s.lower()] on the ASCII range. *)
Definition lower_char (c : ascii) : ascii :=
  let n := nat_of_ascii c in
  if (Nat.leb 65 n && Nat.leb n 90)%bool then ascii_of_nat (n + 32) else c.

Fixpoint lower (s : string) : string :=
  match s with
  | EmptyString => EmptyString
  | String c t => String (lower_char c) (lower t)
  end.

(** [sub in s] for two strings: [sub] occurs somewhere in [s]. *)
Fixpoint contains (sub s : string) : bool :=
  if prefix sub s then true
  else match s with
       | EmptyString => false
       | String _ t => contains sub t
       end.

(** [s[:n]]: the first [n] characters. *)
Definition take (n : nat) (s : string) : string := substring 0 n s.

(** [str(i)] for an [int]. *)
Definition of_int (i : Z) : string := NilZero.string_of_int (Z.to_int i).

End PyStr.

(** ** Parsed JSON, as Python holds it

    [null] is [None], numbers are [int] or [float], an object is a [dict]
    (kept as the list of its items; a lookup takes the first binding of a
    key). *)

Inductive json : Type :=
| JNull
| JBool (b : bool)
| JInt (n : Z)
| JFloat (f : spec_float)
| JStr (s : string)
| JArr (items : list json)
| JObj (members : list (string * json)).

(** Exceptions of the interpreter that the source neither raises itself
    nor catches. [DictSliceError] is what slicing a [dict] raises
    ([TypeError] up to Python 3.11, [KeyError] from 3.12). *)
Inductive py_error : Type :=
| AttributeError
| TypeError
| KeyError
| IndexError
| DictSliceError.

(** The [msg[:300]] of the API error: [msg] is the server's message when
    that is truthy, and [str(data)] otherwise. [OfMessage v] holds the
    slice [v] of the message, [OfBody data] stands for [str(data)[:300]]. *)
Inductive msg_excerpt : Type :=
| OfMessage (v : json)
| OfBody (data : json).

(** What [__call__] can raise. The five [RuntimeError]s of the source are
    told apart by their message; each constructor keeps the values the
    message interpolates. [PostRaised] is an exception coming out of
    [session.post] itself. *)
Inductive failure : Type :=
| ConfigError
| Unauthorized (url : string) (excerpt : string)
| TransportError (status : Z) (url : string) (excerpt : string)
| ModelError (status : Z) (code : json) (excerpt : msg_excerpt)
| EndpointUnavailable
| PyError (e : py_error)
| PostRaised (e : string).

(** A small error monad for the loop body. *)
Inductive pyres (A : Type) : Type :=
| Val (a : A)
| Exc (f : failure).
Arguments Val {A} a.
Arguments Exc {A} f.

Definition bind {A B : Type} (m : pyres A) (k : A -> pyres B) : pyres B :=
  match m with
  | Val a => k a
  | Exc f => Exc f
  end.

Notation "x <- m ;; k" := (bind m (fun x => k))
  (at level 61, m at next level, right associativity).

Module Py.

(** Truth value of an object, as [or], [not] and [if] use it. *)
Definition truthy (v : json) : bool :=
  match v with
  | JNull => false
  | JBool b => b
  | JInt n => negb (n =? 0)
  | JFloat (S754_zero _) => false
  | JFloat _ => true
  | JStr s => negb (s =? "")%string
  | JArr l => match l with [] => false | _ => true end
  | JObj m => match m with [] => false | _ => true end
  end.

(** First binding of [k] in the items of a dict. *)
Fixpoint lookup (k : string) (m : list (string * json)) : option json :=
  match m with
  | [] => None
  | (k', v) :: rest => if (k =? k')%string then Some v else lookup k rest
  end.

Definition is_str (k : string) (v : json) : bool :=
  match v with
  | JStr s => (s =? k)%string
  | _ => false
  end.

(** [k in v] for a string [k]: key of a dict, item of a list, substring
    of a string; the other shapes are not iterable. *)
Definition contains_key (k : string) (v : json) : pyres bool :=
  match v with
  | JObj m => Val (match lookup k m with Some _ => true | None => false end)
  | JArr l => Val (existsb (is_str k) l)
  | JStr s => Val (PyStr.contains k s)
  | _ => Exc (PyError TypeError)
  end.

Definition lookup_or (k : string) (m : list (string * json)) (d : json)
  : json :=
  match lookup k m with
  | Some x => x
  | None => d
  end.

(** [v.get(k, d)]: only a dict has the method. *)
Definition get (v : json) (k : string) (d : json) : pyres json :=
  match v with
  | JObj m => Val (lookup_or k m d)
  | _ => Exc (PyError AttributeError)
  end.

(** [v[k]] for a string [k]. *)
Definition getitem (v : json) (k : string) : pyres json :=
  match v with
  | JObj m => match lookup k m with
              | Some x => Val x
              | None => Exc (PyError KeyError)
              end
  | _ => Exc (PyError TypeError)
  end.

(** [v[0]]. The keys of a parsed object are strings, so [0] is never
    one of them. *)
Definition getitem0 (v : json) : pyres json :=
  match v with
  | JArr (x :: _) => Val x
  | JArr [] => Exc (PyError IndexError)
  | JStr (String c _) => Val (JStr (String c EmptyString))
  | JStr EmptyString => Exc (PyError IndexError)
  | JObj _ => Exc (PyError KeyError)
  | _ => Exc (PyError TypeError)
  end.

(** [v[:n]]. *)
Definition slice_to (n : nat) (v : json) : pyres json :=
  match v with
  | JStr s => Val (JStr (PyStr.take n s))
  | JArr l => Val (JArr (firstn n l))
  | JObj _ => Exc (PyError DictSliceError)
  | _ => Exc (PyError TypeError)
  end.

End Py.

(** ** The process environment and [or] chains *)

Definition environ := string -> option string.

(** An argument or an [os.getenv] result: [None] or a string. *)
Definition truthy_str (v : option string) : bool :=
  match v with
  | Some s => negb (s =? "")%string
  | None => false
  end.

(** [a or b]. *)
Definition py_or (a b : option string) : option string :=
  if truthy_str a then a else b.

(** [a or b] where [b] is a string: the result is a string. *)
Definition py_or_str (a : option string) (b : string) : string :=
  match a with
  | Some s => if (s =? "")%string then b else s
  | None => b
  end.

(** [os.getenv(name, default)]: the default only when the variable is
    not set at all. *)
Definition getenv_default (env : environ) (name default : string) : string :=
  match env name with
  | Some v => v
  | None => default
  end.

(** ** The client *)

Definition DEFAULT_BASE : string := "https://models.github.ai/inference".
Definition DEFAULT_MODEL : string := "openai/gpt-4o-mini".

(** The float [0.2], the default temperature. *)
Definition float_0_2 : spec_float := S754_finite false 3602879701896397 (-54).

(** The arguments of [__init__]; [None] is an omitted argument. *)
Record init_args : Type := {
  arg_api_key : option string;
  arg_base_url : option string;
  arg_model : option string;
  arg_max_tokens : Z;
  arg_temperature : spec_float;
  arg_timeout : Z;
  arg_trust_env : option bool
}.

Definition default_args : init_args := {|
  arg_api_key := None;
  arg_base_url := None;
  arg_model := None;
  arg_max_tokens := 2048;
  arg_temperature := float_0_2;
  arg_timeout := 120;
  arg_trust_env := None
|}.

Record GithubModelsLLM : Type := {
  api_key : option string;
  base_url : string;
  endpoint_primary : string;
  endpoint_fallback : string;
  model : string;
  max_tokens : Z;
  temperature : spec_float;
  timeout : Z;
  trust_env : bool
}.

Definition resolve_api_key (a : init_args) (env : environ) : option string :=
  py_or (py_or (py_or (arg_api_key a) (env "GITHUB_TOKEN")) (env "GH_TOKEN"))
        (env "OPENAI_API_KEY").

(** The operand of [.rstrip("/")]. The chain ends in a literal, so it is
    always a string. *)
Definition raw_base_url (a : init_args) (env : environ) : string :=
  py_or_str (py_or (py_or (arg_base_url a) (env "OPENAI_API_BASE"))
                   (env "OPENAI_BASE_URL"))
            DEFAULT_BASE.

Definition resolve_base_url (a : init_args) (env : environ) : string :=
  PyStr.rstrip_slash (raw_base_url a env).

Definition resolve_model (a : init_args) (env : environ) : string :=
  py_or_str (arg_model a) (getenv_default env "HOLODECK_MODEL" DEFAULT_MODEL).

Definition resolve_trust_env (a : init_args) (env : environ) : bool :=
  match arg_trust_env a with
  | Some b => b
  | None =>
      let v := PyStr.lower (getenv_default env "HOLODECK_TRUST_ENV" "0") in
      ((v =? "1") || (v =? "true") || (v =? "yes"))%string
  end.

Definition __init__ (a : init_args) (env : environ) : GithubModelsLLM :=
  let base := resolve_base_url a env in
  {| api_key := resolve_api_key a env;
     base_url := base;
     endpoint_primary := base ++ "/v1/chat/completions";
     endpoint_fallback := base ++ "/chat/completions";
     model := resolve_model a env;
     max_tokens := arg_max_tokens a;
     temperature := arg_temperature a;
     timeout := arg_timeout a;
     trust_env := resolve_trust_env a env |}.

(** ** The wire *)

Record message : Type := {
  role : string;
  content : string
}.

(** The JSON body posted to either endpoint. *)
Record payload : Type := {
  p_model : string;
  p_messages : list message;
  p_max_tokens : Z;
  p_temperature : spec_float
}.

(** One [session.post(url, headers=..., json=..., timeout=...)]. *)
Record request : Type := {
  req_url : string;
  req_headers : list (string * string);
  req_json : payload;
  req_timeout : Z
}.

(** What the code reads of a response: [r.status_code], [r.text] and
    [r.json()], which is [None] here when the call raises. *)
Record response : Type := {
  status_code : Z;
  text : string;
  body_json : option json
}.

Inductive post_result : Type :=
| Responded (r : response)
| Raised (e : string).

(** How a call ends: the value returned or the exception raised. *)
Inductive outcome : Type :=
| Returned (v : json)
| Failed (f : failure).

(** How one iteration of the loop ends. *)
Inductive verdict : Type :=
| Continue
| Return (v : json)
| Raise (f : failure).

(** The f-string [f"Bearer {self.api_key}"]. *)
Definition bearer (key : option string) : string :=
  "Bearer " ++ match key with Some k => k | None => "None" end.

Definition headers (c : GithubModelsLLM) : list (string * string) :=
  [ ("Authorization", bearer (api_key c));
    ("Content-Type", "application/json");
    ("Accept", "application/vnd.github+json");
    ("X-GitHub-Api-Version", "2022-11-28") ].

Definition build_payload (c : GithubModelsLLM) (prompt : string) : payload :=
  {| p_model := model c;
     p_messages := [ {| role := "user"; content := prompt |} ];
     p_max_tokens := max_tokens c;
     p_temperature := temperature c |}.

Definition build_request (c : GithubModelsLLM) (url : string) (p : payload)
  : request :=
  {| req_url := url;
     req_headers := headers c;
     req_json := p;
     req_timeout := timeout c |}.

Definition is_auth_status (s : Z) : bool := (s =? 401) || (s =? 403).
Definition is_wrong_path_status (s : Z) : bool := (s =? 404) || (s =? 405).
Definition is_unknown_model_status (s : Z) : bool := (s =? 404) || (s =? 422).

Section Call.

(** The [except] branch of the loop body: [r.json()] raised. *)
Definition on_non_json (url : string) (r : response) : verdict :=
  if is_auth_status (status_code r) then
    Raise (Unauthorized url (PyStr.take 300 (text r)))
  else if is_wrong_path_status (status_code r) then
    Continue
  else
    Raise (TransportError (status_code r) url (PyStr.take 500 (text r))).

(** The [if r.status_code >= 300 or "error" in data] test. *)
Definition is_error_response (r : response) (data : json) : pyres bool :=
  if 300 <=? status_code r then Val true
  else Py.contains_key "error" data.

(** The body of that [if]. *)
Definition on_error (c : GithubModelsLLM) (url : string) (r : response)
           (data : json) : pyres verdict :=
  err <- Py.get data "error" (JObj []) ;;
  code <- Py.get err "code" JNull ;;
  m <- Py.get err "message" JNull ;;
  if ((url =? endpoint_primary c)%string
      && is_unknown_model_status (status_code r))%bool
  then Val Continue
  else if Py.truthy m then
    v <- Py.slice_to 300 m ;;
    Exc (ModelError (status_code r) code (OfMessage v))
  else
    Exc (ModelError (status_code r) code (OfBody data)).

(** [data["choices"][0]["message"]["content"]]. *)
Definition extract_content (data : json) : pyres json :=
  choices <- Py.getitem data "choices" ;;
  first <- Py.getitem0 choices ;;
  msg <- Py.getitem first "message" ;;
  Py.getitem msg "content".

(** The loop body after [r.json()] returned [data]. *)
Definition on_json (c : GithubModelsLLM) (url : string) (r : response)
           (data : json) : pyres verdict :=
  is_err <- is_error_response r data ;;
  if is_err : bool then on_error c url r data
  else
    v <- extract_content data ;;
    Val (Return v).

Definition run (m : pyres verdict) : verdict :=
  match m with
  | Val v => v
  | Exc f => Raise f
  end.

(** One iteration, from the response on. *)
Definition classify (c : GithubModelsLLM) (url : string) (r : response)
  : verdict :=
  match body_json r with
  | None => on_non_json url r
  | Some data => run (on_json c url r data)
  end.

(** The transport: a state [World] that answers each request and moves
    on. *)
Variable World : Type.
Variable post : World -> request -> post_result * World.

(** The state threaded through a call: the world and the requests sent
    so far, oldest first. *)
Record state : Type := {
  world : World;
  sent : list request
}.

(** The state after the first request. *)
Definition after_one (c : GithubModelsLLM) (prompt : string) (w1 : World)
  : state :=
  {| world := w1;
     sent := [build_request c (endpoint_primary c) (build_payload c prompt)] |}.

(** The state after both requests. *)
Definition after_two (c : GithubModelsLLM) (prompt : string) (w2 : World)
  : state :=
  {| world := w2;
     sent := [build_request c (endpoint_primary c) (build_payload c prompt);
              build_request c (endpoint_fallback c) (build_payload c prompt)] |}.

(** The responses a call may read, each with the URL it came from: the
    answer to the first request and the answer to the second. *)
Definition answered (c : GithubModelsLLM) (prompt : string) (w : World)
           (url : string) (r : response) : Prop :=
  let p := build_payload c prompt in
  let first := post w (build_request c (endpoint_primary c) p) in
  (url = endpoint_primary c /\ fst first = Responded r) \/
  (url = endpoint_fallback c /\
   fst (post (snd first) (build_request c (endpoint_fallback c) p))
   = Responded r).

Definition _post (c : GithubModelsLLM) (url : string) (p : payload)
           (st : state) : post_result * state :=
  let rq := build_request c url p in
  let (res, w') := post (world st) rq in
  (res, {| world := w'; sent := sent st ++ [rq] |}).

(** [for url in urls: ...], then the [raise] after the loop. *)
Fixpoint try_urls (c : GithubModelsLLM) (p : payload) (urls : list string)
         (st : state) : outcome * state :=
  match urls with
  | [] => (Failed EndpointUnavailable, st)
  | url :: rest =>
      let (res, st') := _post c url p st in
      match res with
      | Raised e => (Failed (PostRaised e), st')
      | Responded r =>
          match classify c url r with
          | Continue => try_urls c p rest st'
          | Return v => (Returned v, st')
          | Raise f => (Failed f, st')
          end
      end
  end.

Definition __call__ (c : GithubModelsLLM) (prompt : string) (w : World)
  : outcome * state :=
  let st := {| world := w; sent := [] |} in
  if negb (truthy_str (api_key c)) then (Failed ConfigError, st)
  else
    let p := build_payload c prompt in
    try_urls c p [endpoint_primary c; endpoint_fallback c] st.

End Call.

Arguments world {World} s.
Arguments sent {World} s.
Arguments after_one {World} c prompt w1.
Arguments after_two {World} c prompt w2.

(** ** The messages of the [RuntimeError]s *)

Section Messages.

(** [repr] of a parsed value, the interpreter's own; [str] differs
    from it on strings only. *)
Variable py_repr : json -> string.

Definition py_str (v : json) : string :=
  match v with
  | JStr s => s
  | _ => py_repr v
  end.

(** What [{msg[:300]}] prints. *)
Definition excerpt_text (e : msg_excerpt) : string :=
  match e with
  | OfMessage v => py_str v
  | OfBody data => PyStr.take 300 (py_str data)
  end.

(** The message of each [RuntimeError], as its f-string builds it; the
    other exceptions are not built by this code. *)
Definition message_of (f : failure) : option string :=
  match f with
  | ConfigError => Some "No API key. Set GITHUB_TOKEN or OPENAI_API_KEY."
  | Unauthorized url ex =>
      Some ("Unauthorized at " ++ url
            ++ ". Check token (models:read) and daily limits. Body: " ++ ex)
  | TransportError s url ex =>
      Some ("Non-JSON response " ++ PyStr.of_int s ++ " from " ++ url
            ++ ": " ++ ex)
  | ModelError s code ex =>
      Some ("GitHub Models API error " ++ PyStr.of_int s
            ++ " (" ++ py_str code ++ "): " ++ excerpt_text ex)
  | EndpointUnavailable =>
      Some "Failed to reach a working chat/completions endpoint on GitHub Models."
  | PyError _ => None
  | PostRaised _ => None
  end.

End Messages.

(** ** Sample transports, for evaluating the client *)

Module Sample.

(** A transport that answers every request with the same response and
    counts the requests. *)
Definition constant (r : response) (n : nat) (_ : request)
  : post_result * nat :=
  (Responded r, S n).

(** A transport that answers the [n]-th request with the [n]-th entry
    of a script, and raises once the script is over. *)
Definition scripted (script : list response) (n : nat) (_ : request)
  : post_result * nat :=
  match nth_error script n with
  | Some r => (Responded r, S n)
  | None => (Raised "ConnectionError", S n)
  end.

Definition env_empty : environ := fun _ => None.

Definition env_one (name value : string) : environ :=
  fun k => if (k =? name)%string then Some value else None.

(** A credential and everything else by default. *)
Definition args : init_args :=
  {| arg_api_key := Some "ghp_token";
     arg_base_url := None;
     arg_model := None;
     arg_max_tokens := 2048;
     arg_temperature := float_0_2;
     arg_timeout := 120;
     arg_trust_env := None |}.

Definition with_base_url (b : string) : init_args :=
  {| arg_api_key := Some "ghp_token";
     arg_base_url := Some b;
     arg_model := None;
     arg_max_tokens := 2048;
     arg_temperature := float_0_2;
     arg_timeout := 120;
     arg_trust_env := None |}.

Definition client : GithubModelsLLM := __init__ args env_empty.

Definition primary_url : string :=
  "https://models.github.ai/inference/v1/chat/completions".

Definition fallback_url : string :=
  "https://models.github.ai/inference/chat/completions".

Definition unknown_model_body : json :=
  JObj [("error", JObj [("code", JStr "unknown_model");
                        ("message", JStr "Unknown model: gpt-x")])].

Definition chair_body : json :=
  JObj [("choices",
         JArr [JObj [("message",
                      JObj [("content", JStr "A wooden chair.")])]])].

(** A response from its status, its raw text and what [r.json()] gives.
    Where the body parses, the raw text is not read by the client and is
    abridged below. *)
Definition resp (status : Z) (raw : string) (j : option json) : response :=
  {| status_code := status; text := raw; body_json := j |}.

Definition unknown_model_422 : response :=
  resp 422 "{...}" (Some unknown_model_body).

Definition bad_credentials_401 : response :=
  resp 401 "{...}"
       (Some (JObj [("error", JObj [("code", JStr "unauthorized");
                                    ("message", JStr "Bad credentials")])])).

Definition plain_error_404 : response :=
  resp 404 "{...}" (Some (JObj [("error", JStr "Not Found")])).

Definition no_error_key_404 : response :=
  resp 404 "{...}" (Some (JObj [("message", JStr "Not Found")])).

Definition chair_200 : response :=
  resp 200 "{...}" (Some chair_body).

(** Status 200 with the content path beside an [error] member that is
    [null]. *)
Definition null_error_body : json :=
  JObj [("error", JNull);
        ("choices",
         JArr [JObj [("message",
                      JObj [("content", JStr "A wooden chair.")])]])].

Definition null_error_200 : response :=
  resp 200 "{...}" (Some null_error_body).

Definition html_401 : response :=
  resp 401 "<html>Unauthorized</html>" None.

Definition html_404 : response :=
  resp 404 "<html>Not Found</html>" None.

Definition html_502 : response :=
  resp 502 "<html>Bad Gateway</html>" None.

(** Stands for [repr] where no value gets printed. *)
Definition no_repr : json -> string := fun _ => "".

End Sample.

(** ** Shapes of a response body *)

Module Shape.

(** The value at [choices[0].message.content], when every step of the
    path is there: an object with a [choices] list whose first item is
    an object with a [message] object with a [content] member. *)
Definition content_path (data : json) : option json :=
  match data with
  | JObj m =>
      match Py.lookup "choices" m with
      | Some (JArr (JObj first :: _)) =>
          match Py.lookup "message" first with
          | Some (JObj msg) => Py.lookup "content" msg
          | _ => None
          end
      | _ => None
      end
  | _ => None
  end.

(** The [error] member of an object body. *)
Definition error_field (data : json) : option json :=
  match data with
  | JObj m => Py.lookup "error" m
  | _ => None
  end.

(** An object body whose [error] member is absent or is an object
    itself: the shapes on which [data.get("error", {}).get(...)] runs. *)
Definition error_probe_ok (data : json) : bool :=
  match data with
  | JObj m =>
      match Py.lookup "error" m with
      | None => true
      | Some (JObj _) => true
      | Some _ => false
      end
  | _ => false
  end.

(** An object body with an [error] member that is an object. *)
Definition structured_error (data : json) : bool :=
  match error_field data with
  | Some (JObj _) => true
  | _ => false
  end.

End Shape.

(** The slice [msg[:300]] holds at most 300 characters of a string
    message, or at most 300 items of a list message; no other shape can be
    sliced. *)
Definition bounded_excerpt (e : msg_excerpt) : Prop :=
  match e with
  | OfMessage (JStr t) => (String.length t <= 300)%nat
  | OfMessage (JArr l) => (List.length l <= 300)%nat
  | OfMessage _ => False
  | OfBody _ => True
  end.

Definition list_excerpt (e : msg_excerpt) : bool :=
  match e with
  | OfMessage (JArr _) => true
  | _ => false
  end.

(** ** The resolution order, in the words of the specification

    A field is the explicit argument when that is given and non-empty,
    else the first non-empty value among its environment variables, else
    its default. *)
Fixpoint first_non_empty (vs : list (option string)) : option string :=
  match vs with
  | [] => None
  | v :: rest => if truthy_str v then v else first_non_empty rest
  end.

Definition spec_resolve (explicit : option string)
           (env_values : list (option string)) (default : string) : string :=
  match first_non_empty (explicit :: env_values) with
  | Some s => s
  | None => default
  end.

(** * The launchers: [holodeck_ui.py] and [app.py]

    Both files carry their own copies of the same helpers; where the
    copies differ, the difference is a parameter below. A character of a
    Python string is one [ascii] here, read as the code point of that
    number, so the texts below are the ones made of code points under
    256. What the file system can refuse is an outcome of its own: a
    [.holodeck.env] that [read_text()] cannot read or decode, and a path
    whose [stat()] raises. *)

Module PyText.

(** [c.isspace()]: the white space that [strip()] removes. *)
Definition is_space (c : ascii) : bool :=
  let n := nat_of_ascii c in
  ((Nat.leb 9 n && Nat.leb n 13) || (Nat.leb 28 n && Nat.leb n 32)
   || Nat.eqb n 133 || Nat.eqb n 160)%bool.

(** The line boundaries of [splitlines()]. *)
Definition is_linebreak (c : ascii) : bool :=
  let n := nat_of_ascii c in
  ((Nat.leb 10 n && Nat.leb n 13) || (Nat.leb 28 n && Nat.leb n 30)
   || Nat.eqb n 133)%bool.

Definition LF : ascii := "010"%char.
Definition CR : ascii := "013"%char.
Definition NUL : ascii := "000"%char.

Fixpoint lstrip (s : string) : string :=
  match s with
  | EmptyString => EmptyString
  | String c t => if is_space c then lstrip t else s
  end.

Fixpoint rstrip (s : string) : string :=
  match s with
  | EmptyString => EmptyString
  | String c t =>
      match rstrip t with
      | EmptyString => if is_space c then EmptyString else String c EmptyString
      | t' => String c t'
      end
  end.

(** [s.strip()]. *)
Definition strip (s : string) : string := rstrip (lstrip s).

(** [s.splitlines()]: the lines without their boundaries; [\r\n] is one
    boundary, and a boundary at the very end opens no further line. *)
Fixpoint splitlines (s : string) : list string :=
  match s with
  | EmptyString => []
  | String c t =>
      if is_linebreak c then
        EmptyString ::
        match t with
        | String c2 t2 =>
            if (Ascii.eqb c CR && Ascii.eqb c2 LF)%bool then splitlines t2
            else splitlines t
        | EmptyString => []
        end
      else
        match splitlines t with
        | [] => [String c EmptyString]
        | l :: ls => String c l :: ls
        end
  end.

(** [s.split("=", 1)]: what stands before the first [=], and what stands
    after it when there is one. *)
Fixpoint split_eq (s : string) : string * option string :=
  match s with
  | EmptyString => (EmptyString, None)
  | String c t =>
      if Ascii.eqb c "="%char then (EmptyString, Some t)
      else let (k, v) := split_eq t in (String c k, v)
  end.

(** The text a file opened in text mode hands out: [\r\n] and [\r] both
    come out as [\n]. *)
Fixpoint universal_newlines (s : string) : string :=
  match s with
  | EmptyString => EmptyString
  | String c t =>
      if Ascii.eqb c CR then
        String LF
               match t with
               | String c2 t2 =>
                   if Ascii.eqb c2 LF then universal_newlines t2
                   else universal_newlines t
               | EmptyString => EmptyString
               end
      else String c (universal_newlines t)
  end.

Fixpoint has_char (p : ascii -> bool) (s : string) : bool :=
  match s with
  | EmptyString => false
  | String c t => p c || has_char p t
  end.

(** [str(b)] for a [bool]. *)
Definition of_bool (b : bool) : string := if b then "True" else "False".

End PyText.

(** What the launchers can raise on their own: the [ValueError] of
    unpacking [k, v] from a one-item list, the error of [os.environ]
    refusing a name or a value, what [read_text()] raises on a file it
    cannot read or decode (an [OSError] or a [UnicodeDecodeError]), and
    the [OSError] of a [stat()] that fails. *)
Inductive launcher_error : Type :=
| UnpackError
| IllegalEnviron
| ReadError
| StatError.

(** [.holodeck.env], when it exists: a file whose bytes decode to the
    text [content], or one that [read_text()] cannot read or decode. *)
Inductive env_file : Type :=
| Text (content : string)
| Unreadable.

(** [k, v = line.split("=", 1)]. *)
Definition unpack_eq (line : string) : option (string * string) :=
  match PyText.split_eq line with
  | (k, Some v) => Some (k, v)
  | (_, None) => None
  end.

(** A [dict] from strings to strings, as the list of its items in
    insertion order. *)
Definition dict := list (string * string).

(** [d[k] = v]: an existing key keeps its place, a new one goes last. *)
Fixpoint dict_set (k v : string) (d : dict) : dict :=
  match d with
  | [] => [(k, v)]
  | (k', v') :: rest =>
      if (k' =? k)%string then (k', v) :: rest
      else (k', v') :: dict_set k v rest
  end.

Fixpoint dict_get (k : string) (d : dict) : option string :=
  match d with
  | [] => None
  | (k', v') :: rest => if (k' =? k)%string then Some v' else dict_get k rest
  end.

(** [env[k] = v] on a copy of the environment, which is a plain dict. *)
Definition environ_set (k v : string) (env : environ) : environ :=
  fun x => if (x =? k)%string then Some v else env x.

(** [os.environ] takes no empty name and no NUL in a name or a value. The
    names set below come from before the first [=] of a line, so they hold
    no [=]. *)
Definition environ_accepts (k v : string) : bool :=
  (negb (k =? "")%string
   && negb (PyText.has_char (Ascii.eqb PyText.NUL) k)
   && negb (PyText.has_char (Ascii.eqb PyText.NUL) v))%bool.

(** [os.environ.setdefault(k, v)]: [None] when the assignment raises. *)
Definition os_environ_setdefault (k v : string) (env : environ)
  : option environ :=
  match env k with
  | Some _ => Some env
  | None => if environ_accepts k v then Some (environ_set k v env) else None
  end.

(** How [load_env_file] ends; [os.environ] is changed in place, so it is
    there in both cases. *)
Inductive loaded : Type :=
| Loaded (env : environ)
| LoadRaised (e : launcher_error) (env : environ).

Inductive saved : Type :=
| Saved (content : string)
| SaveRaised (e : launcher_error).

Module EnvFile.

(** [ENV_FILE.read_text()]: the text of the file with its line ends
    translated, or the error of a file that cannot be read or decoded. *)
Definition read_text (file : env_file) : launcher_error + string :=
  match file with
  | Text content => inr (PyText.universal_newlines content)
  | Unreadable => inl ReadError
  end.

Section Variant.

(** What is done to a line first: [holodeck_ui.py] strips it
    ([line = line.strip()]), [app.py] takes it as it is. *)
Variable prepare : string -> string.

(** The loop of [load_env_file]. *)
Fixpoint load_lines (lines : list string) (env : environ) : loaded :=
  match lines with
  | [] => Loaded env
  | raw :: rest =>
      let line := prepare raw in
      if ((line =? "")%string || prefix "#" line
          || negb (PyStr.contains "=" line))%bool
      then load_lines rest env
      else
        match unpack_eq line with
        | None => LoadRaised UnpackError env
        | Some (k, v) =>
            match os_environ_setdefault (PyText.strip k) (PyText.strip v) env with
            | None => LoadRaised IllegalEnviron env
            | Some env' => load_lines rest env'
            end
        end
  end.

(** [disk] is [.holodeck.env], [None] when the file does not exist. *)
Definition load_env_file (disk : option env_file) (env : environ) : loaded :=
  match disk with
  | None => Loaded env
  | Some file =>
      match read_text file with
      | inl e => LoadRaised e env
      | inr text => load_lines (PyText.splitlines text) env
      end
  end.

(** The first loop of [save_env_file]. *)
Fixpoint parse_lines (lines : list string) (existing : dict)
  : launcher_error + dict :=
  match lines with
  | [] => inr existing
  | raw :: rest =>
      let line := prepare raw in
      if (PyStr.contains "=" line && negb (prefix "#" line))%bool then
        match unpack_eq line with
        | None => inl UnpackError
        | Some (k, v) =>
            parse_lines rest (dict_set (PyText.strip k) (PyText.strip v) existing)
        end
      else parse_lines rest existing
  end.

Definition parse_existing (disk : option env_file)
  : launcher_error + dict :=
  match disk with
  | None => inr []
  | Some file =>
      match read_text file with
      | inl e => inl e
      | inr text => parse_lines (PyText.splitlines text) []
      end
  end.

(** The second loop: [pairs] is the dict passed in, as its items. *)
Fixpoint merge_pairs (include_key : bool) (pairs : dict) (existing : dict)
  : dict :=
  match pairs with
  | [] => existing
  | (k, v) :: rest =>
      if ((k =? "OPENAI_API_KEY")%string && negb include_key)%bool
      then merge_pairs include_key rest existing
      else merge_pairs include_key rest (dict_set k v existing)
  end.

(** The lines written, one [f"{k}={v}\n"] per item. *)
Fixpoint render (d : dict) : string :=
  match d with
  | [] => EmptyString
  | (k, v) :: rest =>
      k ++ "=" ++ v ++ String PyText.LF EmptyString ++ render rest
  end.

(** The dict that is written. *)
Definition merged (pairs : dict) (include_key : bool)
           (disk : option env_file) : launcher_error + dict :=
  match parse_existing disk with
  | inl e => inl e
  | inr existing => inr (merge_pairs include_key pairs existing)
  end.

(** [save_env_file]: the text written to the file, which is opened for
    writing once both loops are through. *)
Definition save_env_file (pairs : dict) (include_key : bool)
           (disk : option env_file) : saved :=
  match merged pairs include_key disk with
  | inl e => SaveRaised e
  | inr d => Saved (render d)
  end.

End Variant.

End EnvFile.

(** ** The file-descriptor limit *)

(** [bump_nofile_limit(target)], the same in both files: from the limits
    [getrlimit] gave, the pair handed to [setrlimit], or [None] when no
    call is made. Whatever [setrlimit] raises is swallowed. *)
Definition bump_nofile_limit (target : Z) (limits : Z * Z) : option (Z * Z) :=
  let (soft, hard) := limits in
  let new_soft := Z.min (Z.max target soft) hard in
  if new_soft =? soft then None else Some (new_soft, hard).

(** The limits after the call, when [setrlimit] takes what it is given. *)
Definition limits_after (target : Z) (limits : Z * Z) : Z * Z :=
  match bump_nofile_limit target limits with
  | Some l => l
  | None => limits
  end.

(** ** Scene files *)

(** A path that [glob] gave, with what its [stat()] does: it raises (on
    a dangling link, say), or it gives the [st_mtime], which is read in
    that case only. *)
Record scene_file : Type := {
  f_path : string;
  f_mtime : Z;
  f_stat_raises : bool
}.

(** An entry of [data/scenes], with what [glob("*.json")] gives in it
    (nothing when it is not a directory). *)
Record scene_dir : Type := {
  d_path : string;
  d_mtime : Z;
  d_stat_raises : bool;
  d_jsons : list scene_file
}.

(** [data/scenes] as [glob("*")] lists it, or [None] when it does not
    exist. *)
Definition scenes_root := option (list scene_dir).

Section Sorting.

Context {A : Type}.
Variable key : A -> Z.

(** [x] may stand before [y]: its key is at least the key of [y]. *)
Definition not_older (x y : A) : Prop := key y <= key x.

Fixpoint insert_desc (x : A) (l : list A) : list A :=
  match l with
  | [] => [x]
  | y :: ys => if key x <? key y then y :: insert_desc x ys else x :: l
  end.

(** [sorted(l, key=..., reverse=True)]: largest key first, items of equal
    key in the order they had. *)
Fixpoint sorted_desc (l : list A) : list A :=
  match l with
  | [] => []
  | x :: xs => insert_desc x (sorted_desc xs)
  end.

(** [sorted(l, key=lambda p: p.stat().st_mtime, reverse=True)]: the key
    of every item is taken before anything is ordered, so one [stat()]
    that raises ends the call. *)
Variable stat_raises : A -> bool.

Definition sorted_by_mtime (l : list A) : launcher_error + list A :=
  if existsb stat_raises l then inl StatError else inr (sorted_desc l).

End Sorting.

(** [l[:n]] for a list, negative [n] included. *)
Definition slice_to {A : Type} (n : Z) (l : list A) : list A :=
  if 0 <=? n then firstn (Z.to_nat n) l
  else firstn (List.length l - Z.to_nat (- n)) l.

Module Ui.

(** [holodeck_ui.py] *)

Definition load_env_file : option env_file -> environ -> loaded :=
  EnvFile.load_env_file PyText.strip.

Definition save_env_file : dict -> bool -> option env_file -> saved :=
  EnvFile.save_env_file PyText.strip.

(** The loop of [latest_scene_json] over the sorted entries. *)
Fixpoint first_json (dirs : list scene_dir)
  : launcher_error + option scene_file :=
  match dirs with
  | [] => inr None
  | d :: rest =>
      match sorted_by_mtime f_mtime f_stat_raises (d_jsons d) with
      | inl e => inl e
      | inr (j :: _) => inr (Some j)
      | inr [] => first_json rest
      end
  end.

(** [latest_scene_json()]: the path returned, [None] included, or the
    error of a [stat()] that raised. *)
Definition latest_scene_json (root : scenes_root)
  : launcher_error + option scene_file :=
  match root with
  | None => inr None
  | Some entries =>
      match sorted_by_mtime d_mtime d_stat_raises entries with
      | inl e => inl e
      | inr dirs => first_json dirs
      end
  end.

(** The options of [generate]. *)
Record generate_args : Type := {
  g_prompt : string;
  g_model : string;
  g_base_url : string;
  g_api_key : string;
  g_generate_image : bool;
  g_generate_video : bool;
  g_add_ceiling : bool;
  g_single_room : bool;
  g_fast_mode : bool;
  g_remember_defaults : bool;
  g_remember_key : bool
}.

(** [api_key or os.environ.get("OPENAI_API_KEY") or
    os.environ.get("GITHUB_TOKEN")]. *)
Definition resolve_key (a : generate_args) (env : environ) : option string :=
  py_or (py_or (Some (g_api_key a)) (env "OPENAI_API_KEY"))
        (env "GITHUB_TOKEN").

(** The environment of the child process. *)
Definition child_env (a : generate_args) (key : string) (env : environ)
  : environ :=
  let e1 := environ_set "OPENAI_API_BASE" (g_base_url a) env in
  let e2 := environ_set "OPENAI_API_KEY" key e1 in
  let e3 := environ_set "OPENAI_BASE_URL" (g_base_url a) e2 in
  let e4 := environ_set "HOLODECK_MODEL" (g_model a) e3 in
  let e5 := if g_fast_mode a then environ_set "HOLODECK_FAST" "1" e4 else e4 in
  match e5 "OMP_NUM_THREADS" with
  | Some _ => e5
  | None => environ_set "OMP_NUM_THREADS" "1" e5
  end.

(** The command line; [python] is [sys.executable]. *)
Definition command (python : string) (a : generate_args) (key : string)
  : list string :=
  [ python; "-m"; "ai2holodeck.main";
    "--mode"; "generate_single_scene";
    "--query"; g_prompt a;
    "--openai_api_key"; key;
    "--model"; g_model a;
    "--generate_image"; PyText.of_bool (g_generate_image a);
    "--generate_video"; PyText.of_bool (g_generate_video a);
    "--add_ceiling"; PyText.of_bool (g_add_ceiling a);
    "--single_room"; PyText.of_bool (g_single_room a) ].

(** The dict handed to [save_env_file] at the end of [generate]. *)
Definition remembered_pairs (a : generate_args) (key : string) : dict :=
  let base := [ ("OPENAI_API_BASE", g_base_url a);
                ("OPENAI_BASE_URL", g_base_url a);
                ("HOLODECK_MODEL", g_model a) ] in
  if g_remember_key a then dict_set "OPENAI_API_KEY" key base else base.

(** How a command ends. *)
Inductive ending : Type :=
| Finished
| Exited (code : Z)
| Raised (e : launcher_error).

(** What a run of [generate] leaves behind: how it ended, the content of
    [.holodeck.env], [os.environ], and the command it ran with the
    environment it gave it, if it ran one. *)
Record generate_result : Type := {
  r_ending : ending;
  r_disk : option env_file;
  r_environ : environ;
  r_ran : option (list string * environ)
}.

Section Generate.

Variable python : string.

(** [run_stream(cmd, env)]: the return code of the child. The child is
    taken not to write [.holodeck.env]. *)
Variable run_stream : list string -> environ -> Z.

(** [generate]. [bump_nofile_limit] touches the limits of the process
    only. [root] is [data/scenes] as the child left it:
    [latest_scene_json()] is called once the child returned 0, and what
    it returns feeds a message only, but a [stat()] that raises in it
    ends the command before anything is saved. *)
Definition generate (a : generate_args) (disk : option env_file)
           (root : scenes_root) (env : environ) : generate_result :=
  match load_env_file disk env with
  | LoadRaised e env1 =>
      {| r_ending := Raised e; r_disk := disk; r_environ := env1;
         r_ran := None |}
  | Loaded env1 =>
      match resolve_key a env1 with
      | None =>
          {| r_ending := Exited 1; r_disk := disk; r_environ := env1;
             r_ran := None |}
      | Some key =>
          if (key =? "")%string then
            {| r_ending := Exited 1; r_disk := disk; r_environ := env1;
               r_ran := None |}
          else
            let cenv := child_env a key env1 in
            let cmd := command python a key in
            let rc := run_stream cmd cenv in
            if negb (rc =? 0) then
              {| r_ending := Exited rc; r_disk := disk; r_environ := env1;
                 r_ran := Some (cmd, cenv) |}
            else
              match latest_scene_json root with
              | inl e =>
                  {| r_ending := Raised e; r_disk := disk;
                     r_environ := env1; r_ran := Some (cmd, cenv) |}
              | inr _ =>
                  if (g_remember_defaults a || g_remember_key a)%bool then
                    match save_env_file (remembered_pairs a key)
                                        (g_remember_key a) disk with
                    | Saved content =>
                        {| r_ending := Finished; r_disk := Some (Text content);
                           r_environ := env1; r_ran := Some (cmd, cenv) |}
                    | SaveRaised e =>
                        {| r_ending := Raised e; r_disk := disk;
                           r_environ := env1; r_ran := Some (cmd, cenv) |}
                    end
                  else
                    {| r_ending := Finished; r_disk := disk;
                       r_environ := env1; r_ran := Some (cmd, cenv) |}
              end
      end
  end.

End Generate.

End Ui.

Module App.

(** [app.py] *)

Definition load_env_file : option env_file -> environ -> loaded :=
  EnvFile.load_env_file (fun line => line).

Definition save_env_file : dict -> bool -> option env_file -> saved :=
  EnvFile.save_env_file (fun line => line).

(** The loop of [list_scene_jsons] over the sorted entries, with
    [all_jsons] so far. *)
Fixpoint collect (limit : Z) (dirs : list scene_dir)
         (all_jsons : list scene_file) : launcher_error + list scene_file :=
  match dirs with
  | [] => inr all_jsons
  | d :: rest =>
      match sorted_by_mtime f_mtime f_stat_raises (d_jsons d) with
      | inl e => inl e
      | inr js =>
          let all' := (all_jsons ++ js)%list in
          if limit <=? Z.of_nat (List.length all') then inr all'
          else collect limit rest all'
      end
  end.

(** [list_scene_jsons(limit)]: the list returned, or the error of a
    [stat()] that raised. *)
Definition list_scene_jsons (limit : Z) (root : scenes_root)
  : launcher_error + list scene_file :=
  match root with
  | None => inr []
  | Some entries =>
      match sorted_by_mtime d_mtime d_stat_raises entries with
      | inl e => inl e
      | inr dirs =>
          match collect limit dirs [] with
          | inl e => inl e
          | inr all_jsons => inr (slice_to limit all_jsons)
          end
      end
  end.

Definition latest_scene_json (root : scenes_root)
  : launcher_error + option scene_file :=
  match list_scene_jsons 1 root with
  | inl e => inl e
  | inr (j :: _) => inr (Some j)
  | inr [] => inr None
  end.

(** The dict handed to [save_env_file] after a generation. *)
Definition remembered_pairs (base_url model api_key : string) : dict :=
  [ ("OPENAI_API_BASE", base_url);
    ("OPENAI_BASE_URL", base_url);
    ("HOLODECK_MODEL", model);
    ("OPENAI_API_KEY", api_key) ].

End App.

(** ** Entries that survive being written and read back

    [save_env_file] writes [k=v] lines and reads them with [splitlines],
    [split("=", 1)] and [strip()]. An entry comes back as it was written
    when neither part holds a line boundary, neither part starts or ends
    with white space, and the key holds no [=] and does not start with
    [#]. *)

Definition starts_with (p : ascii -> bool) (s : string) : bool :=
  match s with
  | String c _ => p c
  | EmptyString => false
  end.

Definition ends_with (p : ascii -> bool) (s : string) : bool :=
  match PyStr.last_char s with
  | Some c => p c
  | None => false
  end.

Definition clean_value (v : string) : bool :=
  (negb (PyText.has_char PyText.is_linebreak v)
   && negb (starts_with PyText.is_space v)
   && negb (ends_with PyText.is_space v))%bool.

Definition clean_key (k : string) : bool :=
  (clean_value k
   && negb (PyText.has_char (Ascii.eqb "="%char) k)
   && negb (starts_with (Ascii.eqb "#"%char) k))%bool.

Definition clean_entry (e : string * string) : bool :=
  (clean_key (fst e) && clean_value (snd e))%bool.

(** The environment [load_env_file] leaves behind. *)
Definition loaded_env (l : loaded) : environ :=
  match l with
  | Loaded env => env
  | LoadRaised _ env => env
  end.

(** [os.environ] accepts the entry. *)
Definition accepted_entry (e : string * string) : bool :=
  environ_accepts (fst e) (snd e).

(** The line written for an entry, without its [\n]. *)
Definition line_of (e : string * string) : string :=
  fst e ++ "=" ++ snd e.

(** ** Sample files, scenes and runs of the launchers *)

Module Fixtures.

Definition nl : string := String PyText.LF EmptyString.

(** A file as [save_env_file] writes it. *)
Definition saved_dict : dict :=
  [ ("OPENAI_API_BASE", "https://h/api");
    ("HOLODECK_MODEL", "openai/gpt-4.1");
    ("OPENAI_API_KEY", "old-key") ].

Definition saved_file : string := EnvFile.render saved_dict.

Definition new_pairs : dict :=
  [ ("OPENAI_API_BASE", "https://g/v2"); ("OPENAI_API_KEY", "new-key") ].

(** A file written by hand: padded, with a comment, a repeated key and a
    line without [=]. *)
Definition hand_file : string :=
  "  A = 1 " ++ nl ++ "# note" ++ nl ++ "A=2" ++ nl ++ "junk" ++ nl.

(** A file with a line that has a value and no name. *)
Definition nameless_file : string :=
  "A=1" ++ nl ++ "  =x" ++ nl ++ "B=2".

Definition scene (path : string) (mtime : Z) : scene_file :=
  {| f_path := path; f_mtime := mtime; f_stat_raises := false |}.

Definition scenes : list scene_dir :=
  [ {| d_path := "data/scenes/a"; d_mtime := 10; d_stat_raises := false;
       d_jsons := [scene "data/scenes/a/1.json" 11;
                   scene "data/scenes/a/2.json" 12] |};
    {| d_path := "data/scenes/b"; d_mtime := 20; d_stat_raises := false;
       d_jsons := [] |};
    {| d_path := "data/scenes/c"; d_mtime := 15; d_stat_raises := false;
       d_jsons := [scene "data/scenes/c/1.json" 5;
                   scene "data/scenes/c/2.json" 7] |} ].

(** The same with a dangling link [data/scenes/z] beside the three. *)
Definition scenes_with_dangling_link : list scene_dir :=
  (scenes ++ [ {| d_path := "data/scenes/z"; d_mtime := 0;
                  d_stat_raises := true; d_jsons := [] |} ])%list.

(** The same with a dangling link [3.json] in the oldest directory. *)
Definition scenes_with_old_dangling_json : list scene_dir :=
  [ {| d_path := "data/scenes/a"; d_mtime := 10; d_stat_raises := false;
       d_jsons := [scene "data/scenes/a/1.json" 11;
                   {| f_path := "data/scenes/a/3.json"; f_mtime := 0;
                      f_stat_raises := true |}] |};
    {| d_path := "data/scenes/c"; d_mtime := 15; d_stat_raises := false;
       d_jsons := [scene "data/scenes/c/1.json" 5] |} ].

Definition args : Ui.generate_args :=
  {| Ui.g_prompt := "a cozy living room";
     Ui.g_model := "openai/gpt-4.1";
     Ui.g_base_url := "https://h/api/";
     Ui.g_api_key := "";
     Ui.g_generate_image := false;
     Ui.g_generate_video := false;
     Ui.g_add_ceiling := true;
     Ui.g_single_room := true;
     Ui.g_fast_mode := true;
     Ui.g_remember_defaults := true;
     Ui.g_remember_key := false |}.

(** A child that always succeeds. *)
Definition run_ok (_ : list string) (_ : environ) : Z := 0.

(** A response with status 200 whose body has both an [error] member and
    the content path. *)
Definition error_and_content_200 : response :=
  Sample.resp 200 "{...}"
    (Some (JObj [("error", JObj [("message", JStr "quota exceeded")]);
                 ("choices",
                  JArr [JObj [("message",
                               JObj [("content", JStr "partial")])]])])).

End Fixtures.

(** Steps over one dynamic operation in a goal [run ... = Raise f -> _ \/ _]:
    either the operation returned [v], or it raised, and then what it
    raised is an interpreter exception by [lem]. *)
Ltac probe op v lem :=
  let G := fresh "G" in
  let f := fresh "f" in
  destruct op as [v|f] eqn:G; simpl;
  [|intros [= <-]; left; eapply lem; eassumption].

(** * Properties *)

Example chair_scenario :
  __call__ nat (Sample.constant (Sample.resp 200 "" (Some Sample.chair_body)))
           Sample.client "describe a chair" 0%nat
  = (Returned (JStr "A wooden chair."),
     {| world := 1%nat;
        sent := [build_request Sample.client
                   "https://models.github.ai/inference/v1/chat/completions"
                   (build_payload Sample.client "describe a chair")] |}).
Proof. reflexivity. Qed.

Example status_text : PyStr.of_int 422 = "422".
Proof. reflexivity. Qed.

Example rstrip_example :
  PyStr.rstrip_slash "https://h/a//b///" = "https://h/a//b".
Proof. reflexivity. Qed.

(** ** Strings *)

Lemma rstrip_slashes_only (n : nat) :
  PyStr.rstrip_slash (PyStr.slashes n) = "".
Proof.
  induction n as [|n IH]; simpl; [reflexivity|].
  now rewrite IH.
Qed.

Lemma rstrip_app_slashes (s : string) (n : nat) :
  PyStr.rstrip_slash (s ++ PyStr.slashes n) = PyStr.rstrip_slash s.
Proof.
  induction s as [|c t IH]; simpl.
  - apply rstrip_slashes_only.
  - now rewrite IH.
Qed.

(** [rstrip] removes slashes only, and removes them all. *)
Lemma rstrip_decompose (s : string) :
  exists n, s = PyStr.rstrip_slash s ++ PyStr.slashes n.
Proof.
  induction s as [|c t [n IH]]; simpl.
  - now exists 0%nat.
  - destruct (PyStr.rstrip_slash t) as [|d t'] eqn:E.
    + destruct (Ascii.eqb_spec c "/") as [->|_].
      * exists (S n). simpl in *. now rewrite IH at 1.
      * exists n. simpl in *. now rewrite IH at 1.
    + exists n. simpl in *. now rewrite IH at 1.
Qed.

Lemma rstrip_no_trailing_slash (s : string) :
  PyStr.last_char (PyStr.rstrip_slash s) <> Some "/"%char.
Proof.
  induction s as [|c t IH]; simpl; [discriminate|].
  destruct (PyStr.rstrip_slash t) as [|d t'] eqn:E.
  - destruct (Ascii.eqb_spec c "/") as [->|N]; simpl; congruence.
  - exact IH.
Qed.

Lemma slashes_app (k n : nat) :
  PyStr.slashes (k + n) = PyStr.slashes k ++ PyStr.slashes n.
Proof.
  induction k as [|k IH]; simpl; [reflexivity|]. now rewrite IH.
Qed.

Lemma append_assoc (a b c : string) : (a ++ b) ++ c = a ++ b ++ c.
Proof.
  induction a as [|x a IH]; simpl; [reflexivity|]. now rewrite IH.
Qed.

Lemma take_length (n : nat) (s : string) :
  (String.length (PyStr.take n s) <= n)%nat.
Proof.
  unfold PyStr.take. revert s.
  induction n as [|n IH]; intros [|c t]; simpl; try lia.
  specialize (IH t). destruct t; simpl in *; lia.
Qed.

Lemma take_is_prefix (n : nat) (s : string) :
  prefix (PyStr.take n s) s = true.
Proof.
  unfold PyStr.take. revert s.
  induction n as [|n IH]; intros [|c t]; simpl; try reflexivity.
  destruct (ascii_dec c c) as [_|N]; [apply IH | now elim N].
Qed.

Lemma eqb_app_prefix (b x y : string) :
  (b ++ x =? b ++ y)%string = (x =? y)%string.
Proof.
  induction b as [|c t IH]; simpl; [reflexivity|].
  now rewrite Ascii.eqb_refl, IH.
Qed.

(** The two endpoints the constructor derives are never the same URL, so
    the test [url == self.endpoint_primary] fails on the second
    iteration. *)
Lemma fallback_is_not_primary (a : init_args) (env : environ) :
  (endpoint_fallback (__init__ a env) =? endpoint_primary (__init__ a env))%string
  = false.
Proof.
  simpl. now rewrite eqb_app_prefix.
Qed.

(** ** The loop, unfolded *)

Section Loop.

Variable World : Type.
Variable post : World -> request -> post_result * World.

Lemma call_no_key (c : GithubModelsLLM) (prompt : string) (w : World) :
  truthy_str (api_key c) = false ->
  __call__ World post c prompt w = (Failed ConfigError, {| world := w; sent := [] |}).
Proof.
  intros H. unfold __call__. now rewrite H.
Qed.

Lemma call_post_raised (c : GithubModelsLLM) (prompt : string)
      (w w1 : World) (e : string) :
  truthy_str (api_key c) = true ->
  post w (build_request c (endpoint_primary c) (build_payload c prompt))
  = (Raised e, w1) ->
  __call__ World post c prompt w = (Failed (PostRaised e), after_one c prompt w1).
Proof.
  intros K P. unfold __call__. rewrite K. simpl.
  unfold _post. simpl. now rewrite P.
Qed.

Lemma call_first (c : GithubModelsLLM) (prompt : string) (w w1 : World)
      (r : response) :
  truthy_str (api_key c) = true ->
  post w (build_request c (endpoint_primary c) (build_payload c prompt))
  = (Responded r, w1) ->
  __call__ World post c prompt w =
  match classify c (endpoint_primary c) r with
  | Continue => try_urls World post c (build_payload c prompt) [endpoint_fallback c]
                         (after_one c prompt w1)
  | Return v => (Returned v, after_one c prompt w1)
  | Raise f => (Failed f, after_one c prompt w1)
  end.
Proof.
  intros K P. unfold __call__. rewrite K. simpl.
  unfold _post. simpl. rewrite P. reflexivity.
Qed.

Lemma try_fallback (c : GithubModelsLLM) (prompt : string) (w1 : World) :
  try_urls World post c (build_payload c prompt) [endpoint_fallback c]
           (after_one c prompt w1) =
  let rq := build_request c (endpoint_fallback c) (build_payload c prompt) in
  let st := after_two c prompt (snd (post w1 rq)) in
  match fst (post w1 rq) with
  | Raised e => (Failed (PostRaised e), st)
  | Responded r =>
      match classify c (endpoint_fallback c) r with
      | Continue => (Failed EndpointUnavailable, st)
      | Return v => (Returned v, st)
      | Raise f => (Failed f, st)
      end
  end.
Proof.
  simpl. unfold _post. simpl.
  destruct (post w1 _) as [[r|e] w2]; simpl; [|reflexivity].
  destruct (classify c (endpoint_fallback c) r); reflexivity.
Qed.

(** Whatever the fallback answers, the call ends there, with both
    requests sent. *)
Lemma try_fallback_sent (c : GithubModelsLLM) (prompt : string) (w1 : World) :
  snd (try_urls World post c (build_payload c prompt) [endpoint_fallback c]
                (after_one c prompt w1))
  = after_two c prompt
      (snd (post w1 (build_request c (endpoint_fallback c)
                                   (build_payload c prompt)))).
Proof.
  rewrite try_fallback. simpl.
  destruct (fst (post w1 _)) as [r|e]; [|reflexivity].
  destruct (classify c (endpoint_fallback c) r); reflexivity.
Qed.

End Loop.

(** ** The dynamic operations raise interpreter exceptions only *)

Lemma get_raises (v : json) (k : string) (d : json) (f : failure) :
  Py.get v k d = Exc f -> exists e, f = PyError e.
Proof.
  destruct v; simpl; intros [= <-]; eauto.
Qed.

Lemma getitem_raises (v : json) (k : string) (f : failure) :
  Py.getitem v k = Exc f -> exists e, f = PyError e.
Proof.
  destruct v as [| | | | | |m]; simpl; try (intros [= <-]; eauto).
  destruct (Py.lookup k m); intros [= <-]; eauto.
Qed.

Lemma getitem0_raises (v : json) (f : failure) :
  Py.getitem0 v = Exc f -> exists e, f = PyError e.
Proof.
  destruct v as [| | | |[|]|[|]|]; simpl; intros [= <-]; eauto.
Qed.

Lemma contains_key_raises (k : string) (v : json) (f : failure) :
  Py.contains_key k v = Exc f -> exists e, f = PyError e.
Proof.
  destruct v; simpl; intros [= <-]; eauto.
Qed.

Lemma slice_raises (n : nat) (v : json) (f : failure) :
  Py.slice_to n v = Exc f -> exists e, f = PyError e.
Proof.
  destruct v; simpl; intros [= <-]; eauto.
Qed.

Lemma firstn_length_le {A : Type} (n : nat) (l : list A) :
  (List.length (firstn n l) <= n)%nat.
Proof.
  rewrite length_firstn. lia.
Qed.

Lemma slice_length (n : nat) (v x : json) :
  Py.slice_to n v = Val x ->
  match x with
  | JStr t => (String.length t <= n)%nat
  | JArr l => (List.length l <= n)%nat
  | _ => False
  end.
Proof.
  destruct v; simpl; intros H; inversion H; subst.
  - apply take_length.
  - apply firstn_length_le.
Qed.

Lemma slice_bounded (v x : json) :
  Py.slice_to 300 v = Val x -> bounded_excerpt (OfMessage x).
Proof.
  intros H. exact (slice_length 300 v x H).
Qed.

Lemma error_probe_ok_inv (data : json) :
  Shape.error_probe_ok data = true ->
  exists mb e, data = JObj mb /\ Py.lookup_or "error" mb (JObj []) = JObj e.
Proof.
  destruct data as [| | | | | |mb]; try discriminate.
  unfold Shape.error_probe_ok, Py.lookup_or.
  destruct (Py.lookup "error" mb) as [[| | | | | |e]|] eqn:L;
    try discriminate; intros _;
    eexists _, _; (split; [reflexivity|]); rewrite L; eauto.
Qed.

Lemma structured_error_inv (data : json) :
  Shape.structured_error data = true ->
  exists mb e, data = JObj mb /\ Py.lookup_or "error" mb (JObj []) = JObj e
               /\ Shape.error_field data = Some (JObj e).
Proof.
  destruct data as [| | | | | |mb]; try discriminate.
  unfold Shape.structured_error, Shape.error_field, Py.lookup_or.
  destruct (Py.lookup "error" mb) as [[| | | | | |e]|] eqn:L;
    try discriminate; intros _;
    eexists _, _; (split; [reflexivity|]); rewrite L; eauto.
Qed.

(** ** One iteration: how a response is classified *)

Section Classification.

Variable c : GithubModelsLLM.
Variable url : string.
Variable r : response.

Lemma non_json_auth :
  body_json r = None -> is_auth_status (status_code r) = true ->
  classify c url r = Raise (Unauthorized url (PyStr.take 300 (text r))).
Proof.
  intros B A. unfold classify, on_non_json. now rewrite B, A.
Qed.

Lemma non_json_wrong_path :
  body_json r = None -> is_wrong_path_status (status_code r) = true ->
  classify c url r = Continue.
Proof.
  intros B P. unfold classify, on_non_json. rewrite B, P.
  unfold is_wrong_path_status, is_auth_status in *.
  destruct (status_code r =? 401) eqn:E1; [lia|].
  destruct (status_code r =? 403) eqn:E3; [lia|]. reflexivity.
Qed.

Lemma non_json_other :
  body_json r = None -> is_auth_status (status_code r) = false ->
  is_wrong_path_status (status_code r) = false ->
  classify c url r
  = Raise (TransportError (status_code r) url (PyStr.take 500 (text r))).
Proof.
  intros B A P. unfold classify, on_non_json. now rewrite B, A, P.
Qed.

Lemma json_success (data v : json) :
  body_json r = Some data -> status_code r < 300 ->
  Shape.error_field data = None -> Shape.content_path data = Some v ->
  classify c url r = Return v.
Proof.
  intros B S E P. unfold classify. rewrite B.
  unfold on_json, is_error_response.
  destruct (300 <=? status_code r) eqn:L; [lia|].
  destruct data as [| | | | | |m]; try discriminate.
  simpl in E, P. simpl. rewrite E. simpl.
  unfold extract_content. simpl.
  destruct (Py.lookup "choices" m) as [[| | | | |[|[| | | | | |fm] rest]|]|];
    try discriminate.
  simpl.
  destruct (Py.lookup "message" fm) as [[| | | | | |mm]|]; try discriminate.
  simpl. now rewrite P.
Qed.

(** With a status of 300 or more the body is probed with [.get]; on an
    object whose [error] member is absent (then [{}] stands for it) or
    an object, the probes return and the outcome is read off the
    [code] and [message] members. *)
Lemma json_error_probe (mb e : list (string * json)) :
  body_json r = Some (JObj mb) -> 300 <= status_code r ->
  Py.lookup_or "error" mb (JObj []) = JObj e ->
  classify c url r =
  let code := Py.lookup_or "code" e JNull in
  let m := Py.lookup_or "message" e JNull in
  if ((url =? endpoint_primary c)%string
      && is_unknown_model_status (status_code r))%bool
  then Continue
  else if Py.truthy m then
    match Py.slice_to 300 m with
    | Val v => Raise (ModelError (status_code r) code (OfMessage v))
    | Exc f => Raise f
    end
  else Raise (ModelError (status_code r) code (OfBody (JObj mb))).
Proof.
  intros B S E. unfold classify. rewrite B.
  unfold on_json, is_error_response.
  destruct (300 <=? status_code r) eqn:L; [|lia]. simpl.
  unfold on_error. simpl. rewrite E. simpl.
  destruct (_ && _)%bool; [reflexivity|].
  destruct (Py.truthy _); [|reflexivity].
  destruct (Py.slice_to 300 _); reflexivity.
Qed.

(** A status of 401 or 403 ends the call at this response. *)
Lemma auth_status_raises :
  is_auth_status (status_code r) = true ->
  exists f, classify c url r = Raise f.
Proof.
  intros A. unfold classify.
  destruct (body_json r) as [data|] eqn:B.
  - assert (S : 300 <= status_code r)
      by (unfold is_auth_status in A; lia).
    assert (N : is_unknown_model_status (status_code r) = false)
      by (unfold is_auth_status, is_unknown_model_status in *; lia).
    unfold on_json, is_error_response.
    destruct (300 <=? status_code r) eqn:L; [|lia]. simpl.
    unfold on_error. rewrite N, andb_false_r.
    destruct (Py.get data "error" (JObj [])) as [err|f]; simpl; [|eauto].
    destruct (Py.get err "code" JNull) as [code|f]; simpl; [|eauto].
    destruct (Py.get err "message" JNull) as [m|f]; simpl; [|eauto].
    destruct (Py.truthy m); simpl; [|eauto].
    destruct (Py.slice_to 300 m); simpl; eauto.
  - unfold on_non_json. rewrite A. eauto.
Qed.

(** The error a status of 401 or 403 ends the call with, for every shape
    of the body. *)
Lemma auth_status_failure :
  is_auth_status (status_code r) = true ->
  classify c url r
  = Raise
      match body_json r with
      | None => Unauthorized url (PyStr.take 300 (text r))
      | Some (JObj mb) =>
          match Py.lookup_or "error" mb (JObj []) with
          | JObj e =>
              let code := Py.lookup_or "code" e JNull in
              let m := Py.lookup_or "message" e JNull in
              if Py.truthy m then
                match Py.slice_to 300 m with
                | Val v => ModelError (status_code r) code (OfMessage v)
                | Exc f => f
                end
              else ModelError (status_code r) code (OfBody (JObj mb))
          | _ => PyError AttributeError
          end
      | Some _ => PyError AttributeError
      end.
Proof.
  intros A.
  assert (S : 300 <= status_code r) by (unfold is_auth_status in A; lia).
  assert (N : is_unknown_model_status (status_code r) = false)
    by (unfold is_auth_status, is_unknown_model_status in *; lia).
  destruct (body_json r) as [data|] eqn:B.
  - destruct data as [| | | | | |mb];
      try (unfold classify; rewrite B; unfold on_json, is_error_response;
           destruct (300 <=? status_code r) eqn:L; [|lia];
           reflexivity).
    destruct (Py.lookup_or "error" mb (JObj [])) as [| | | | | |e] eqn:E;
      try (unfold classify; rewrite B; unfold on_json, is_error_response;
           destruct (300 <=? status_code r) eqn:L; [|lia];
           simpl; unfold on_error; simpl; rewrite E; reflexivity).
    rewrite (json_error_probe mb e B S E). cbv zeta.
    rewrite N, andb_false_r.
    destruct (Py.truthy _); [|reflexivity].
    destruct (Py.slice_to 300 _); reflexivity.
  - now apply non_json_auth.
Qed.

(** What the loop body raises once the body parsed, read off that body:
    an exception of the interpreter, or the API error with the status
    of this response, the [code] member of the body's [error] object
    and the slice of its [message] member (the whole body standing for
    a message that is absent or falsy). *)
Lemma json_raise_of_body (data : json) (f : failure) :
  body_json r = Some data ->
  classify c url r = Raise f ->
  (exists e, f = PyError e) \/
  (exists (mb e : list (string * json)) (ex : msg_excerpt),
      data = JObj mb /\
      Py.lookup_or "error" mb (JObj []) = JObj e /\
      ((Py.truthy (Py.lookup_or "message" e JNull) = true /\
        exists v, Py.slice_to 300 (Py.lookup_or "message" e JNull) = Val v /\
                  ex = OfMessage v) \/
       (Py.truthy (Py.lookup_or "message" e JNull) = false /\
        ex = OfBody (JObj mb))) /\
      f = ModelError (status_code r) (Py.lookup_or "code" e JNull) ex /\
      bounded_excerpt ex).
Proof.
  intros B. unfold classify. rewrite B. unfold on_json.
  destruct (is_error_response r data) as [[|]|f0] eqn:E; simpl.
  - unfold on_error.
    destruct data as [| | | | | |mb];
      try (simpl; intros [= <-]; left; eauto).
    cbn [Py.get bind].
    destruct (Py.lookup_or "error" mb (JObj [])) as [| | | | | |e] eqn:L;
      try (simpl; intros [= <-]; left; eauto).
    cbn [Py.get bind].
    destruct (_ && _)%bool; cbn [run]; [discriminate|].
    destruct (Py.truthy (Py.lookup_or "message" e JNull)) eqn:T.
    + destruct (Py.slice_to 300 (Py.lookup_or "message" e JNull))
        as [v|f1] eqn:SL; cbn [bind run].
      * intros [= <-]. right. exists mb, e, (OfMessage v).
        repeat split; eauto.
        eapply slice_bounded; eassumption.
      * intros [= <-]. left. eapply slice_raises; eassumption.
    + cbn [run]. intros [= <-]. right. exists mb, e, (OfBody (JObj mb)).
      repeat split; eauto.
  - unfold extract_content.
    probe (Py.getitem data "choices") ch getitem_raises.
    probe (Py.getitem0 ch) fi getitem0_raises.
    probe (Py.getitem fi "message") ms getitem_raises.
    probe (Py.getitem ms "content") ct getitem_raises.
    discriminate.
  - intros [= <-]. left. unfold is_error_response in E.
    destruct (300 <=? status_code r); [discriminate|].
    eapply contains_key_raises; eassumption.
Qed.

(** What the loop body can raise once the body parsed: an exception
    of the interpreter, or the API error with the status of this
    response and a bounded slice of the message. *)
Lemma json_raise (data : json) (f : failure) :
  body_json r = Some data ->
  classify c url r = Raise f ->
  (exists e, f = PyError e) \/
  (exists code ex, f = ModelError (status_code r) code ex /\ bounded_excerpt ex).
Proof.
  intros B. unfold classify. rewrite B. unfold on_json.
  destruct (is_error_response r data) as [[|]|f0] eqn:E; simpl.
  - unfold on_error.
    probe (Py.get data "error" (JObj [])) err get_raises.
    probe (Py.get err "code" JNull) code get_raises.
    probe (Py.get err "message" JNull) m get_raises.
    destruct (_ && _)%bool; simpl; [discriminate|].
    destruct (Py.truthy m); simpl.
    + probe (Py.slice_to 300 m) v slice_raises.
      intros [= <-]. right. exists code, (OfMessage v).
      split; [reflexivity|]. eapply slice_bounded; eassumption.
    + intros [= <-]. right. now exists code, (OfBody data).
  - unfold extract_content.
    probe (Py.getitem data "choices") ch getitem_raises.
    probe (Py.getitem0 ch) fi getitem0_raises.
    probe (Py.getitem fi "message") ms getitem_raises.
    probe (Py.getitem ms "content") ct getitem_raises.
    discriminate.
  - intros [= <-]. left. unfold is_error_response in E.
    destruct (300 <=? status_code r); [discriminate|].
    eapply contains_key_raises; eassumption.
Qed.

(** In particular the [Unauthorized] error is never raised for a body
    that parsed. *)
Lemma json_never_unauthorized (data : json) (u ex : string) :
  body_json r = Some data ->
  classify c url r <> Raise (Unauthorized u ex).
Proof.
  intros B H.
  destruct (json_raise data _ B H) as [[e E]|(code & x & E & _)];
    discriminate.
Qed.

(** What the loop body can raise when the body did not parse. *)
Lemma non_json_raise (f : failure) :
  body_json r = None ->
  classify c url r = Raise f ->
  f = Unauthorized url (PyStr.take 300 (text r)) \/
  f = TransportError (status_code r) url (PyStr.take 500 (text r)).
Proof.
  intros B. unfold classify, on_non_json. rewrite B.
  destruct (is_auth_status _); [intros [= <-]; now left|].
  destruct (is_wrong_path_status _); [discriminate|].
  intros [= <-]. now right.
Qed.

End Classification.

(** ** The call operation *)

Section Claims.

Variable World : Type.
Variable post : World -> request -> post_result * World.

(** C3. The constructor has no failing path: for any arguments and
    environment it builds a client, which simply holds the missing
    credential. Calling that client when the resolved credential is
    unset or empty raises the missing-key error before anything is
    posted: the transport is left as it was and no request is recorded. *)
Theorem missing_credential_config_error
        (a : init_args) (env : environ) (prompt : string) (w : World) :
  resolve_api_key a env = None \/ resolve_api_key a env = Some "" ->
  api_key (__init__ a env) = resolve_api_key a env /\
  __call__ World post (__init__ a env) prompt w
  = (Failed ConfigError, {| world := w; sent := [] |}).
Proof.
  intros H. split; [reflexivity|].
  apply call_no_key. simpl. now destruct H as [-> | ->].
Qed.

(** C4. With a credential set, when the primary endpoint answers with a
    status below 300 and a JSON body that has no [error] member at all
    (the key is absent) and has the path [choices[0].message.content],
    the call returns the value at that path and exactly one request has
    been sent, to the primary URL. *)
Theorem primary_success_one_call
        (c : GithubModelsLLM) (prompt : string) (w w1 : World)
        (r : response) (data v : json) :
  truthy_str (api_key c) = true ->
  post w (build_request c (endpoint_primary c) (build_payload c prompt))
  = (Responded r, w1) ->
  status_code r < 300 ->
  body_json r = Some data ->
  Shape.error_field data = None ->
  Shape.content_path data = Some v ->
  __call__ World post c prompt w
  = (Returned v,
     {| world := w1;
        sent := [build_request c (endpoint_primary c)
                               (build_payload c prompt)] |}) /\
  map req_url (sent (snd (__call__ World post c prompt w)))
  = [endpoint_primary c].
Proof.
  intros K P S B E C.
  rewrite (call_first World post c prompt w w1 r K P).
  rewrite (json_success c _ r data v B S E C). split; reflexivity.
Qed.

(** C5. With a credential set, when the primary endpoint answers 404 or
    405 with a body that does not parse as JSON, the call posts exactly
    once more, to the fallback URL and with the same payload, and ends
    with whatever that second attempt gives: the requests recorded when
    the call ends are the primary one followed by the fallback one,
    their URLs are the primary URL and the fallback URL, and both carry
    the payload built from the prompt. *)
Theorem wrong_path_tries_fallback_once
        (c : GithubModelsLLM) (prompt : string) (w w1 : World)
        (r : response) :
  truthy_str (api_key c) = true ->
  post w (build_request c (endpoint_primary c) (build_payload c prompt))
  = (Responded r, w1) ->
  body_json r = None ->
  status_code r = 404 \/ status_code r = 405 ->
  snd (__call__ World post c prompt w)
  = {| world := snd (post w1 (build_request c (endpoint_fallback c)
                                            (build_payload c prompt)));
       sent := [build_request c (endpoint_primary c) (build_payload c prompt);
                build_request c (endpoint_fallback c) (build_payload c prompt)]
    |} /\
  map req_url (sent (snd (__call__ World post c prompt w)))
  = [endpoint_primary c; endpoint_fallback c] /\
  map req_json (sent (snd (__call__ World post c prompt w)))
  = [build_payload c prompt; build_payload c prompt].
Proof.
  intros K P B S.
  rewrite (call_first World post c prompt w w1 r K P).
  rewrite non_json_wrong_path; [| exact B |].
  - rewrite try_fallback_sent. repeat split.
  - unfold is_wrong_path_status. destruct S as [-> | ->]; reflexivity.
Qed.

(** C7. The client built by the constructor has its two endpoints made
    from its base URL, the primary with [/v1/chat/completions] and the
    fallback with [/chat/completions]. Whatever the transport answers,
    the requests of one call are none, the primary one, or the primary
    one followed by the fallback one, and each carries the one payload
    built from the prompt. *)
Theorem two_endpoints_same_payload (a : init_args) (env : environ) :
  let c := __init__ a env in
  endpoint_primary c = base_url c ++ "/v1/chat/completions" /\
  endpoint_fallback c = base_url c ++ "/chat/completions" /\
  forall (prompt : string) (w : World),
    let p := build_payload c prompt in
    let rq1 := build_request c (endpoint_primary c) p in
    let rq2 := build_request c (endpoint_fallback c) p in
    let log := sent (snd (__call__ World post c prompt w)) in
    (log = [] \/ log = [rq1] \/ log = [rq1; rq2]) /\
    req_json rq1 = p /\ req_json rq2 = p /\
    req_url rq1 = endpoint_primary c /\ req_url rq2 = endpoint_fallback c.
Proof.
  intros c. split; [reflexivity|]. split; [reflexivity|].
  intros prompt w p rq1 rq2 log.
  split; [|repeat split].
  subst log.
  destruct (truthy_str (api_key c)) eqn:K.
  - destruct (post w rq1) as [[r|e] w1] eqn:P.
    + rewrite (call_first World post c prompt w w1 r K P).
      destruct (classify c (endpoint_primary c) r).
      * rewrite try_fallback_sent. right; right; reflexivity.
      * right; left; reflexivity.
      * right; left; reflexivity.
    + rewrite (call_post_raised World post c prompt w w1 e K P).
      right; left; reflexivity.
  - rewrite (call_no_key World post c prompt w K). left; reflexivity.
Qed.

End Claims.

(** C9. The constructor strips every trailing slash of the base URL it
    resolved: the base URL of the client does not end with a slash, and
    the resolved URL is that base URL followed by slashes only. Hence
    two configurations whose resolved base URLs differ by trailing
    slashes only, and whose other resolved fields agree, build the same
    client, with the same base URL and the same two endpoints, made of
    that base URL and the two paths, hence the same requests. *)
Theorem trailing_slashes_ignored
        (a1 a2 : init_args) (env1 env2 : environ) (n : nat) :
  raw_base_url a2 env2 = raw_base_url a1 env1 ++ PyStr.slashes n ->
  resolve_api_key a2 env2 = resolve_api_key a1 env1 ->
  resolve_model a2 env2 = resolve_model a1 env1 ->
  arg_max_tokens a2 = arg_max_tokens a1 ->
  arg_temperature a2 = arg_temperature a1 ->
  arg_timeout a2 = arg_timeout a1 ->
  resolve_trust_env a2 env2 = resolve_trust_env a1 env1 ->
  __init__ a2 env2 = __init__ a1 env1 /\
  endpoint_primary (__init__ a2 env2)
  = PyStr.rstrip_slash (raw_base_url a1 env1) ++ "/v1/chat/completions" /\
  endpoint_fallback (__init__ a2 env2)
  = PyStr.rstrip_slash (raw_base_url a1 env1) ++ "/chat/completions" /\
  PyStr.last_char (base_url (__init__ a2 env2)) <> Some "/"%char /\
  (exists k : nat,
     raw_base_url a1 env1
     = base_url (__init__ a2 env2) ++ PyStr.slashes k /\
     raw_base_url a2 env2
     = base_url (__init__ a2 env2) ++ PyStr.slashes (k + n)) /\
  endpoint_primary (__init__ a2 env2)
  = base_url (__init__ a2 env2) ++ "/v1/chat/completions" /\
  endpoint_fallback (__init__ a2 env2)
  = base_url (__init__ a2 env2) ++ "/chat/completions".
Proof.
  intros B K M T Te Ti Tr.
  assert (E : resolve_base_url a2 env2 = resolve_base_url a1 env1).
  { unfold resolve_base_url. rewrite B. apply rstrip_app_slashes. }
  assert (I : __init__ a2 env2 = __init__ a1 env1).
  { unfold __init__. now rewrite E, K, M, T, Te, Ti, Tr. }
  rewrite I. repeat split.
  - simpl. apply rstrip_no_trailing_slash.
  - destruct (rstrip_decompose (raw_base_url a1 env1)) as [k D].
    exists k. simpl. unfold resolve_base_url. split; [exact D|].
    rewrite B. rewrite D at 1.
    rewrite slashes_app. now rewrite append_assoc.
Qed.

(** ** Where the loop advances and where it stops *)

Section Fallback.

Variable World : Type.
Variable post : World -> request -> post_result * World.

(** C10, as the code has it. On the primary endpoint, a response with
    status 404 or 422 whose body parses as a JSON object in which the
    [error] member is absent or is an object makes the loop advance:
    the call posts to the fallback endpoint next. The [error] key need
    not be there. *)
Theorem primary_unknown_model_advances
        (c : GithubModelsLLM) (prompt : string) (w w1 : World)
        (r : response) (data : json) :
  truthy_str (api_key c) = true ->
  post w (build_request c (endpoint_primary c) (build_payload c prompt))
  = (Responded r, w1) ->
  status_code r = 404 \/ status_code r = 422 ->
  body_json r = Some data ->
  Shape.error_probe_ok data = true ->
  classify c (endpoint_primary c) r = Continue /\
  snd (__call__ World post c prompt w)
  = after_two c prompt
      (snd (post w1 (build_request c (endpoint_fallback c)
                                   (build_payload c prompt)))).
Proof.
  intros K P S B OK.
  destruct (error_probe_ok_inv data OK) as (mb & e & -> & E).
  assert (C : classify c (endpoint_primary c) r = Continue).
  { rewrite (json_error_probe c _ r mb e B); [|lia|exact E].
    simpl. rewrite String.eqb_refl. unfold is_unknown_model_status.
    destruct S as [-> | ->]; reflexivity. }
  split; [exact C|].
  rewrite (call_first World post c prompt w w1 r K P), C.
  apply try_fallback_sent.
Qed.

(** C1, as the code has it. When both endpoints answer 422 with a JSON
    object whose [error] member is an object, the call ends after the
    second request with the error built from the fallback's response:
    the API error carrying status 422, the server's [code] and the
    slice of its [message] (or an interpreter exception when that
    message is a truthy value that cannot be sliced). It is not the
    endpoints-exhausted error. *)
Theorem both_422_ends_with_fallback_error
        (a : init_args) (env : environ) (c : GithubModelsLLM)
        (prompt : string) (w w1 w2 : World) (r1 r2 : response)
        (d1 d2 : json) (e2 : list (string * json)) :
  c = __init__ a env ->
  truthy_str (api_key c) = true ->
  post w (build_request c (endpoint_primary c) (build_payload c prompt))
  = (Responded r1, w1) ->
  post w1 (build_request c (endpoint_fallback c) (build_payload c prompt))
  = (Responded r2, w2) ->
  status_code r1 = 422 -> status_code r2 = 422 ->
  body_json r1 = Some d1 -> body_json r2 = Some d2 ->
  Shape.structured_error d1 = true ->
  Shape.error_field d2 = Some (JObj e2) ->
  __call__ World post c prompt w
  = (Failed
       (let code := Py.lookup_or "code" e2 JNull in
        let m := Py.lookup_or "message" e2 JNull in
        if Py.truthy m then
          match Py.slice_to 300 m with
          | Val v => ModelError 422 code (OfMessage v)
          | Exc f => f
          end
        else ModelError 422 code (OfBody d2)),
     after_two c prompt w2) /\
  fst (__call__ World post c prompt w) <> Failed EndpointUnavailable.
Proof.
  intros -> K P1 P2 S1 S2 B1 B2 E1 E2.
  set (c := __init__ a env) in *.
  destruct (structured_error_inv d1 E1) as (m1 & e1 & -> & L1 & _).
  destruct d2 as [| | | | | |m2]; try discriminate. simpl in E2.
  assert (L2 : Py.lookup_or "error" m2 (JObj []) = JObj e2)
    by (unfold Py.lookup_or; now rewrite E2).
  assert (C1 : classify c (endpoint_primary c) r1 = Continue).
  { rewrite (json_error_probe c _ r1 m1 e1 B1); [|lia|exact L1].
    simpl. rewrite String.eqb_refl, S1. reflexivity. }
  pose proof (json_error_probe c (endpoint_fallback c) r2 m2 e2 B2) as C2.
  rewrite S2 in C2. specialize (C2 ltac:(lia) L2).
  assert (N : (endpoint_fallback c =? endpoint_primary c)%string = false)
    by apply fallback_is_not_primary.
  cbv zeta in C2. rewrite N in C2. cbn [andb] in C2.
  rewrite (call_first World post c prompt w w1 r1 K P1), C1.
  rewrite try_fallback. cbv zeta. rewrite P2. cbn [fst snd].
  rewrite C2.
  destruct (Py.truthy _).
  - destruct (Py.slice_to 300 _) as [v|f] eqn:SL; simpl.
    + split; [reflexivity|discriminate].
    + split; [reflexivity|].
      destruct (slice_raises _ _ _ SL) as [e ->]. discriminate.
  - split; [reflexivity|discriminate].
Qed.

(** C2, as the code has it. A status of 401 or 403 on the response of
    the current endpoint - the primary one, or the fallback one after
    the primary response made the loop advance - ends the call at that
    response: nothing more is sent. The error is the [Unauthorized] one,
    with the URL and the first 300 characters of the body, only when the
    body does not parse as JSON. When it parses to an object whose
    [error] member is absent or an object, the error is the API error
    with the status, the [code] member of that object and the first 300
    characters of its [message] member, or of the printed body when the
    message is absent or falsy (an interpreter exception when a truthy
    message cannot be sliced). For every other JSON body it is the
    [AttributeError] of the [.get] probe. *)
Theorem auth_status_ends_call
        (c : GithubModelsLLM) (prompt : string) (w : World)
        (url : string) (r : response) (st : state World) :
  truthy_str (api_key c) = true ->
  (url = endpoint_primary c /\
   exists w1,
     post w (build_request c (endpoint_primary c) (build_payload c prompt))
     = (Responded r, w1) /\
     st = after_one c prompt w1) \/
  (url = endpoint_fallback c /\
   exists r1 w1 w2,
     post w (build_request c (endpoint_primary c) (build_payload c prompt))
     = (Responded r1, w1) /\
     classify c (endpoint_primary c) r1 = Continue /\
     post w1 (build_request c (endpoint_fallback c) (build_payload c prompt))
     = (Responded r, w2) /\
     st = after_two c prompt w2) ->
  status_code r = 401 \/ status_code r = 403 ->
  __call__ World post c prompt w
  = (Failed
       match body_json r with
       | None => Unauthorized url (PyStr.take 300 (text r))
       | Some (JObj mb) =>
           match Py.lookup_or "error" mb (JObj []) with
           | JObj e =>
               let code := Py.lookup_or "code" e JNull in
               let m := Py.lookup_or "message" e JNull in
               if Py.truthy m then
                 match Py.slice_to 300 m with
                 | Val v => ModelError (status_code r) code (OfMessage v)
                 | Exc f => f
                 end
               else ModelError (status_code r) code (OfBody (JObj mb))
           | _ => PyError AttributeError
           end
       | Some _ => PyError AttributeError
       end,
     st).
Proof.
  intros K Pos S.
  assert (A : is_auth_status (status_code r) = true)
    by (unfold is_auth_status; destruct S as [-> | ->]; reflexivity).
  pose proof (auth_status_failure c url r A) as C.
  destruct Pos as [(-> & w1 & P & ->) | (-> & r1 & w1 & w2 & P1 & C1 & P2 & ->)].
  - now rewrite (call_first World post c prompt w w1 r K P), C.
  - rewrite (call_first World post c prompt w w1 r1 K P1), C1.
    rewrite try_fallback. cbv zeta. rewrite P2. cbn [fst snd].
    now rewrite C.
Qed.

(** On the fallback endpoint only a body that did not parse, with status
    404 or 405, lets the loop run on, and then into the error after it. *)
Lemma fallback_continue (a : init_args) (env : environ) (r : response) :
  classify (__init__ a env) (endpoint_fallback (__init__ a env)) r = Continue ->
  body_json r = None /\ is_wrong_path_status (status_code r) = true.
Proof.
  pose proof (fallback_is_not_primary a env) as N.
  remember (__init__ a env) as c eqn:Ec. clear Ec.
  unfold classify. destruct (body_json r) as [data|].
  - unfold on_json.
    destruct (is_error_response r data) as [[|]|f]; simpl; [| |discriminate].
    + unfold on_error. rewrite N. cbn [andb].
      destruct (Py.get data "error" (JObj [])) as [err|f]; simpl;
        [|discriminate].
      destruct (Py.get err "code" JNull) as [code|f]; simpl; [|discriminate].
      destruct (Py.get err "message" JNull) as [m|f]; simpl; [|discriminate].
      destruct (Py.truthy m); simpl; [|discriminate].
      destruct (Py.slice_to 300 m); simpl; discriminate.
    + destruct (extract_content data); simpl; discriminate.
  - unfold on_non_json.
    destruct (is_auth_status _); [discriminate|].
    destruct (is_wrong_path_status _); [now split | discriminate].
Qed.

Lemma classify_never_exhausted (c : GithubModelsLLM) (url : string)
      (r : response) :
  classify c url r <> Raise EndpointUnavailable.
Proof.
  intros H. destruct (body_json r) as [data|] eqn:B.
  - destruct (json_raise c url r data _ B H) as [[e E]|(code & x & E & _)];
      discriminate.
  - destruct (non_json_raise c url r _ B H); discriminate.
Qed.

(** The endpoints-exhausted error is raised in one situation only: the
    loop ran past the fallback, whose body did not parse and whose status
    was 404 or 405. *)
Lemma exhausted_only_past_fallback
      (a : init_args) (env : environ) (prompt : string) (w : World)
      (st : state World) :
  __call__ World post (__init__ a env) prompt w
  = (Failed EndpointUnavailable, st) ->
  exists r2,
    answered World post (__init__ a env) prompt w
             (endpoint_fallback (__init__ a env)) r2 /\
    body_json r2 = None /\ is_wrong_path_status (status_code r2) = true.
Proof.
  set (c := __init__ a env). intros H.
  destruct (truthy_str (api_key c)) eqn:K.
  2:{ rewrite (call_no_key World post c prompt w K) in H. discriminate. }
  destruct (post w (build_request c (endpoint_primary c)
                                  (build_payload c prompt)))
    as [[r1|e1] w1] eqn:P1.
  2:{ rewrite (call_post_raised World post c prompt w w1 e1 K P1) in H.
      discriminate. }
  rewrite (call_first World post c prompt w w1 r1 K P1) in H.
  destruct (classify c (endpoint_primary c) r1) as [|v|f1] eqn:C1.
  - rewrite try_fallback in H. cbv zeta in H.
    destruct (post w1 (build_request c (endpoint_fallback c)
                                     (build_payload c prompt)))
      as [[r2|e2] w2] eqn:P2; cbn [fst snd] in H; [|discriminate].
    destruct (classify c (endpoint_fallback c) r2) as [|v|f2] eqn:C2.
    + exists r2. split; [|exact (fallback_continue a env r2 C2)].
      right. unfold answered. cbv zeta. rewrite P1. cbn [fst snd].
      rewrite P2. now split.
    + discriminate.
    + injection H as -> _.
      now elim (classify_never_exhausted c (endpoint_fallback c) r2).
  - discriminate.
  - injection H as -> _.
    now elim (classify_never_exhausted c (endpoint_primary c) r1).
Qed.

(** A status of 401 or 403 on the fallback ends the call as well, with
    both requests sent. *)
Lemma auth_status_on_fallback
      (c : GithubModelsLLM) (prompt : string) (w w1 w2 : World)
      (r1 r2 : response) :
  truthy_str (api_key c) = true ->
  post w (build_request c (endpoint_primary c) (build_payload c prompt))
  = (Responded r1, w1) ->
  classify c (endpoint_primary c) r1 = Continue ->
  post w1 (build_request c (endpoint_fallback c) (build_payload c prompt))
  = (Responded r2, w2) ->
  is_auth_status (status_code r2) = true ->
  exists f,
    classify c (endpoint_fallback c) r2 = Raise f /\
    __call__ World post c prompt w = (Failed f, after_two c prompt w2).
Proof.
  intros K P1 C1 P2 A.
  destruct (auth_status_raises c (endpoint_fallback c) r2 A) as [f C2].
  exists f. split; [exact C2|].
  rewrite (call_first World post c prompt w w1 r1 K P1), C1.
  rewrite try_fallback. cbv zeta. rewrite P2. cbn [fst snd].
  now rewrite C2.
Qed.

End Fallback.

(** ** What the error messages carry *)

Section Diagnostics.

Variable py_repr : json -> string.

Lemma excerpt_text_bounded (e : msg_excerpt) :
  bounded_excerpt e -> list_excerpt e = false ->
  (String.length (excerpt_text py_repr e) <= 300)%nat.
Proof.
  destruct e as [v|d]; simpl.
  - destruct v; simpl; try tauto. discriminate.
  - intros _ _. apply take_length.
Qed.

(** The message raised for one response, with each part read off that
    response. *)
Lemma raise_message_of_response
      (c : GithubModelsLLM) (url : string) (r : response)
      (f : failure) (m : string) :
  classify c url r = Raise f ->
  message_of py_repr f = Some m ->
  (body_json r = None /\ is_auth_status (status_code r) = true /\
   m = "Unauthorized at " ++ url
       ++ ". Check token (models:read) and daily limits. Body: "
       ++ PyStr.take 300 (text r)) \/
  (body_json r = None /\ is_auth_status (status_code r) = false /\
   m = "Non-JSON response " ++ PyStr.of_int (status_code r) ++ " from "
       ++ url ++ ": " ++ PyStr.take 500 (text r)) \/
  (exists (mb e : list (string * json)) (ex : msg_excerpt),
      body_json r = Some (JObj mb) /\
      Py.lookup_or "error" mb (JObj []) = JObj e /\
      ((Py.truthy (Py.lookup_or "message" e JNull) = true /\
        exists v, Py.slice_to 300 (Py.lookup_or "message" e JNull) = Val v /\
                  ex = OfMessage v) \/
       (Py.truthy (Py.lookup_or "message" e JNull) = false /\
        ex = OfBody (JObj mb))) /\
      bounded_excerpt ex /\
      (list_excerpt ex = false ->
       (String.length (excerpt_text py_repr ex) <= 300)%nat) /\
      m = "GitHub Models API error " ++ PyStr.of_int (status_code r)
          ++ " (" ++ py_str py_repr (Py.lookup_or "code" e JNull) ++ "): "
          ++ excerpt_text py_repr ex).
Proof.
  intros C M.
  destruct (body_json r) as [data|] eqn:B.
  - destruct (json_raise_of_body c url r data f B C)
      as [[e ->]|(mb & e & ex & -> & L & X & -> & Bd)].
    + discriminate.
    + right; right. exists mb, e, ex. injection M as <-.
      repeat split; try assumption.
      now apply excerpt_text_bounded.
  - revert C. unfold classify, on_non_json. rewrite B.
    destruct (is_auth_status (status_code r)) eqn:A.
    + intros [= <-]. injection M as <-. left. now repeat split.
    + destruct (is_wrong_path_status _); [discriminate|].
      intros [= <-]. injection M as <-. right; left. now repeat split.
Qed.

Variable World : Type.
Variable post : World -> request -> post_result * World.

(** C8, as the code has it. Each [RuntimeError] the call raises has one
    of five messages. The missing-key one and the endpoints-exhausted
    one are fixed texts. The other three are about one response the
    call read from one of the two endpoints. For a body that did not
    parse as JSON: the unauthorized one (status 401 or 403) names that
    URL and the first 300 characters of the raw body; the non-JSON one
    (any other status) names the status, that URL and the first 500
    characters of the raw body. For a body that parsed to an object
    whose [error] member is absent or an object, the API one names the
    status, the [code] member of that error object ([None] when absent)
    and the first 300 characters of its [message] member, or of the
    printed body when the message is absent or falsy; the excerpt is at
    most 300 characters long unless the message is a list, which is cut
    to 300 items and then printed. *)
Theorem failure_message_contents
        (c : GithubModelsLLM) (prompt : string) (w : World)
        (f : failure) (st : state World) (m : string) :
  __call__ World post c prompt w = (Failed f, st) ->
  message_of py_repr f = Some m ->
  (m = "No API key. Set GITHUB_TOKEN or OPENAI_API_KEY." /\ sent st = []) \/
  (m = "Failed to reach a working chat/completions endpoint on GitHub Models."
   /\ List.length (sent st) = 2%nat) \/
  (exists url r,
      answered World post c prompt w url r /\
      (String.length (PyStr.take 300 (text r)) <= 300)%nat /\
      (String.length (PyStr.take 500 (text r)) <= 500)%nat /\
      ((body_json r = None /\ is_auth_status (status_code r) = true /\
        m = "Unauthorized at " ++ url
            ++ ". Check token (models:read) and daily limits. Body: "
            ++ PyStr.take 300 (text r)) \/
       (body_json r = None /\ is_auth_status (status_code r) = false /\
        m = "Non-JSON response " ++ PyStr.of_int (status_code r) ++ " from "
            ++ url ++ ": " ++ PyStr.take 500 (text r)) \/
       (exists (mb e : list (string * json)) (ex : msg_excerpt),
           body_json r = Some (JObj mb) /\
           Py.lookup_or "error" mb (JObj []) = JObj e /\
           ((Py.truthy (Py.lookup_or "message" e JNull) = true /\
             exists v,
               Py.slice_to 300 (Py.lookup_or "message" e JNull) = Val v /\
               ex = OfMessage v) \/
            (Py.truthy (Py.lookup_or "message" e JNull) = false /\
             ex = OfBody (JObj mb))) /\
           bounded_excerpt ex /\
           (list_excerpt ex = false ->
            (String.length (excerpt_text py_repr ex) <= 300)%nat) /\
           m = "GitHub Models API error " ++ PyStr.of_int (status_code r)
               ++ " (" ++ py_str py_repr (Py.lookup_or "code" e JNull)
               ++ "): " ++ excerpt_text py_repr ex))).
Proof.
  intros H M.
  destruct (truthy_str (api_key c)) eqn:K.
  2:{ rewrite (call_no_key World post c prompt w K) in H.
      injection H as <- <-. injection M as <-. left. now split. }
  destruct (post w (build_request c (endpoint_primary c)
                                  (build_payload c prompt)))
    as [[r1|e1] w1] eqn:P1.
  2:{ rewrite (call_post_raised World post c prompt w w1 e1 K P1) in H.
      injection H as <- <-. discriminate. }
  rewrite (call_first World post c prompt w w1 r1 K P1) in H.
  destruct (classify c (endpoint_primary c) r1) as [|v|f1] eqn:C1.
  - rewrite try_fallback in H. cbv zeta in H.
    destruct (post w1 (build_request c (endpoint_fallback c)
                                     (build_payload c prompt)))
      as [[r2|e2] w2] eqn:P2; cbn [fst snd] in H.
    2:{ injection H as <- <-. discriminate. }
    destruct (classify c (endpoint_fallback c) r2) as [|v|f2] eqn:C2.
    + injection H as <- <-. injection M as <-. right; left. now split.
    + discriminate.
    + injection H as <- <-. right; right.
      exists (endpoint_fallback c), r2.
      split; [|split; [apply take_length|split; [apply take_length|]]].
      * right. unfold answered. cbv zeta. rewrite P1. cbn [fst snd].
        rewrite P2. now split.
      * exact (raise_message_of_response c _ r2 f2 m C2 M).
  - discriminate.
  - injection H as <- <-. right; right.
    exists (endpoint_primary c), r1.
    split; [|split; [apply take_length|split; [apply take_length|]]].
    + left. unfold answered. cbv zeta. rewrite P1. now split.
    + exact (raise_message_of_response c _ r1 f1 m C1 M).
Qed.

End Diagnostics.

(** ** The configuration resolver *)

Lemma py_or_str_or (a b : option string) (d : string) :
  py_or_str (py_or a b) d = py_or_str a (py_or_str b d).
Proof.
  unfold py_or, py_or_str.
  destruct a as [s|]; simpl; [|reflexivity].
  destruct (s =? "")%string eqn:E; simpl; [reflexivity|now rewrite E].
Qed.

Lemma spec_resolve_nil (e : option string) (d : string) :
  spec_resolve e [] d = py_or_str e d.
Proof.
  unfold spec_resolve, py_or_str. simpl.
  destruct e as [s|]; simpl; [|reflexivity].
  now destruct (s =? "")%string.
Qed.

Lemma spec_resolve_cons (e v : option string) (vs : list (option string))
      (d : string) :
  spec_resolve e (v :: vs) d = py_or_str e (spec_resolve v vs d).
Proof.
  unfold spec_resolve, py_or_str. simpl.
  destruct e as [s|]; simpl; [|reflexivity].
  now destruct (s =? "")%string.
Qed.

(** The base URL follows the stated order. *)
Lemma base_url_order (a : init_args) (env : environ) :
  raw_base_url a env
  = spec_resolve (arg_base_url a)
                 [env "OPENAI_API_BASE"; env "OPENAI_BASE_URL"] DEFAULT_BASE.
Proof.
  unfold raw_base_url.
  now rewrite !spec_resolve_cons, spec_resolve_nil, !py_or_str_or.
Qed.

(** So does the credential, which has no default: with every source
    unset or empty it stays unset or empty. *)
Lemma api_key_order (a : init_args) (env : environ) :
  py_or_str (resolve_api_key a env) ""
  = spec_resolve (arg_api_key a)
                 [env "GITHUB_TOKEN"; env "GH_TOKEN"; env "OPENAI_API_KEY"] "".
Proof.
  unfold resolve_api_key.
  now rewrite !spec_resolve_cons, spec_resolve_nil, !py_or_str_or.
Qed.

(** The model follows the stated order as long as its variable is not
    set to the empty string. *)
Lemma model_order (a : init_args) (env : environ) :
  env "HOLODECK_MODEL" <> Some "" ->
  resolve_model a env
  = spec_resolve (arg_model a) [env "HOLODECK_MODEL"] DEFAULT_MODEL.
Proof.
  intros N. unfold resolve_model, getenv_default.
  rewrite spec_resolve_cons, spec_resolve_nil. f_equal.
  destruct (env "HOLODECK_MODEL") as [s|]; simpl; [|reflexivity].
  destruct (String.eqb_spec s ""); [subst; now elim N | reflexivity].
Qed.

(** The explicit model, when given and non-empty, is the one used. *)
Lemma explicit_model_wins (a : init_args) (env : environ) (m : string) :
  arg_model a = Some m -> m <> "" -> model (__init__ a env) = m.
Proof.
  intros E N. simpl. unfold resolve_model. rewrite E. simpl.
  destruct (String.eqb_spec m ""); [contradiction | reflexivity].
Qed.

(** C6. With no explicit model and [HOLODECK_MODEL] set to the empty
    string, the constructor takes the empty string for the model, where
    the stated order skips the empty value and gives the default. The
    base URL, resolved a few lines above with an [or] chain, does skip an
    empty variable. *)
Theorem empty_model_variable_is_taken :
  let env := Sample.env_one "HOLODECK_MODEL" "" in
  model (__init__ default_args env) = "" /\
  spec_resolve (arg_model default_args) [env "HOLODECK_MODEL"] DEFAULT_MODEL
  = "openai/gpt-4o-mini" /\
  base_url (__init__ default_args (Sample.env_one "OPENAI_API_BASE" ""))
  = "https://models.github.ai/inference".
Proof.
  repeat split.
Qed.

(** ** The theorems at work on sample runs *)

Lemma missing_credential_config_error_witness :
  resolve_api_key default_args Sample.env_empty = None /\
  __call__ nat (Sample.constant Sample.chair_200)
           (__init__ default_args Sample.env_empty) "describe a chair" 0%nat
  = (Failed ConfigError, {| world := 0%nat; sent := [] |}).
Proof.
  split; [reflexivity|].
  apply (missing_credential_config_error
           nat (Sample.constant Sample.chair_200)
           default_args Sample.env_empty "describe a chair" 0%nat).
  left. reflexivity.
Defined.

Lemma primary_success_one_call_witness :
  status_code Sample.chair_200 < 300 /\
  Shape.content_path Sample.chair_body = Some (JStr "A wooden chair.") /\
  __call__ nat (Sample.constant Sample.chair_200)
           Sample.client "describe a chair" 0%nat
  = (Returned (JStr "A wooden chair."),
     {| world := 1%nat;
        sent := [build_request Sample.client Sample.primary_url
                   (build_payload Sample.client "describe a chair")] |}) /\
  map req_url
      (sent (snd (__call__ nat (Sample.constant Sample.chair_200)
                           Sample.client "describe a chair" 0%nat)))
  = ["https://models.github.ai/inference/v1/chat/completions"].
Proof.
  split; [reflexivity|]. split; [reflexivity|].
  apply (primary_success_one_call
           nat (Sample.constant Sample.chair_200) Sample.client
           "describe a chair" 0%nat 1%nat Sample.chair_200
           Sample.chair_body (JStr "A wooden chair."));
    reflexivity.
Defined.

Lemma wrong_path_tries_fallback_once_witness :
  body_json Sample.html_404 = None /\
  snd (__call__ nat (Sample.scripted [Sample.html_404; Sample.chair_200])
                Sample.client "describe a chair" 0%nat)
  = {| world := 2%nat;
       sent := [build_request Sample.client Sample.primary_url
                  (build_payload Sample.client "describe a chair");
                build_request Sample.client Sample.fallback_url
                  (build_payload Sample.client "describe a chair")] |} /\
  map req_url
      (sent (snd (__call__ nat
                           (Sample.scripted [Sample.html_404; Sample.chair_200])
                           Sample.client "describe a chair" 0%nat)))
  = ["https://models.github.ai/inference/v1/chat/completions";
     "https://models.github.ai/inference/chat/completions"] /\
  map req_json
      (sent (snd (__call__ nat
                           (Sample.scripted [Sample.html_404; Sample.chair_200])
                           Sample.client "describe a chair" 0%nat)))
  = [build_payload Sample.client "describe a chair";
     build_payload Sample.client "describe a chair"].
Proof.
  split; [reflexivity|].
  apply (wrong_path_tries_fallback_once
           nat (Sample.scripted [Sample.html_404; Sample.chair_200])
           Sample.client "describe a chair" 0%nat 1%nat Sample.html_404);
    try reflexivity.
  left. reflexivity.
Defined.

Lemma trailing_slashes_ignored_witness :
  raw_base_url (Sample.with_base_url "https://h/api//") Sample.env_empty
  = raw_base_url (Sample.with_base_url "https://h/api") Sample.env_empty
    ++ PyStr.slashes 2 /\
  endpoint_primary
    (__init__ (Sample.with_base_url "https://h/api//") Sample.env_empty)
  = "https://h/api/v1/chat/completions" /\
  __init__ (Sample.with_base_url "https://h/api//") Sample.env_empty
  = __init__ (Sample.with_base_url "https://h/api") Sample.env_empty /\
  (exists k : nat,
      "https://h/api"
      = base_url (__init__ (Sample.with_base_url "https://h/api//")
                           Sample.env_empty) ++ PyStr.slashes k /\
      "https://h/api//"
      = base_url (__init__ (Sample.with_base_url "https://h/api//")
                           Sample.env_empty) ++ PyStr.slashes (k + 2)).
Proof.
  split; [reflexivity|].
  pose proof (trailing_slashes_ignored
                (Sample.with_base_url "https://h/api")
                (Sample.with_base_url "https://h/api//")
                Sample.env_empty Sample.env_empty 2
                eq_refl eq_refl eq_refl eq_refl eq_refl eq_refl eq_refl)
    as (E & P & _ & _ & D & _).
  split; [exact P|]. split; [exact E | exact D].
Defined.

Lemma primary_unknown_model_advances_witness :
  Shape.error_field (JObj [("message", JStr "Not Found")]) = None /\
  snd (__call__ nat (Sample.scripted [Sample.no_error_key_404; Sample.chair_200])
                Sample.client "describe a chair" 0%nat)
  = after_two Sample.client "describe a chair" 2%nat.
Proof.
  split; [reflexivity|].
  apply (primary_unknown_model_advances
           nat (Sample.scripted [Sample.no_error_key_404; Sample.chair_200])
           Sample.client "describe a chair" 0%nat 1%nat
           Sample.no_error_key_404 (JObj [("message", JStr "Not Found")]));
    try reflexivity.
  left. reflexivity.
Defined.

Lemma both_422_ends_with_fallback_error_witness :
  Shape.structured_error Sample.unknown_model_body = true /\
  __call__ nat (Sample.constant Sample.unknown_model_422)
           Sample.client "describe a chair" 0%nat
  = (Failed (ModelError 422 (JStr "unknown_model")
                        (OfMessage (JStr "Unknown model: gpt-x"))),
     after_two Sample.client "describe a chair" 2%nat).
Proof.
  split; [reflexivity|].
  apply (both_422_ends_with_fallback_error
           nat (Sample.constant Sample.unknown_model_422)
           Sample.args Sample.env_empty Sample.client
           "describe a chair" 0%nat 1%nat 2%nat
           Sample.unknown_model_422 Sample.unknown_model_422
           Sample.unknown_model_body Sample.unknown_model_body
           [("code", JStr "unknown_model");
            ("message", JStr "Unknown model: gpt-x")]);
    reflexivity.
Defined.

Lemma auth_status_ends_call_witness :
  __call__ nat (Sample.scripted [Sample.html_404; Sample.html_401])
           Sample.client "describe a chair" 0%nat
  = (Failed (Unauthorized Sample.fallback_url "<html>Unauthorized</html>"),
     after_two Sample.client "describe a chair" 2%nat).
Proof.
  apply (auth_status_ends_call
           nat (Sample.scripted [Sample.html_404; Sample.html_401])
           Sample.client "describe a chair" 0%nat
           Sample.fallback_url Sample.html_401
           (after_two Sample.client "describe a chair" 2%nat)).
  - reflexivity.
  - right. split; [reflexivity|].
    exists Sample.html_404, 1%nat, 2%nat. repeat split.
  - left. reflexivity.
Defined.

Lemma failure_message_contents_witness :
  let post := Sample.scripted [Sample.bad_credentials_401; Sample.chair_200] in
  let c := Sample.client in
  let f := ModelError 401 (JStr "unauthorized")
                      (OfMessage (JStr "Bad credentials")) in
  let st := after_one c "describe a chair" 1%nat in
  let m := "GitHub Models API error 401 (unauthorized): Bad credentials" in
  __call__ nat post c "describe a chair" 0%nat = (Failed f, st) /\
  message_of Sample.no_repr f = Some m /\
  ((m = "No API key. Set GITHUB_TOKEN or OPENAI_API_KEY." /\ sent st = []) \/
   (m = "Failed to reach a working chat/completions endpoint on GitHub Models."
    /\ List.length (sent st) = 2%nat) \/
   (exists url r,
       answered nat post c "describe a chair" 0%nat url r /\
       (String.length (PyStr.take 300 (text r)) <= 300)%nat /\
       (String.length (PyStr.take 500 (text r)) <= 500)%nat /\
       ((body_json r = None /\ is_auth_status (status_code r) = true /\
         m = "Unauthorized at " ++ url
             ++ ". Check token (models:read) and daily limits. Body: "
             ++ PyStr.take 300 (text r)) \/
        (body_json r = None /\ is_auth_status (status_code r) = false /\
         m = "Non-JSON response " ++ PyStr.of_int (status_code r) ++ " from "
             ++ url ++ ": " ++ PyStr.take 500 (text r)) \/
        (exists (mb e : list (string * json)) (ex : msg_excerpt),
            body_json r = Some (JObj mb) /\
            Py.lookup_or "error" mb (JObj []) = JObj e /\
            ((Py.truthy (Py.lookup_or "message" e JNull) = true /\
              exists v,
                Py.slice_to 300 (Py.lookup_or "message" e JNull) = Val v /\
                ex = OfMessage v) \/
             (Py.truthy (Py.lookup_or "message" e JNull) = false /\
              ex = OfBody (JObj mb))) /\
            bounded_excerpt ex /\
            (list_excerpt ex = false ->
             (String.length (excerpt_text Sample.no_repr ex) <= 300)%nat) /\
            m = "GitHub Models API error " ++ PyStr.of_int (status_code r)
                ++ " (" ++ py_str Sample.no_repr (Py.lookup_or "code" e JNull)
                ++ "): " ++ excerpt_text Sample.no_repr ex)))).
Proof.
  intros post c f st m.
  split; [reflexivity|]. split; [reflexivity|].
  apply (failure_message_contents
           Sample.no_repr nat post c "describe a chair" 0%nat f st m);
    reflexivity.
Defined.

(** ** Runs on which the specification and the code part ways *)

(** Both endpoints answer 422 with a structured error: the call ends with
    the API error of the second response, after two requests. *)
Lemma both_422_counterexample :
  status_code Sample.unknown_model_422 = 422 /\
  Shape.structured_error Sample.unknown_model_body = true /\
  __call__ nat (Sample.constant Sample.unknown_model_422)
           Sample.client "describe a chair" 0%nat
  = (Failed (ModelError 422 (JStr "unknown_model")
                        (OfMessage (JStr "Unknown model: gpt-x"))),
     after_two Sample.client "describe a chair" 2%nat) /\
  message_of Sample.no_repr
             (ModelError 422 (JStr "unknown_model")
                         (OfMessage (JStr "Unknown model: gpt-x")))
  = Some "GitHub Models API error 422 (unknown_model): Unknown model: gpt-x".
Proof.
  repeat split.
Qed.

(** The primary endpoint answers 200 with a JSON body that has the
    content path and whose [error] member is [null]: there is no
    structured error in it, yet the [error] key sends the call down the
    error path, where [err.get] raises on [None]. Nothing is returned. *)
Lemma null_error_counterexample :
  status_code Sample.null_error_200 = 200 /\
  body_json Sample.null_error_200 = Some Sample.null_error_body /\
  Shape.structured_error Sample.null_error_body = false /\
  Shape.content_path Sample.null_error_body = Some (JStr "A wooden chair.") /\
  __call__ nat (Sample.constant Sample.null_error_200)
           Sample.client "describe a chair" 0%nat
  = (Failed (PyError AttributeError),
     after_one Sample.client "describe a chair" 1%nat).
Proof.
  repeat split.
Qed.

(** The primary endpoint answers 401 with a JSON error body: the call
    ends there with the API error, whose message does not start like the
    unauthorized one. *)
Lemma json_401_counterexample :
  status_code Sample.bad_credentials_401 = 401 /\
  __call__ nat (Sample.scripted [Sample.bad_credentials_401; Sample.chair_200])
           Sample.client "describe a chair" 0%nat
  = (Failed (ModelError 401 (JStr "unauthorized")
                        (OfMessage (JStr "Bad credentials"))),
     after_one Sample.client "describe a chair" 1%nat) /\
  message_of Sample.no_repr
             (ModelError 401 (JStr "unauthorized")
                         (OfMessage (JStr "Bad credentials")))
  = Some "GitHub Models API error 401 (unauthorized): Bad credentials".
Proof.
  repeat split.
Qed.

(** The primary endpoint answers 404 with the JSON body
    [{"error": "Not Found"}]: [err] is a string, [err.get] raises, and
    the fallback, which would have answered, is never asked. *)
Lemma plain_error_404_counterexample :
  status_code Sample.plain_error_404 = 404 /\
  body_json Sample.plain_error_404 = Some (JObj [("error", JStr "Not Found")]) /\
  classify Sample.client (endpoint_primary Sample.client) Sample.plain_error_404
  = Raise (PyError AttributeError) /\
  __call__ nat (Sample.scripted [Sample.plain_error_404; Sample.chair_200])
           Sample.client "describe a chair" 0%nat
  = (Failed (PyError AttributeError),
     after_one Sample.client "describe a chair" 1%nat).
Proof.
  repeat split.
Qed.

(** Both endpoints answer 404 with an HTML page: the message of the
    error names no URL, no status and nothing of the body. And the API
    error of a 422 on both endpoints names no URL. *)
Lemma exhausted_message_counterexample :
  let exhausted :=
    "Failed to reach a working chat/completions endpoint on GitHub Models." in
  let api :=
    "GitHub Models API error 422 (unknown_model): Unknown model: gpt-x" in
  __call__ nat (Sample.constant Sample.html_404)
           Sample.client "describe a chair" 0%nat
  = (Failed EndpointUnavailable,
     after_two Sample.client "describe a chair" 2%nat) /\
  message_of Sample.no_repr EndpointUnavailable = Some exhausted /\
  PyStr.contains Sample.primary_url exhausted = false /\
  PyStr.contains Sample.fallback_url exhausted = false /\
  PyStr.contains "404" exhausted = false /\
  PyStr.contains "Not Found" exhausted = false /\
  fst (__call__ nat (Sample.constant Sample.unknown_model_422)
                Sample.client "describe a chair" 0%nat)
  = Failed (ModelError 422 (JStr "unknown_model")
                       (OfMessage (JStr "Unknown model: gpt-x"))) /\
  message_of Sample.no_repr
             (ModelError 422 (JStr "unknown_model")
                         (OfMessage (JStr "Unknown model: gpt-x")))
  = Some api /\
  PyStr.contains Sample.primary_url api = false /\
  PyStr.contains Sample.fallback_url api = false.
Proof.
  repeat split.
Qed.

(** * Further properties of the client *)

Lemma truthy_str_cases (o : option string) :
  (exists k, o = Some k /\ k <> "" /\ truthy_str o = true) \/
  truthy_str o = false.
Proof.
  destruct o as [k|]; [|now right].
  destruct (String.eqb_spec k "") as [->|N]; [now right|].
  left. exists k. repeat split; [exact N|].
  simpl. now destruct (String.eqb_spec k "").
Qed.

(** The credential is the first non-empty value among the explicit
    argument, [GITHUB_TOKEN], [GH_TOKEN] and [OPENAI_API_KEY], in that
    order; when none is non-empty the client holds no usable credential. *)
Theorem api_key_first_non_empty (a : init_args) (env : environ) :
  match first_non_empty [arg_api_key a; env "GITHUB_TOKEN"; env "GH_TOKEN";
                         env "OPENAI_API_KEY"] with
  | Some k => api_key (__init__ a env) = Some k /\ k <> ""
  | None => truthy_str (api_key (__init__ a env)) = false
  end.
Proof.
  simpl. unfold resolve_api_key, py_or.
  destruct (truthy_str_cases (arg_api_key a)) as [(k & E & N & T)|T];
    rewrite !T; [rewrite E; now split|].
  destruct (truthy_str_cases (env "GITHUB_TOKEN")) as [(k & E & N & T2)|T2];
    rewrite !T2; [rewrite E; now split|].
  destruct (truthy_str_cases (env "GH_TOKEN")) as [(k & E & N & T3)|T3];
    rewrite !T3; [rewrite E; now split|].
  destruct (truthy_str_cases (env "OPENAI_API_KEY")) as [(k & E & N & T4)|T4];
    rewrite !T4; [rewrite E; now split | reflexivity].
Qed.

(** The base URL of a client is the first non-empty value among the
    explicit argument, [OPENAI_API_BASE] and [OPENAI_BASE_URL], or else
    the default, with trailing slashes taken off and nothing else
    changed. *)
Theorem base_url_is_resolved_minus_slashes (a : init_args) (env : environ) :
  exists n,
    spec_resolve (arg_base_url a)
                 [env "OPENAI_API_BASE"; env "OPENAI_BASE_URL"] DEFAULT_BASE
    = base_url (__init__ a env) ++ PyStr.slashes n.
Proof.
  rewrite <- base_url_order. simpl. unfold resolve_base_url.
  apply rstrip_decompose.
Qed.

Lemma json_return_inv (c : GithubModelsLLM) (url : string) (r : response)
      (v : json) :
  classify c url r = Return v ->
  status_code r < 300 /\
  exists data,
    body_json r = Some data /\ Shape.error_field data = None /\
    Shape.content_path data = Some v.
Proof.
  unfold classify. destruct (body_json r) as [data|].
  2:{ unfold on_non_json. destruct (is_auth_status _); [discriminate|].
      destruct (is_wrong_path_status _); discriminate. }
  unfold on_json, is_error_response.
  destruct (300 <=? status_code r) eqn:L; simpl.
  - unfold on_error.
    destruct (Py.get data "error" (JObj [])) as [err|]; simpl; [|discriminate].
    destruct (Py.get err "code" JNull) as [code|]; simpl; [|discriminate].
    destruct (Py.get err "message" JNull) as [m|]; simpl; [|discriminate].
    destruct (_ && _)%bool; [discriminate|].
    destruct (Py.truthy m); simpl; [|discriminate].
    destruct (Py.slice_to 300 m); discriminate.
  - intros H. split; [lia|]. exists data. split; [reflexivity|].
    destruct data as [| | | | s | l | m].
    1-4: discriminate.
    + simpl in H. destruct (PyStr.contains "error" s); discriminate.
    + simpl in H. destruct (existsb _ l); discriminate.
    + simpl in H. simpl.
      destruct (Py.lookup "error" m) as [e|] eqn:E; simpl in H.
      * unfold on_error in H. simpl in H. unfold Py.lookup_or in H.
        rewrite E in H.
        destruct (Py.get e "code" JNull); simpl in H; [|discriminate].
        destruct (Py.get e "message" JNull) as [x|]; simpl in H;
          [|discriminate].
        destruct (_ && _)%bool; [discriminate|].
        destruct (Py.truthy x); simpl in H; [|discriminate].
        destruct (Py.slice_to 300 x); discriminate.
      * split; [reflexivity|].
        unfold extract_content in H. simpl in H.
        destruct (Py.lookup "choices" m)
          as [[| | | | [|] |[|[| | | | | |fm] rest]| ]|]; simpl in H;
          try discriminate.
        destruct (Py.lookup "message" fm) as [[| | | | | |mm]|]; simpl in H;
          try discriminate.
        destruct (Py.lookup "content" mm); simpl in H; [|discriminate].
        now injection H as ->.
Qed.

Section MoreCalls.

Variable World : Type.
Variable post : World -> request -> post_result * World.

(** A body that does not parse, under a status other than 401, 403, 404
    and 405, ends the call at once: the error names the status, the
    primary URL and the first 500 characters of the body, and the
    fallback is not tried. *)
Theorem non_json_other_status_is_terminal
        (c : GithubModelsLLM) (prompt : string) (w w1 : World)
        (r : response) :
  truthy_str (api_key c) = true ->
  post w (build_request c (endpoint_primary c) (build_payload c prompt))
  = (Responded r, w1) ->
  body_json r = None ->
  is_auth_status (status_code r) = false ->
  is_wrong_path_status (status_code r) = false ->
  __call__ World post c prompt w
  = (Failed (TransportError (status_code r) (endpoint_primary c)
                            (PyStr.take 500 (text r))),
     after_one c prompt w1).
Proof.
  intros K P B A W.
  rewrite (call_first World post c prompt w w1 r K P).
  now rewrite (non_json_other c _ r B A W).
Qed.

(** When the primary endpoint answers 404 or 405 with a body that does
    not parse and the fallback answers with a success, the call returns
    the content the fallback gave, after two requests. *)
Theorem fallback_success_two_calls
        (c : GithubModelsLLM) (prompt : string) (w w1 w2 : World)
        (r1 r2 : response) (data v : json) :
  truthy_str (api_key c) = true ->
  post w (build_request c (endpoint_primary c) (build_payload c prompt))
  = (Responded r1, w1) ->
  body_json r1 = None ->
  is_wrong_path_status (status_code r1) = true ->
  post w1 (build_request c (endpoint_fallback c) (build_payload c prompt))
  = (Responded r2, w2) ->
  status_code r2 < 300 ->
  body_json r2 = Some data ->
  Shape.error_field data = None ->
  Shape.content_path data = Some v ->
  __call__ World post c prompt w = (Returned v, after_two c prompt w2).
Proof.
  intros K P1 B1 S1 P2 S2 B2 E C.
  rewrite (call_first World post c prompt w w1 r1 K P1).
  rewrite (non_json_wrong_path c _ r1 B1 S1).
  rewrite try_fallback. cbv zeta. rewrite P2. cbn [fst snd].
  now rewrite (json_success c _ r2 data v B2 S2 E C).
Qed.

(** A body with an [error] member is never a success, whatever the
    status: under a status below 300 the call still ends with an error
    at that response, even when the content path is there as well. *)
Theorem error_member_is_never_success
        (c : GithubModelsLLM) (prompt : string) (w w1 : World)
        (r : response) (mb : list (string * json)) (e : json) :
  truthy_str (api_key c) = true ->
  post w (build_request c (endpoint_primary c) (build_payload c prompt))
  = (Responded r, w1) ->
  status_code r < 300 ->
  body_json r = Some (JObj mb) ->
  Py.lookup "error" mb = Some e ->
  exists f,
    __call__ World post c prompt w = (Failed f, after_one c prompt w1) /\
    ((exists pe, f = PyError pe) \/
     (exists code ex,
         f = ModelError (status_code r) code ex /\ bounded_excerpt ex)).
Proof.
  intros K P S B E.
  rewrite (call_first World post c prompt w w1 r K P).
  destruct (classify c (endpoint_primary c) r) as [|v|f] eqn:C.
  - exfalso. revert C. unfold classify. rewrite B.
    unfold on_json, is_error_response.
    destruct (300 <=? status_code r) eqn:L; [lia|].
    simpl. rewrite E. simpl. unfold on_error. simpl.
    unfold Py.lookup_or. rewrite E.
    assert (N : is_unknown_model_status (status_code r) = false)
      by (unfold is_unknown_model_status; lia).
    rewrite N, andb_false_r.
    destruct (Py.get e "code" JNull); simpl; [|discriminate].
    destruct (Py.get e "message" JNull) as [m|]; simpl; [|discriminate].
    destruct (Py.truthy m); simpl; [|discriminate].
    destruct (Py.slice_to 300 m); discriminate.
  - exfalso. destruct (json_return_inv c _ r v C) as (_ & d & B' & E' & _).
    rewrite B in B'. injection B' as <-. simpl in E'. congruence.
  - exists f. split; [reflexivity|].
    exact (json_raise c _ r (JObj mb) f B C).
Qed.

(** A call returns a value only for a response it read from one of the
    two endpoints with a status below 300 and a body that parsed, has no
    [error] member and has the content path; the value is the one at that
    path. *)
Theorem returned_only_from_success
        (c : GithubModelsLLM) (prompt : string) (w : World)
        (v : json) (st : state World) :
  __call__ World post c prompt w = (Returned v, st) ->
  exists url r data,
    answered World post c prompt w url r /\
    status_code r < 300 /\
    body_json r = Some data /\
    Shape.error_field data = None /\
    Shape.content_path data = Some v.
Proof.
  intros H.
  destruct (truthy_str (api_key c)) eqn:K.
  2:{ rewrite (call_no_key World post c prompt w K) in H. discriminate. }
  destruct (post w (build_request c (endpoint_primary c)
                                  (build_payload c prompt)))
    as [[r1|e1] w1] eqn:P1.
  2:{ rewrite (call_post_raised World post c prompt w w1 e1 K P1) in H.
      discriminate. }
  rewrite (call_first World post c prompt w w1 r1 K P1) in H.
  destruct (classify c (endpoint_primary c) r1) as [|v1|f1] eqn:C1.
  - rewrite try_fallback in H. cbv zeta in H.
    destruct (post w1 (build_request c (endpoint_fallback c)
                                     (build_payload c prompt)))
      as [[r2|e2] w2] eqn:P2; cbn [fst snd] in H; [|discriminate].
    destruct (classify c (endpoint_fallback c) r2) as [|v2|f2] eqn:C2;
      try discriminate.
    injection H as <- _.
    destruct (json_return_inv c _ r2 v2 C2) as (S & d & B & E & CP).
    exists (endpoint_fallback c), r2, d. repeat split; try assumption.
    right. unfold answered. cbv zeta. rewrite P1. cbn [fst snd].
    rewrite P2. now split.
  - injection H as <- _.
    destruct (json_return_inv c _ r1 v1 C1) as (S & d & B & E & CP).
    exists (endpoint_primary c), r1, d. repeat split; try assumption.
    left. unfold answered. cbv zeta. rewrite P1. now split.
  - discriminate.
Qed.

(** A call sends nothing exactly when the client has no usable
    credential. *)
Theorem no_request_iff_no_credential
        (c : GithubModelsLLM) (prompt : string) (w : World) :
  sent (snd (__call__ World post c prompt w)) = []
  <-> truthy_str (api_key c) = false.
Proof.
  split.
  - intros H. destruct (truthy_str (api_key c)) eqn:K; [|reflexivity].
    exfalso. revert H.
    destruct (post w (build_request c (endpoint_primary c)
                                    (build_payload c prompt)))
      as [[r|e] w1] eqn:P.
    + rewrite (call_first World post c prompt w w1 r K P).
      destruct (classify c (endpoint_primary c) r);
        [rewrite try_fallback_sent|..]; discriminate.
    + rewrite (call_post_raised World post c prompt w w1 e K P).
      discriminate.
  - intros K. now rewrite (call_no_key World post c prompt w K).
Qed.

End MoreCalls.

(** * The launchers *)

(** ** Sorting by modification time *)

Section SortingFacts.

Context {A : Type}.
Variable key : A -> Z.

Lemma insert_desc_perm (x : A) (l : list A) :
  Permutation (insert_desc key x l) (x :: l).
Proof.
  induction l as [|y ys IH]; simpl; [reflexivity|].
  destruct (key x <? key y); [|reflexivity].
  rewrite IH. apply perm_swap.
Qed.

Lemma sorted_desc_perm (l : list A) : Permutation (sorted_desc key l) l.
Proof.
  induction l as [|x xs IH]; simpl; [reflexivity|].
  rewrite insert_desc_perm. now constructor.
Qed.

Lemma sorted_desc_in (x : A) (l : list A) :
  In x (sorted_desc key l) <-> In x l.
Proof.
  split; apply Permutation_in;
    [apply sorted_desc_perm | symmetry; apply sorted_desc_perm].
Qed.

Lemma sorted_desc_nil (l : list A) : sorted_desc key l = [] <-> l = [].
Proof.
  split; [|now intros ->].
  intros E. apply Permutation_nil.
  rewrite <- E. apply sorted_desc_perm.
Qed.

Lemma insert_desc_sorted (x : A) (l : list A) :
  StronglySorted (not_older key) l -> StronglySorted (not_older key) (insert_desc key x l).
Proof.
  induction 1 as [|y ys S IH F]; simpl.
  - repeat constructor.
  - destruct (key x <? key y) eqn:L.
    + constructor; [exact IH|].
      eapply Permutation_Forall.
      * symmetry. apply insert_desc_perm.
      * constructor; [unfold not_older; lia | exact F].
    + constructor; [now constructor|].
      constructor; [unfold not_older; lia|].
      eapply Forall_impl; [|exact F].
      intros z Hz. unfold not_older in *. lia.
Qed.

Lemma sorted_desc_sorted (l : list A) :
  StronglySorted (not_older key) (sorted_desc key l).
Proof.
  induction l as [|x xs IH]; simpl; [constructor|].
  now apply insert_desc_sorted.
Qed.

(** The first item of the sorted list has the largest key. *)
Lemma sorted_desc_head (l : list A) (x : A) (rest : list A) :
  sorted_desc key l = x :: rest ->
  forall y, In y l -> key y <= key x.
Proof.
  intros E y I.
  pose proof (sorted_desc_sorted l) as S. rewrite E in S.
  apply sorted_desc_in in I. rewrite E in I.
  inversion S as [|? ? _ F]; subst.
  destruct I as [<- | I]; [lia|].
  rewrite Forall_forall in F. exact (F y I).
Qed.

(** In a sorted list, what follows an item is not (not_older key) than it. *)
Lemma sorted_after (l1 l2 : list A) (x : A) :
  StronglySorted (not_older key) (l1 ++ x :: l2) ->
  forall y, In y l2 -> key y <= key x.
Proof.
  induction l1 as [|z l1 IH]; simpl; intros S y I.
  - inversion S as [|? ? _ F]; subst.
    rewrite Forall_forall in F. exact (F y I).
  - inversion S; subst. now apply IH.
Qed.

End SortingFacts.

(** ** The file-descriptor limit *)

(** With a soft limit not above the hard one, [bump_nofile_limit] leaves
    the hard limit alone and takes the soft limit to
    [max(soft, min(target, hard))]: it is never lowered and never goes
    past the hard limit; [setrlimit] is called exactly when the soft
    limit is below both the target and the hard limit. *)
Theorem bump_raises_within_hard_limit (target soft hard : Z) :
  soft <= hard ->
  limits_after target (soft, hard)
  = (Z.max soft (Z.min target hard), hard) /\
  soft <= fst (limits_after target (soft, hard)) <= hard /\
  (bump_nofile_limit target (soft, hard) = None
   <-> (target <= soft \/ soft = hard)).
Proof.
  intros H. unfold limits_after, bump_nofile_limit.
  destruct (Z.min (Z.max target soft) hard =? soft) eqn:E; simpl.
  - split; [f_equal; lia|]. split; [lia|].
    split; [intros _; lia | reflexivity].
  - split; [f_equal; lia|]. split; [lia|].
    split; [discriminate | intros [L | L]; lia].
Qed.

(** Once the limit is raised, a second call asks for nothing. *)
Theorem bump_twice_is_once (target soft hard : Z) :
  soft <= hard ->
  bump_nofile_limit target (limits_after target (soft, hard)) = None.
Proof.
  intros H. unfold limits_after, bump_nofile_limit.
  destruct (Z.min (Z.max target soft) hard =? soft) eqn:E.
  - now rewrite E.
  - replace (Z.min (Z.max target (Z.min (Z.max target soft) hard)) hard
             =? Z.min (Z.max target soft) hard) with true; [reflexivity|].
    symmetry. apply Z.eqb_eq. lia.
Qed.

(** ** Scene files *)

(** A sort by modification time returns exactly when no [stat()] of its
    items raises, and then with the items sorted. *)
Lemma sorted_by_mtime_inr {A : Type} (key : A -> Z) (raises : A -> bool)
      (l l' : list A) :
  sorted_by_mtime key raises l = inr l' ->
  l' = sorted_desc key l /\ forall x, In x l -> raises x = false.
Proof.
  unfold sorted_by_mtime. destruct (existsb raises l) eqn:E; [discriminate|].
  intros [= <-]. split; [reflexivity|].
  intros x I. destruct (raises x) eqn:R; [|reflexivity].
  assert (T : existsb raises l = true)
    by (apply existsb_exists; now exists x).
  congruence.
Qed.

Lemma sorted_by_mtime_ok {A : Type} (key : A -> Z) (raises : A -> bool)
      (l : list A) :
  (forall x, In x l -> raises x = false) ->
  sorted_by_mtime key raises l = inr (sorted_desc key l).
Proof.
  intros H. unfold sorted_by_mtime.
  destruct (existsb raises l) eqn:E; [|reflexivity].
  apply existsb_exists in E. destruct E as (x & I & R).
  rewrite (H x I) in R. discriminate.
Qed.

Lemma sorted_by_mtime_nil {A : Type} (key : A -> Z) (raises : A -> bool)
      (l : list A) :
  sorted_by_mtime key raises l = inr [] <-> l = [].
Proof.
  split; [|now intros ->].
  intros H. apply sorted_by_mtime_inr in H. destruct H as [H _].
  now apply (sorted_desc_nil key).
Qed.

(** Where the loop of [latest_scene_json] returns a file: at the first
    entry that has a json, when no [stat()] raises in that entry. *)
Lemma first_json_some (dirs : list scene_dir) (j : scene_file) :
  Ui.first_json dirs = inr (Some j) ->
  exists l1 d l2 rest,
    dirs = (l1 ++ d :: l2)%list /\
    (forall d', In d' l1 -> d_jsons d' = []) /\
    sorted_desc f_mtime (d_jsons d) = j :: rest /\
    (forall j', In j' (d_jsons d) -> f_stat_raises j' = false).
Proof.
  induction dirs as [|d dirs IH]; simpl; [discriminate|].
  destruct (sorted_by_mtime f_mtime f_stat_raises (d_jsons d))
    as [e|[|x rest]] eqn:E; [discriminate| |].
  - intros H. destruct (IH H) as (l1 & d0 & l2 & r & -> & N & F & R).
    exists (d :: l1), d0, l2, r. repeat split; try assumption.
    intros d' [<- | I]; [|now apply N].
    now apply (sorted_by_mtime_nil f_mtime f_stat_raises).
  - intros [= ->]. apply sorted_by_mtime_inr in E. destruct E as [E R].
    exists [], d, dirs, rest. repeat split; [|now symmetry|exact R].
    intros d' [].
Qed.

Lemma first_json_none (dirs : list scene_dir) :
  Ui.first_json dirs = inr None
  <-> forall d, In d dirs -> d_jsons d = [].
Proof.
  induction dirs as [|d dirs IH]; simpl; [now split|].
  destruct (sorted_by_mtime f_mtime f_stat_raises (d_jsons d))
    as [e|[|x rest]] eqn:E.
  - split; [discriminate|].
    intros H. rewrite (H d (or_introl eq_refl)) in E. discriminate.
  - apply (sorted_by_mtime_nil f_mtime f_stat_raises) in E.
    rewrite IH. split.
    + intros H d' [<- | I]; [exact E | now apply H].
    + intros H d' I. apply H. now right.
  - split; [discriminate|].
    intros H. rewrite (H d (or_introl eq_refl)) in E. discriminate.
Qed.

(** What the loop of [list_scene_jsons] has gathered when it returns:
    stopping early loses none of the first [n] files. *)
Lemma collect_firstn (n : nat) (dirs : list scene_dir)
      (acc all : list scene_file) :
  App.collect (Z.of_nat n) dirs acc = inr all ->
  firstn n all
  = firstn n (acc ++ concat (map (fun d => sorted_desc f_mtime (d_jsons d))
                                 dirs))%list.
Proof.
  revert acc. induction dirs as [|d rest IH]; intros acc; simpl.
  - intros [= <-]. now rewrite app_nil_r.
  - destruct (sorted_by_mtime f_mtime f_stat_raises (d_jsons d))
      as [e|js] eqn:E; [discriminate|].
    apply sorted_by_mtime_inr in E. destruct E as [-> _].
    rewrite app_assoc.
    destruct (Z.of_nat n <=? _) eqn:L.
    + intros [= <-]. rewrite (firstn_app n (acc ++ _)%list).
      replace (n - _)%nat with 0%nat by lia.
      now rewrite firstn_O, app_nil_r.
    + apply IH.
Qed.

Lemma collect_returns (limit : Z) (dirs : list scene_dir)
      (acc : list scene_file) :
  (forall d, In d dirs ->
             forall j, In j (d_jsons d) -> f_stat_raises j = false) ->
  exists all, App.collect limit dirs acc = inr all.
Proof.
  revert acc. induction dirs as [|d rest IH]; intros acc H; simpl.
  - now exists acc.
  - rewrite (sorted_by_mtime_ok f_mtime f_stat_raises (d_jsons d)
               (H d (or_introl eq_refl))).
    destruct (limit <=? _); [eauto|].
    apply IH. intros d' I. apply H. now right.
Qed.

(** One step of the two loops side by side, for a limit of 1. *)
Lemma collect_one (dirs : list scene_dir) :
  Ui.first_json dirs
  = match App.collect 1 dirs [] with
    | inl e => inl e
    | inr all_jsons => inr (hd_error all_jsons)
    end.
Proof.
  induction dirs as [|d rest IH]; simpl; [reflexivity|].
  destruct (sorted_by_mtime f_mtime f_stat_raises (d_jsons d))
    as [e|[|j js]]; [reflexivity | exact IH |].
  cbn [app]. destruct (1 <=? Z.of_nat (List.length (j :: js))) eqn:L;
    [reflexivity|].
  apply Z.leb_gt in L. cbn [List.length] in L.
  rewrite Nat2Z.inj_succ in L. lia.
Qed.

(** For a limit that is not negative, the list [list_scene_jsons]
    returns is the first [limit] scene files, newest directory first and
    newest file first within a directory: stopping the loop early loses
    nothing, and the list is never longer than the limit. It returns
    that list whenever no [stat()] raises. *)
Theorem list_scene_jsons_is_prefix (limit : Z) (entries : list scene_dir) :
  0 <= limit ->
  (forall l,
      App.list_scene_jsons limit (Some entries) = inr l ->
      l = firstn (Z.to_nat limit)
                 (concat (map (fun d => sorted_desc f_mtime (d_jsons d))
                              (sorted_desc d_mtime entries))) /\
      Z.of_nat (List.length l) <= limit) /\
  ((forall d, In d entries ->
              d_stat_raises d = false /\
              forall j, In j (d_jsons d) -> f_stat_raises j = false) ->
   App.list_scene_jsons limit (Some entries)
   = inr (firstn (Z.to_nat limit)
                 (concat (map (fun d => sorted_desc f_mtime (d_jsons d))
                              (sorted_desc d_mtime entries))))).
Proof.
  intros H.
  assert (G : forall l,
             App.list_scene_jsons limit (Some entries) = inr l ->
             l = firstn (Z.to_nat limit)
                        (concat (map (fun d => sorted_desc f_mtime (d_jsons d))
                                     (sorted_desc d_mtime entries)))).
  { intros l. unfold App.list_scene_jsons, slice_to.
    destruct (sorted_by_mtime d_mtime d_stat_raises entries)
      as [e|dirs] eqn:D; [discriminate|].
    apply sorted_by_mtime_inr in D. destruct D as [-> _].
    destruct (App.collect limit _ []) as [e|all] eqn:C; [discriminate|].
    destruct (0 <=? limit) eqn:L; [|lia].
    intros [= <-].
    replace limit with (Z.of_nat (Z.to_nat limit)) in C by lia.
    now rewrite (collect_firstn _ _ _ _ C). }
  split.
  - intros l E. split; [now apply G|].
    rewrite (G l E), length_firstn. lia.
  - intros OK.
    destruct (App.list_scene_jsons limit (Some entries)) as [e|l] eqn:E.
    + exfalso. revert E. unfold App.list_scene_jsons.
      rewrite (sorted_by_mtime_ok d_mtime d_stat_raises entries)
        by (intros d I; exact (proj1 (OK d I))).
      destruct (collect_returns limit (sorted_desc d_mtime entries) [])
        as [all ->]; [|discriminate].
      intros d I. apply (proj1 (sorted_desc_in d_mtime d entries)) in I.
      exact (proj2 (OK d I)).
    + now rewrite (G l eq_refl).
Qed.

(** The two copies of [latest_scene_json] end the same way: they return
    the same file, or both return [None], or both raise. *)
Theorem latest_scene_json_agree (root : scenes_root) :
  App.latest_scene_json root = Ui.latest_scene_json root.
Proof.
  destruct root as [entries|]; [|reflexivity].
  unfold App.latest_scene_json, App.list_scene_jsons, Ui.latest_scene_json.
  destruct (sorted_by_mtime d_mtime d_stat_raises entries) as [e|dirs];
    [reflexivity|].
  rewrite collect_one.
  destruct (App.collect 1 dirs []) as [e|[|j js]]; reflexivity.
Qed.

(** The file [latest_scene_json] gives is the most recently modified
    json of a directory that has one, and no directory that has a json
    was modified after that directory. *)
Theorem latest_is_newest_of_newest_dir
        (entries : list scene_dir) (j : scene_file) :
  Ui.latest_scene_json (Some entries) = inr (Some j) ->
  exists d,
    In d entries /\ In j (d_jsons d) /\
    (forall j', In j' (d_jsons d) -> f_mtime j' <= f_mtime j) /\
    (forall d', In d' entries -> d_jsons d' <> [] -> d_mtime d' <= d_mtime d).
Proof.
  unfold Ui.latest_scene_json.
  destruct (sorted_by_mtime d_mtime d_stat_raises entries)
    as [e|dirs] eqn:D; [discriminate|].
  apply sorted_by_mtime_inr in D. destruct D as [-> _]. intros H.
  destruct (first_json_some _ _ H) as (l1 & d & l2 & rest & E & N & F & _).
  assert (I : In d (sorted_desc d_mtime entries))
    by (rewrite E; apply in_elt).
  exists d. split; [now apply (sorted_desc_in d_mtime)|]. split.
  - apply (sorted_desc_in f_mtime). rewrite F. now left.
  - split; [exact (sorted_desc_head f_mtime _ _ _ F)|].
    intros d' I' NE.
    apply (sorted_desc_in d_mtime) in I'. rewrite E in I'.
    apply in_app_or in I'. destruct I' as [I' | [<- | I']].
    + elim NE. now apply N.
    + lia.
    + pose proof (sorted_desc_sorted d_mtime entries) as S.
      rewrite E in S. exact (sorted_after d_mtime l1 l2 d S d' I').
Qed.

(** [latest_scene_json] returns [None], rather than a file or an error,
    exactly when [data/scenes] does not exist, or the [stat()] of each
    of its entries succeeds and none of them has a json. *)
Theorem latest_none_iff_no_json (root : scenes_root) :
  Ui.latest_scene_json root = inr None
  <-> match root with
      | None => True
      | Some entries =>
          forall d, In d entries -> d_stat_raises d = false /\ d_jsons d = []
      end.
Proof.
  destruct root as [entries|]; [|now split].
  unfold Ui.latest_scene_json.
  destruct (sorted_by_mtime d_mtime d_stat_raises entries)
    as [e|dirs] eqn:D.
  - split; [discriminate|]. intros H.
    rewrite (sorted_by_mtime_ok d_mtime d_stat_raises entries) in D
      by (intros d I; exact (proj1 (H d I))).
    discriminate.
  - apply sorted_by_mtime_inr in D. destruct D as [-> R].
    rewrite first_json_none. split.
    + intros H d I. split; [now apply R|].
      apply H. now apply (sorted_desc_in d_mtime).
    + intros H d I. apply H. now apply (sorted_desc_in d_mtime).
Qed.

(** One dangling link among the entries of [data/scenes] ends both
    searches with the error of its [stat()]. A dangling link in a
    directory is met only if the search gets to that directory. *)
Example dangling_links :
  Ui.latest_scene_json (Some Fixtures.scenes_with_dangling_link)
  = inl StatError /\
  App.list_scene_jsons 10 (Some Fixtures.scenes_with_dangling_link)
  = inl StatError /\
  Ui.latest_scene_json (Some Fixtures.scenes_with_old_dangling_json)
  = inr (Some (Fixtures.scene "data/scenes/c/1.json" 5)) /\
  App.list_scene_jsons 1 (Some Fixtures.scenes_with_old_dangling_json)
  = inr [Fixtures.scene "data/scenes/c/1.json" 5] /\
  App.list_scene_jsons 5 (Some Fixtures.scenes_with_old_dangling_json)
  = inl StatError.
Proof.
  repeat split.
Qed.

(** ** Lines, keys and values *)

Lemma contains_eq_spec (s : string) :
  PyStr.contains "=" s
  = match snd (PyText.split_eq s) with Some _ => true | None => false end.
Proof.
  induction s as [|c t IH]; [reflexivity|].
  cbn [PyText.split_eq]. destruct (Ascii.eqb_spec c "="%char) as [->|N].
  - cbn [PyStr.contains prefix snd].
    destruct (ascii_dec "=" "=") as [_|N]; [|now elim N].
    now destruct t.
  - destruct (PyText.split_eq t) as [k v]. cbn [snd] in *. rewrite <- IH.
    cbn [PyStr.contains prefix].
    destruct (ascii_dec "=" c) as [E|_]; [now elim N|reflexivity].
Qed.

(** Under the test ["=" in line] the unpacking of [split("=", 1)] finds
    its two parts. *)
Lemma unpack_eq_some (line : string) :
  PyStr.contains "=" line = true ->
  exists k v, unpack_eq line = Some (k, v).
Proof.
  rewrite contains_eq_spec. unfold unpack_eq.
  destruct (PyText.split_eq line) as [k [v|]]; [eauto|discriminate].
Qed.

Lemma split_eq_line (k v : string) :
  PyText.has_char (Ascii.eqb "="%char) k = false ->
  PyText.split_eq (k ++ String "="%char v) = (k, Some v).
Proof.
  induction k as [|c k IH]; [intros _; simpl; reflexivity|].
  cbn [PyText.has_char append PyText.split_eq].
  intros H. apply orb_false_elim in H as [H1 H2].
  rewrite Ascii.eqb_sym in H1. rewrite H1. now rewrite (IH H2).
Qed.

Lemma has_char_app (p : ascii -> bool) (a b : string) :
  PyText.has_char p (a ++ b)
  = (PyText.has_char p a || PyText.has_char p b)%bool.
Proof.
  induction a as [|c a IH]; simpl; [reflexivity|].
  now rewrite IH, orb_assoc.
Qed.

Lemma last_char_cons (c : ascii) (s : string) :
  exists x, PyStr.last_char (String c s) = Some x.
Proof.
  revert c. induction s as [|c' s IH]; intros c; [now exists c|].
  destruct (IH c') as [x E]. exists x.
  cbn [PyStr.last_char] in *. exact E.
Qed.

Lemma last_char_app (a b : string) :
  PyStr.last_char (a ++ b)
  = match PyStr.last_char b with
    | Some c => Some c
    | None => PyStr.last_char a
    end.
Proof.
  induction a as [|c a IH].
  - cbn [append PyStr.last_char]. now destruct (PyStr.last_char b).
  - destruct a as [|c2 a'].
    + cbn [append]. destruct b as [|c' b']; [reflexivity|].
      destruct (last_char_cons c' b') as [x E].
      cbn [PyStr.last_char] in *. now rewrite E.
    + cbn [append PyStr.last_char] in *. exact IH.
Qed.

Lemma lstrip_fixed (s : string) :
  starts_with PyText.is_space s = false -> PyText.lstrip s = s.
Proof.
  destruct s as [|c t]; simpl; [reflexivity|]. now intros ->.
Qed.

Lemma rstrip_fixed (s : string) :
  ends_with PyText.is_space s = false -> PyText.rstrip s = s.
Proof.
  unfold ends_with.
  induction s as [|c t IH]; [reflexivity|].
  cbn [PyStr.last_char PyText.rstrip]. destruct t as [|c' t'].
  - simpl. now intros ->.
  - intros H. rewrite (IH H). reflexivity.
Qed.

Lemma strip_fixed (s : string) :
  starts_with PyText.is_space s = false ->
  ends_with PyText.is_space s = false ->
  PyText.strip s = s.
Proof.
  intros L R. unfold PyText.strip. rewrite (lstrip_fixed s L).
  now apply rstrip_fixed.
Qed.

(** What [universal_newlines] leaves alone. *)
Lemma universal_newlines_fixed (s : string) :
  PyText.has_char (Ascii.eqb PyText.CR) s = false ->
  PyText.universal_newlines s = s.
Proof.
  induction s as [|c t IH]; [reflexivity|].
  cbn [PyText.has_char PyText.universal_newlines].
  intros H. apply orb_false_elim in H as [H1 H2].
  rewrite Ascii.eqb_sym in H1. rewrite H1. now rewrite (IH H2).
Qed.

Lemma linebreak_free_no_cr (s : string) :
  PyText.has_char PyText.is_linebreak s = false ->
  PyText.has_char (Ascii.eqb PyText.CR) s = false.
Proof.
  induction s as [|c t IH]; [reflexivity|].
  cbn [PyText.has_char].
  intros H. apply orb_false_elim in H as [H1 H2]. rewrite (IH H2).
  destruct (Ascii.eqb_spec PyText.CR c) as [<-|_]; [discriminate|reflexivity].
Qed.

Lemma splitlines_line (line rest : string) :
  PyText.has_char PyText.is_linebreak line = false ->
  PyText.splitlines (line ++ String PyText.LF rest)
  = line :: PyText.splitlines rest.
Proof.
  induction line as [|c t IH]; intros H.
  - cbn [append PyText.splitlines].
    replace (PyText.is_linebreak PyText.LF) with true by reflexivity.
    destruct rest; reflexivity.
  - cbn [PyText.has_char] in H. apply orb_false_elim in H as [H1 H2].
    cbn [append PyText.splitlines]. rewrite H1, (IH H2). reflexivity.
Qed.

(** ** Dicts *)

Lemma dict_get_set (k k' v : string) (d : dict) :
  dict_get k' (dict_set k v d)
  = if (k =? k')%string then Some v else dict_get k' d.
Proof.
  induction d as [|[kd vd] d IH]; simpl.
  - now rewrite String.eqb_sym.
  - destruct (String.eqb_spec kd k) as [->|N]; simpl.
    + now destruct (String.eqb_spec k k').
    + destruct (String.eqb_spec kd k') as [->|N'].
      * destruct (String.eqb_spec k k') as [->|_]; [now elim N|reflexivity].
      * exact IH.
Qed.

Lemma dict_get_none (k : string) (d : dict) :
  dict_get k d = None <-> ~ In k (map fst d).
Proof.
  induction d as [|[kd vd] d IH]; simpl; [tauto|].
  destruct (String.eqb_spec kd k) as [->|N].
  - split; [discriminate|]. intros H. elim H. now left.
  - rewrite IH. tauto.
Qed.

(** A key that is not there yet goes to the end. *)
Lemma dict_set_new (k v : string) (d : dict) :
  ~ In k (map fst d) -> dict_set k v d = (d ++ [(k, v)])%list.
Proof.
  induction d as [|[kd vd] d IH]; simpl; [reflexivity|].
  intros H. destruct (String.eqb_spec kd k) as [->|N].
  - elim H. now left.
  - rewrite IH; [reflexivity|tauto].
Qed.

Lemma dict_set_keys (k v : string) (d : dict) :
  map fst (dict_set k v d)
  = match dict_get k d with
    | Some _ => map fst d
    | None => (map fst d ++ [k])%list
    end.
Proof.
  induction d as [|[kd vd] d IH]; simpl; [reflexivity|].
  destruct (String.eqb_spec kd k) as [->|N]; simpl; [reflexivity|].
  rewrite IH. now destruct (dict_get k d).
Qed.

(** Assignments keep the keys of a dict distinct. *)
Lemma dict_set_nodup (k v : string) (d : dict) :
  NoDup (map fst d) -> NoDup (map fst (dict_set k v d)).
Proof.
  intros H. rewrite dict_set_keys.
  destruct (dict_get k d) eqn:E; [exact H|].
  apply dict_get_none in E.
  apply NoDup_rev in H. rewrite <- (rev_involutive (_ ++ _)%list).
  apply NoDup_rev. rewrite rev_app_distr. simpl.
  constructor; [|exact H]. now rewrite <- in_rev.
Qed.

Lemma dict_set_forall (P : string * string -> Prop) (k v : string) (d : dict) :
  P (k, v) -> Forall P d -> Forall P (dict_set k v d).
Proof.
  intros H. induction 1 as [|[kd vd] d Hd F IH]; simpl.
  - now repeat constructor.
  - destruct (kd =? k)%string eqn:E.
    + apply String.eqb_eq in E. subst. now constructor.
    + now constructor.
Qed.

Lemma app_assoc_string (a b c : string) : (a ++ b) ++ c = a ++ b ++ c.
Proof.
  induction a as [|x a IH]; simpl; [reflexivity|]. now rewrite IH.
Qed.

Lemma render_cons (e : string * string) (rest : dict) :
  EnvFile.render (e :: rest)
  = line_of e ++ String PyText.LF (EnvFile.render rest).
Proof.
  destruct e as [k v]. unfold line_of. simpl.
  now rewrite !app_assoc_string.
Qed.

(** ** Clean entries through the loops *)

Lemma clean_value_inv (v : string) :
  clean_value v = true ->
  PyText.has_char PyText.is_linebreak v = false /\
  starts_with PyText.is_space v = false /\
  ends_with PyText.is_space v = false.
Proof.
  unfold clean_value. intros H.
  apply andb_prop in H as [H H3]. apply andb_prop in H as [H1 H2].
  now rewrite negb_true_iff in *.
Qed.

Lemma clean_entry_inv (k v : string) :
  clean_entry (k, v) = true ->
  clean_value k = true /\ clean_value v = true /\
  PyText.has_char (Ascii.eqb "="%char) k = false /\
  starts_with (Ascii.eqb "#"%char) k = false.
Proof.
  unfold clean_entry, clean_key. simpl. intros H.
  apply andb_prop in H as [H Hv]. apply andb_prop in H as [H H3].
  apply andb_prop in H as [H1 H2].
  now rewrite negb_true_iff in *.
Qed.

Lemma clean_strip (s : string) : clean_value s = true -> PyText.strip s = s.
Proof.
  intros H. destruct (clean_value_inv s H) as (_ & L & R).
  now apply strip_fixed.
Qed.

Lemma clean_line_facts (k v : string) :
  clean_entry (k, v) = true ->
  PyText.has_char PyText.is_linebreak (line_of (k, v)) = false /\
  PyText.strip (line_of (k, v)) = line_of (k, v) /\
  (line_of (k, v) =? "")%string = false /\
  prefix "#" (line_of (k, v)) = false /\
  PyStr.contains "=" (line_of (k, v)) = true /\
  unpack_eq (line_of (k, v)) = Some (k, v).
Proof.
  intros H. destruct (clean_entry_inv k v H) as (Ck & Cv & NE & NH).
  destruct (clean_value_inv k Ck) as (Lk & Sk & Ek).
  destruct (clean_value_inv v Cv) as (Lv & Sv & Ev).
  unfold line_of. cbn [fst snd].
  change ("=" ++ v) with (String "="%char v).
  assert (U : PyText.split_eq (k ++ String "="%char v) = (k, Some v))
    by now apply split_eq_line.
  repeat split.
  - rewrite has_char_app. cbn [PyText.has_char]. rewrite Lk, Lv. reflexivity.
  - apply strip_fixed.
    + destruct k; [reflexivity | exact Sk].
    + unfold ends_with in *. rewrite last_char_app.
      destruct v as [|c v']; [reflexivity|].
      destruct (last_char_cons c v') as [x E].
      cbn [PyStr.last_char] in *. now rewrite E in *.
  - now destruct k.
  - destruct k as [|c k']; cbn [append prefix].
    + destruct (ascii_dec "#" "="); [discriminate|reflexivity].
    + cbn [starts_with] in NH.
      destruct (ascii_dec "#" c) as [<-|_]; [discriminate|reflexivity].
  - rewrite contains_eq_spec, U. reflexivity.
  - unfold unpack_eq. now rewrite U.
Qed.

Lemma render_clean (d : dict) :
  forallb clean_entry d = true ->
  PyText.universal_newlines (EnvFile.render d) = EnvFile.render d /\
  PyText.splitlines (EnvFile.render d) = map line_of d.
Proof.
  intros H.
  assert (L : forall e, In e d ->
              PyText.has_char PyText.is_linebreak (line_of e) = false).
  { rewrite forallb_forall in H. intros [k v] I.
    now destruct (clean_line_facts k v (H _ I)). }
  clear H. split.
  - apply universal_newlines_fixed.
    induction d as [|e d IH]; [reflexivity|].
    rewrite render_cons, has_char_app. cbn [PyText.has_char].
    rewrite (linebreak_free_no_cr _ (L e (or_introl eq_refl))).
    rewrite IH; [reflexivity|]. intros e' I. apply L. now right.
  - induction d as [|e d IH]; [reflexivity|].
    rewrite render_cons, splitlines_line by (apply L; now left).
    simpl. f_equal. apply IH. intros e' I. apply L. now right.
Qed.

Section EnvFileFacts.

(** What is done to a line first, in either file. *)
Variable prepare : string -> string.

(** The loops of [save_env_file] and [load_env_file] never fail to
    unpack: the test before guards the unpacking. *)
Lemma parse_lines_total (lines : list string) (existing : dict) :
  exists d, EnvFile.parse_lines prepare lines existing = inr d.
Proof.
  revert existing. induction lines as [|raw rest IH]; intros existing; simpl.
  - now exists existing.
  - destruct (PyStr.contains "=" (prepare raw)) eqn:C; simpl; [|apply IH].
    destruct (prefix "#" (prepare raw)); simpl; [apply IH|].
    destruct (unpack_eq_some _ C) as (k & v & ->). apply IH.
Qed.

Lemma load_lines_no_unpack_error (lines : list string) (env env' : environ) :
  EnvFile.load_lines prepare lines env <> LoadRaised UnpackError env'.
Proof.
  revert env. induction lines as [|raw rest IH]; intros env; simpl.
  - discriminate.
  - destruct (_ || _)%bool eqn:G; [apply IH|].
    apply orb_false_elim in G as [_ G]. apply negb_false_iff in G.
    destruct (unpack_eq_some _ G) as (k & v & ->).
    destruct (os_environ_setdefault _ _ env); [apply IH|discriminate].
Qed.

(** [setdefault] changes no variable that is set. *)
Lemma setdefault_keeps (k v : string) (env env1 : environ)
      (name value : string) :
  os_environ_setdefault k v env = Some env1 ->
  env name = Some value -> env1 name = Some value.
Proof.
  unfold os_environ_setdefault.
  destruct (env k) eqn:E; [now intros [= <-]|].
  destruct (environ_accepts k v); [|discriminate].
  intros [= <-] H. unfold environ_set.
  destruct (String.eqb_spec name k) as [->|_]; [congruence|exact H].
Qed.

Lemma setdefault_sets (k v : string) (env env1 : environ) :
  os_environ_setdefault k v env = Some env1 -> env1 k <> None.
Proof.
  unfold os_environ_setdefault.
  destruct (env k) eqn:E; [intros [= <-]; congruence|].
  destruct (environ_accepts k v); [|discriminate].
  intros [= <-]. unfold environ_set. now rewrite String.eqb_refl.
Qed.

Lemma load_lines_keeps (lines : list string) (env : environ)
      (name value : string) :
  env name = Some value ->
  loaded_env (EnvFile.load_lines prepare lines env) name = Some value.
Proof.
  revert env. induction lines as [|raw rest IH]; intros env H; simpl.
  - exact H.
  - destruct (_ || _)%bool; [now apply IH|].
    destruct (unpack_eq (prepare raw)) as [[k v]|]; [|exact H].
    destruct (os_environ_setdefault _ _ env) as [env1|] eqn:S; [|exact H].
    apply IH. exact (setdefault_keeps _ _ _ _ _ _ S H).
Qed.

(** Loading into an environment that has every variable the first load
    left set changes nothing. *)
Lemma load_lines_again (lines : list string) (env env' e2 : environ) :
  EnvFile.load_lines prepare lines env = Loaded env' ->
  (forall k, env' k <> None -> e2 k <> None) ->
  EnvFile.load_lines prepare lines e2 = Loaded e2.
Proof.
  revert env. induction lines as [|raw rest IH]; intros env H I; simpl in *.
  - reflexivity.
  - destruct (_ || _)%bool; [now apply (IH env)|].
    destruct (unpack_eq (prepare raw)) as [[k v]|]; [|discriminate].
    destruct (os_environ_setdefault _ _ env) as [env1|] eqn:S; [|discriminate].
    assert (N : e2 (PyText.strip k) <> None).
    { apply I. pose proof (setdefault_sets _ _ _ _ S) as N1.
      destruct (env1 (PyText.strip k)) as [x|] eqn:E1; [|now elim N1].
      pose proof (load_lines_keeps rest env1 _ x E1) as Kp.
      rewrite H in Kp. simpl in Kp. congruence. }
    unfold os_environ_setdefault.
    destruct (e2 (PyText.strip k)); [|now elim N].
    now apply (IH env1).
Qed.

(** A line that is nothing but a value, [=...], stops the load: the
    empty name is not one [os.environ] takes. *)
Lemma load_lines_empty_name (lines : list string) (env : environ)
      (raw rest : string) :
  In raw lines -> prepare raw = String "="%char rest ->
  env "" = None ->
  exists env', EnvFile.load_lines prepare lines env
               = LoadRaised IllegalEnviron env'.
Proof.
  revert env. induction lines as [|l ls IH]; intros env I P E; [elim I|].
  simpl.
  destruct (_ || _)%bool eqn:G.
  - destruct I as [-> | I]; [|now apply IH].
    rewrite P in G. cbn in G.
    destruct (ascii_dec "#" "="); [discriminate|].
    now destruct rest.
  - apply orb_false_elim in G as [_ G]. apply negb_false_iff in G.
    destruct (unpack_eq_some _ G) as (k & v & U). rewrite U.
    destruct I as [-> | I].
    + rewrite P in U. cbn in U. injection U as <- <-.
      unfold os_environ_setdefault. cbn. rewrite E. eauto.
    + destruct (os_environ_setdefault _ _ env) as [env1|] eqn:S; [|eauto].
      apply IH; try assumption.
      revert S. unfold os_environ_setdefault.
      destruct (env (PyText.strip k)); [now intros [= <-]|].
      destruct (environ_accepts _ _) eqn:A; [|discriminate].
      intros [= <-]. unfold environ_set.
      destruct (String.eqb_spec "" (PyText.strip k)) as [Z|_]; [|exact E].
      rewrite <- Z in A. discriminate.
Qed.

(** From here on, lines written for clean entries are left alone by
    [prepare]. *)
Hypothesis prepare_clean :
  forall e, clean_entry e = true -> prepare (line_of e) = line_of e.

Lemma parse_clean_lines (d : dict) (existing : dict) :
  forallb clean_entry d = true ->
  EnvFile.parse_lines prepare (map line_of d) existing
  = inr (fold_left (fun acc e => dict_set (fst e) (snd e) acc) d existing).
Proof.
  revert existing. induction d as [|[k v] d IH]; intros existing H;
    [reflexivity|].
  simpl in H. apply andb_prop in H as [He Hd].
  cbn [map EnvFile.parse_lines fold_left]. rewrite (prepare_clean _ He).
  destruct (clean_line_facts k v He) as (_ & _ & _ & NH & C & U).
  rewrite C, NH, U. cbn [andb negb fst snd].
  destruct (clean_entry_inv k v He) as (Ck & Cv & _).
  rewrite (clean_strip k Ck), (clean_strip v Cv). now apply IH.
Qed.

Lemma fold_set_distinct (d existing : dict) :
  NoDup (map fst (existing ++ d)) ->
  fold_left (fun acc e => dict_set (fst e) (snd e) acc) d existing
  = (existing ++ d)%list.
Proof.
  revert existing. induction d as [|[k v] d IH]; intros existing H; simpl.
  - now rewrite app_nil_r.
  - assert (N : ~ In k (map fst existing)).
    { rewrite map_app in H. simpl in H.
      apply NoDup_remove_2 in H. intros I. apply H.
      apply in_or_app. now left. }
    rewrite (dict_set_new k v existing N), IH.
    + now rewrite <- app_assoc.
    + now rewrite <- app_assoc.
Qed.

(** A file written from a dict of clean entries reads back as that
    dict. *)
Lemma parse_rendered (d : dict) :
  forallb clean_entry d = true -> NoDup (map fst d) ->
  EnvFile.parse_existing prepare (Some (Text (EnvFile.render d))) = inr d.
Proof.
  intros C N. unfold EnvFile.parse_existing, EnvFile.read_text.
  destruct (render_clean d C) as [-> ->].
  rewrite (parse_clean_lines d [] C).
  now rewrite (fold_set_distinct d [] N).
Qed.

Lemma load_clean_lines (d : dict) (env : environ) :
  forallb clean_entry d = true -> forallb accepted_entry d = true ->
  exists env',
    EnvFile.load_lines prepare (map line_of d) env = Loaded env' /\
    forall name,
      env' name = match env name with
                  | Some x => Some x
                  | None => dict_get name d
                  end.
Proof.
  revert env. induction d as [|[k v] d IH]; intros env C A.
  - exists env. split; [reflexivity|]. intros name. now destruct (env name).
  - simpl in C, A. apply andb_prop in C as [Ce Cd].
    apply andb_prop in A as [Ae Ad].
    cbn [map EnvFile.load_lines]. rewrite (prepare_clean _ Ce).
    destruct (clean_line_facts k v Ce) as (_ & _ & NE & NH & CE & U).
    rewrite NE, NH, CE, U. cbn [orb negb].
    destruct (clean_entry_inv k v Ce) as (Ck & Cv & _).
    rewrite (clean_strip k Ck), (clean_strip v Cv).
    unfold os_environ_setdefault.
    destruct (env k) as [x|] eqn:E.
    + destruct (IH env Cd Ad) as (env' & L & F). exists env'.
      split; [exact L|]. intros name. rewrite F. cbn [dict_get].
      destruct (env name) eqn:En; [reflexivity|].
      destruct (String.eqb_spec k name) as [->|_]; [congruence|reflexivity].
    + unfold accepted_entry in Ae. cbn [fst snd] in Ae. rewrite Ae.
      destruct (IH (environ_set k v env) Cd Ad) as (env' & L & F).
      exists env'. split; [exact L|]. intros name. rewrite F.
      unfold environ_set. cbn [dict_get].
      rewrite (String.eqb_sym name k).
      destruct (String.eqb_spec k name) as [->|_].
      * now rewrite E.
      * reflexivity.
Qed.

End EnvFileFacts.

Lemma strip_clean_line (e : string * string) :
  clean_entry e = true -> PyText.strip (line_of e) = line_of e.
Proof.
  destruct e as [k v]. intros H.
  now destruct (clean_line_facts k v H) as (_ & S & _).
Qed.

(** ** What [save_env_file] writes *)

Lemma merge_pairs_lookup (include_key : bool) (pairs d : dict) (name : string) :
  NoDup (map fst pairs) ->
  dict_get name (EnvFile.merge_pairs include_key pairs d)
  = if ((name =? "OPENAI_API_KEY")%string && negb include_key)%bool
    then dict_get name d
    else match dict_get name pairs with
         | Some v => Some v
         | None => dict_get name d
         end.
Proof.
  revert d. induction pairs as [|[k v] rest IH]; intros d N.
  - simpl. now destruct (_ && _)%bool.
  - inversion N as [|? ? NI N']; subst.
    cbn [EnvFile.merge_pairs dict_get].
    destruct ((k =? "OPENAI_API_KEY")%string && negb include_key)%bool eqn:G.
    + rewrite (IH d N').
      apply andb_prop in G as [G1 G2]. apply String.eqb_eq in G1. subst k.
      rewrite G2, andb_true_r.
      destruct (String.eqb_spec name "OPENAI_API_KEY") as [_|NE];
        [reflexivity|].
      destruct (String.eqb_spec "OPENAI_API_KEY" name) as [E|_];
        [now elim NE|reflexivity].
    + rewrite (IH (dict_set k v d) N'), dict_get_set.
      destruct (String.eqb_spec k name) as [->|NE].
      * rewrite G.
        assert (D : dict_get name rest = None)
          by now apply dict_get_none.
        now rewrite D.
      * reflexivity.
Qed.

Lemma merge_pairs_forall (P : string * string -> Prop) (include_key : bool)
      (pairs d : dict) :
  Forall P pairs -> Forall P d ->
  Forall P (EnvFile.merge_pairs include_key pairs d).
Proof.
  intros Hp. revert d. induction Hp as [|[k v] rest H F IH]; intros d Hd;
    simpl; [exact Hd|].
  destruct (_ && _)%bool; [now apply IH|].
  apply IH. now apply dict_set_forall.
Qed.

Lemma merge_pairs_nodup (include_key : bool) (pairs d : dict) :
  NoDup (map fst d) ->
  NoDup (map fst (EnvFile.merge_pairs include_key pairs d)).
Proof.
  revert d. induction pairs as [|[k v] rest IH]; intros d N; simpl;
    [exact N|].
  destruct (_ && _)%bool; [now apply IH|].
  apply IH. now apply dict_set_nodup.
Qed.

(** The unpacking [k, v = line.split("=", 1)] never raises, in either
    function of either file: the test before it guards it. So neither
    [save_env_file] nor [load_env_file] ends with that [ValueError], and
    on a file that [read_text()] can read and decode, whatever its lines
    are, both loops of [save_env_file] go through to the write. *)
Theorem unpacking_never_raises
        (pairs : dict) (include_key : bool) (disk : option env_file)
        (env : environ) :
  (Ui.save_env_file pairs include_key disk <> SaveRaised UnpackError /\
   App.save_env_file pairs include_key disk <> SaveRaised UnpackError) /\
  (forall env',
      Ui.load_env_file disk env <> LoadRaised UnpackError env' /\
      App.load_env_file disk env <> LoadRaised UnpackError env') /\
  (forall content,
      (exists text,
          Ui.save_env_file pairs include_key (Some (Text content))
          = Saved text) /\
      (exists text,
          App.save_env_file pairs include_key (Some (Text content))
          = Saved text)).
Proof.
  assert (S : forall prepare,
             EnvFile.save_env_file prepare pairs include_key disk
             <> SaveRaised UnpackError).
  { intros prepare.
    unfold EnvFile.save_env_file, EnvFile.merged, EnvFile.parse_existing.
    destruct disk as [[content|]|]; simpl; try discriminate.
    destruct (parse_lines_total prepare
                (PyText.splitlines (PyText.universal_newlines content)) [])
      as [d ->]. discriminate. }
  assert (L : forall prepare env',
             EnvFile.load_env_file prepare disk env
             <> LoadRaised UnpackError env').
  { intros prepare env'. unfold EnvFile.load_env_file.
    destruct disk as [[content|]|]; simpl; try discriminate.
    apply load_lines_no_unpack_error. }
  assert (G : forall prepare content,
             exists text,
               EnvFile.save_env_file prepare pairs include_key
                                     (Some (Text content))
               = Saved text).
  { intros prepare content.
    unfold EnvFile.save_env_file, EnvFile.merged, EnvFile.parse_existing.
    simpl.
    destruct (parse_lines_total prepare
                (PyText.splitlines (PyText.universal_newlines content)) [])
      as [d ->]. eauto. }
  split; [split; apply S|]. split.
  - intros env'. split; apply L.
  - intros content. split; apply G.
Qed.

(** Without [include_key], the [OPENAI_API_KEY] entry that is written is
    the one the old file had, or none when it had none: whatever key the
    caller passes in [pairs] is neither added nor put in place of the old
    one. This holds in both files. *)
Theorem stored_key_untouched_without_include_key
        (prepare : string -> string) (pairs d0 d : dict)
        (disk : option env_file) :
  EnvFile.parse_existing prepare disk = inr d0 ->
  EnvFile.merged prepare pairs false disk = inr d ->
  dict_get "OPENAI_API_KEY" d = dict_get "OPENAI_API_KEY" d0.
Proof.
  unfold EnvFile.merged. intros -> [= <-]. clear disk.
  revert d0. induction pairs as [|[k v] rest IH]; intros d0; [reflexivity|].
  cbn [EnvFile.merge_pairs]. rewrite andb_true_r.
  destruct (String.eqb_spec k "OPENAI_API_KEY") as [->|N]; [apply IH|].
  rewrite IH, dict_get_set.
  destruct (String.eqb_spec k "OPENAI_API_KEY"); [contradiction|reflexivity].
Qed.

(** What is written for each name: the value of [pairs] when [pairs] has
    the name (and the name is not a withheld [OPENAI_API_KEY]), else the
    value the old file had. *)
Theorem written_entries
        (prepare : string -> string) (pairs d0 d : dict)
        (include_key : bool) (disk : option env_file) (name : string) :
  NoDup (map fst pairs) ->
  EnvFile.parse_existing prepare disk = inr d0 ->
  EnvFile.merged prepare pairs include_key disk = inr d ->
  dict_get name d
  = if ((name =? "OPENAI_API_KEY")%string && negb include_key)%bool
    then dict_get name d0
    else match dict_get name pairs with
         | Some v => Some v
         | None => dict_get name d0
         end.
Proof.
  unfold EnvFile.merged. intros N -> [= <-].
  now apply merge_pairs_lookup.
Qed.

(** Saving over a file that holds clean entries with distinct keys
    writes those entries updated by [pairs], in both files: the old
    entries are read back as they were written. *)
Theorem save_over_saved_file
        (pairs d0 : dict) (include_key : bool) :
  forallb clean_entry d0 = true -> NoDup (map fst d0) ->
  Ui.save_env_file pairs include_key (Some (Text (EnvFile.render d0)))
  = Saved (EnvFile.render (EnvFile.merge_pairs include_key pairs d0)) /\
  App.save_env_file pairs include_key (Some (Text (EnvFile.render d0)))
  = Saved (EnvFile.render (EnvFile.merge_pairs include_key pairs d0)).
Proof.
  intros C N.
  unfold Ui.save_env_file, App.save_env_file, EnvFile.save_env_file,
    EnvFile.merged.
  rewrite (parse_rendered PyText.strip strip_clean_line d0 C N).
  rewrite (parse_rendered (fun l => l) (fun e _ => eq_refl) d0 C N).
  now split.
Qed.

(** ** What [load_env_file] sets *)

(** [load_env_file] changes no variable that is set, even to the empty
    string, whether it ends well or raises; this holds in both files. *)
Theorem load_env_file_never_overrides
        (disk : option env_file) (env : environ) (name value : string) :
  env name = Some value ->
  loaded_env (Ui.load_env_file disk env) name = Some value /\
  loaded_env (App.load_env_file disk env) name = Some value.
Proof.
  intros H.
  unfold Ui.load_env_file, App.load_env_file, EnvFile.load_env_file.
  destruct disk as [[content|]|]; simpl; [|now split|now split].
  split; now apply load_lines_keeps.
Qed.

(** Loading the same file a second time changes nothing. *)
Theorem load_env_file_twice_is_once
        (prepare : string -> string) (disk : option env_file)
        (env env' : environ) :
  EnvFile.load_env_file prepare disk env = Loaded env' ->
  EnvFile.load_env_file prepare disk env' = Loaded env'.
Proof.
  unfold EnvFile.load_env_file.
  destruct disk as [[content|]|]; simpl;
    [|discriminate|now intros [= <-]].
  intros H. now apply (load_lines_again prepare _ env env').
Qed.

(** A line that reads [=value] once stripped makes [load_env_file] of
    [holodeck_ui.py] raise: the name would be empty. *)
Theorem load_env_file_rejects_empty_name
        (file : env_file) (text raw rest : string) (env : environ) :
  EnvFile.read_text file = inr text ->
  In raw (PyText.splitlines text) ->
  PyText.strip raw = String "="%char rest ->
  env "" = None ->
  exists env',
    Ui.load_env_file (Some file) env = LoadRaised IllegalEnviron env'.
Proof.
  intros R I S E. unfold Ui.load_env_file, EnvFile.load_env_file.
  rewrite R.
  now apply (load_lines_empty_name PyText.strip _ env raw rest).
Qed.

(** What was saved comes back on load: after [save_env_file] over a file
    of clean entries, [load_env_file] gives every name that is not set
    yet the value written for it, and leaves the names that are set. *)
Theorem saved_defaults_load_back
        (pairs d0 : dict) (include_key : bool) (env : environ) :
  forallb clean_entry d0 = true -> NoDup (map fst d0) ->
  forallb clean_entry pairs = true ->
  forallb accepted_entry d0 = true -> forallb accepted_entry pairs = true ->
  exists content env',
    Ui.save_env_file pairs include_key (Some (Text (EnvFile.render d0)))
    = Saved content /\
    Ui.load_env_file (Some (Text content)) env = Loaded env' /\
    forall name,
      env' name
      = match env name with
        | Some x => Some x
        | None => dict_get name (EnvFile.merge_pairs include_key pairs d0)
        end.
Proof.
  intros C N Cp A Ap.
  destruct (save_over_saved_file pairs d0 include_key C N) as [S _].
  set (d := EnvFile.merge_pairs include_key pairs d0) in *.
  assert (Cd : forallb clean_entry d = true).
  { apply forallb_forall. apply Forall_forall.
    apply merge_pairs_forall; apply Forall_forall; now apply forallb_forall. }
  assert (Ad : forallb accepted_entry d = true).
  { apply forallb_forall. apply Forall_forall.
    apply merge_pairs_forall; apply Forall_forall; now apply forallb_forall. }
  exists (EnvFile.render d).
  unfold Ui.load_env_file, EnvFile.load_env_file, EnvFile.read_text.
  destruct (render_clean d Cd) as [-> ->].
  destruct (load_clean_lines PyText.strip strip_clean_line d env Cd Ad)
    as (env' & L & F).
  exists env'. repeat split; assumption.
Qed.

(** ** What [holodeck_ui.py] keeps of an old file *)

Lemma splitlines_linebreak_free (s l : string) :
  In l (PyText.splitlines s) ->
  PyText.has_char PyText.is_linebreak l = false.
Proof.
  remember (String.length s) as n eqn:Len.
  assert (B : (String.length s <= n)%nat) by lia. clear Len.
  revert s l B. induction n as [|n IH]; intros [|c t] l B; simpl in B;
    try (intros []); try lia.
  cbn [PyText.splitlines].
  destruct (PyText.is_linebreak c) eqn:LB.
  - intros [<- | I]; [reflexivity|].
    destruct t as [|c2 t2]; [elim I|].
    destruct (_ && _)%bool.
    + apply (IH t2); [simpl in B; lia | exact I].
    + apply (IH (String c2 t2)); [lia | exact I].
  - destruct (PyText.splitlines t) as [|l0 ls] eqn:E.
    + intros [<- | []]. cbn [PyText.has_char]. now rewrite LB.
    + intros [<- | I].
      * cbn [PyText.has_char]. rewrite LB.
        apply (IH t); [lia|]. rewrite E. now left.
      * apply (IH t); [lia|]. rewrite E. now right.
Qed.

Lemma has_char_lstrip (p : ascii -> bool) (s : string) :
  PyText.has_char p s = false -> PyText.has_char p (PyText.lstrip s) = false.
Proof.
  induction s as [|c t IH]; [reflexivity|].
  cbn [PyText.lstrip]. destruct (PyText.is_space c); [|now intros ->].
  cbn [PyText.has_char]. intros H.
  apply orb_false_elim in H as [_ H]. now apply IH.
Qed.

Lemma has_char_rstrip (p : ascii -> bool) (s : string) :
  PyText.has_char p s = false -> PyText.has_char p (PyText.rstrip s) = false.
Proof.
  induction s as [|c t IH]; [reflexivity|].
  cbn [PyText.has_char PyText.rstrip]. intros H.
  apply orb_false_elim in H as [Hc Ht]. specialize (IH Ht).
  destruct (PyText.rstrip t) as [|c' t'].
  - destruct (PyText.is_space c); [reflexivity|].
    cbn [PyText.has_char]. now rewrite Hc.
  - cbn [PyText.has_char] in *. now rewrite Hc, IH.
Qed.

Lemma has_char_strip (p : ascii -> bool) (s : string) :
  PyText.has_char p s = false -> PyText.has_char p (PyText.strip s) = false.
Proof.
  intros H. unfold PyText.strip. now apply has_char_rstrip, has_char_lstrip.
Qed.

Lemma lstrip_no_lead (s : string) :
  starts_with PyText.is_space (PyText.lstrip s) = false.
Proof.
  induction s as [|c t IH]; [reflexivity|].
  cbn [PyText.lstrip]. destruct (PyText.is_space c) eqn:E; [exact IH|].
  exact E.
Qed.

Lemma rstrip_no_trail (s : string) :
  ends_with PyText.is_space (PyText.rstrip s) = false.
Proof.
  unfold ends_with. induction s as [|c t IH]; [reflexivity|].
  cbn [PyText.rstrip]. destruct (PyText.rstrip t) as [|c' t'].
  - destruct (PyText.is_space c) eqn:E; [reflexivity|].
    cbn [PyStr.last_char]. exact E.
  - cbn [PyStr.last_char] in *. exact IH.
Qed.

(** [rstrip] leaves the first character of a string that does not start
    with white space. *)
Lemma rstrip_keeps_lead (q : ascii -> bool) (s : string) :
  starts_with PyText.is_space s = false ->
  starts_with q (PyText.rstrip s) = starts_with q s.
Proof.
  destruct s as [|c t]; [reflexivity|].
  cbn [starts_with PyText.rstrip]. intros H.
  destruct (PyText.rstrip t); [now rewrite H|reflexivity].
Qed.

Lemma strip_clean_value (s : string) :
  PyText.has_char PyText.is_linebreak s = false ->
  clean_value (PyText.strip s) = true.
Proof.
  intros H. unfold clean_value.
  rewrite (has_char_strip _ s H). unfold PyText.strip.
  rewrite rstrip_no_trail.
  rewrite rstrip_keeps_lead by apply lstrip_no_lead.
  now rewrite lstrip_no_lead.
Qed.

Lemma split_eq_parts (p : ascii -> bool) (s k : string) (ov : option string) :
  PyText.split_eq s = (k, ov) ->
  PyText.has_char (Ascii.eqb "="%char) k = false /\
  (k = "" \/ exists c k' t, k = String c k' /\ s = String c t) /\
  (PyText.has_char p s = false ->
   PyText.has_char p k = false /\
   forall v, ov = Some v -> PyText.has_char p v = false).
Proof.
  revert k ov. induction s as [|c t IH]; intros k ov.
  - intros [= <- <-]. repeat split; try tauto. discriminate.
  - cbn [PyText.split_eq].
    destruct (Ascii.eqb_spec c "="%char) as [->|N].
    + intros [= <- <-]. repeat split; try tauto.
      intros v [= <-]. cbn [PyText.has_char] in H.
      now apply orb_false_elim in H.
    + destruct (PyText.split_eq t) as [k0 ov0].
      intros [= <- <-].
      destruct (IH k0 ov0 eq_refl) as (E & _ & F).
      split; [|split].
      * cbn [PyText.has_char]. rewrite E.
        destruct (Ascii.eqb_spec "="%char c); [now subst|reflexivity].
      * right. now exists c, k0, t.
      * cbn [PyText.has_char]. intros H.
        apply orb_false_elim in H as [Hc Ht].
        destruct (F Ht) as [Fk Fv]. rewrite Hc, Fk. split; [reflexivity|].
        exact Fv.
Qed.

Lemma prefix_hash (s : string) :
  prefix "#" s = starts_with (Ascii.eqb "#"%char) s.
Proof.
  destruct s as [|c t]; [reflexivity|].
  cbn [prefix starts_with].
  destruct (ascii_dec "#" c) as [<-|N].
  - now destruct t.
  - symmetry. now apply Ascii.eqb_neq.
Qed.

(** The entry [holodeck_ui.py] makes of a line it keeps is clean. *)
Lemma ui_entry_clean (raw k v : string) :
  PyText.has_char PyText.is_linebreak raw = false ->
  prefix "#" (PyText.strip raw) = false ->
  unpack_eq (PyText.strip raw) = Some (k, v) ->
  clean_entry (PyText.strip k, PyText.strip v) = true.
Proof.
  intros L H U. unfold unpack_eq in U.
  destruct (PyText.split_eq (PyText.strip raw)) as [k0 [v0|]] eqn:S;
    [|discriminate].
  injection U as -> ->.
  destruct (split_eq_parts PyText.is_linebreak _ _ _ S) as (E & Hd & F).
  destruct (F (has_char_strip _ raw L)) as [Lk Lv].
  unfold clean_entry, clean_key. cbn [fst snd].
  rewrite (strip_clean_value k Lk), (strip_clean_value v (Lv v eq_refl)).
  rewrite (has_char_strip _ k E). cbn [andb negb].
  rewrite andb_true_r. apply negb_true_iff.
  destruct Hd as [-> | (c & k' & t & -> & St)]; [reflexivity|].
  assert (Sp : starts_with PyText.is_space (String c k') = false).
  { pose proof (lstrip_no_lead raw) as A.
    pose proof (rstrip_keeps_lead PyText.is_space (PyText.lstrip raw) A) as R.
    fold (PyText.strip raw) in R. rewrite St, A in R. exact R. }
  unfold PyText.strip. rewrite (lstrip_fixed _ Sp).
  rewrite (rstrip_keeps_lead _ _ Sp).
  rewrite prefix_hash, St in H. exact H.
Qed.

Lemma ui_parse_lines_clean (lines : list string) (existing d : dict) :
  (forall l, In l lines -> PyText.has_char PyText.is_linebreak l = false) ->
  Forall (fun e => clean_entry e = true) existing ->
  NoDup (map fst existing) ->
  EnvFile.parse_lines PyText.strip lines existing = inr d ->
  Forall (fun e => clean_entry e = true) d /\ NoDup (map fst d).
Proof.
  revert existing. induction lines as [|raw rest IH]; intros existing L C N.
  - now intros [= <-].
  - cbn [EnvFile.parse_lines].
    assert (L' : forall l, In l rest ->
                 PyText.has_char PyText.is_linebreak l = false)
      by (intros l I; apply L; now right).
    destruct (PyStr.contains "=" (PyText.strip raw)); cbn [andb];
      [|now apply IH].
    destruct (prefix "#" (PyText.strip raw)) eqn:H; cbn [negb];
      [now apply IH|].
    destruct (unpack_eq (PyText.strip raw)) as [[k v]|] eqn:U; [|discriminate].
    apply IH; try assumption.
    + apply dict_set_forall; [|exact C].
      apply (ui_entry_clean raw k v); try assumption. apply L. now left.
    + now apply dict_set_nodup.
Qed.

(** Whatever the old file holds, the entries [save_env_file] of
    [holodeck_ui.py] writes are clean and have distinct keys when the
    pairs passed in are clean: the file it writes reads back as the very
    dict that was written, so saving again with nothing new leaves the
    file as it is. *)
Theorem ui_saved_file_is_stable
        (pairs : dict) (include_key keep : bool) (disk : option env_file)
        (content : string) :
  forallb clean_entry pairs = true ->
  Ui.save_env_file pairs include_key disk = Saved content ->
  exists d,
    content = EnvFile.render d /\
    forallb clean_entry d = true /\ NoDup (map fst d) /\
    EnvFile.parse_existing PyText.strip (Some (Text content)) = inr d /\
    Ui.save_env_file [] keep (Some (Text content)) = Saved content.
Proof.
  intros Cp. unfold Ui.save_env_file, EnvFile.save_env_file, EnvFile.merged.
  destruct (EnvFile.parse_existing PyText.strip disk) as [e|d0] eqn:P;
    [discriminate|].
  intros [= <-].
  assert (I : Forall (fun e => clean_entry e = true) d0 /\ NoDup (map fst d0)).
  { unfold EnvFile.parse_existing in P.
    destruct disk as [[old|]|]; simpl in P.
    - apply (ui_parse_lines_clean _ [] d0) in P; try assumption;
        try constructor.
      intros l. apply splitlines_linebreak_free.
    - discriminate.
    - injection P as <-. split; constructor. }
  destruct I as [C0 N0].
  set (d := EnvFile.merge_pairs include_key pairs d0).
  assert (Cd : forallb clean_entry d = true).
  { apply forallb_forall. apply Forall_forall.
    apply merge_pairs_forall; [|exact C0].
    apply Forall_forall. now apply forallb_forall. }
  assert (Nd : NoDup (map fst d)) by now apply merge_pairs_nodup.
  exists d. split; [reflexivity|]. split; [exact Cd|]. split; [exact Nd|].
  rewrite (parse_rendered PyText.strip strip_clean_line d Cd Nd).
  now split.
Qed.

(** ** [generate] *)

Lemma first_non_empty_none (l : list (option string)) :
  first_non_empty l = None -> forall x, In x l -> truthy_str x = false.
Proof.
  induction l as [|a l IH]; cbn [first_non_empty]; intros H x I; [elim I|].
  destruct (truthy_str a) eqn:T.
  - subst a. discriminate.
  - destruct I as [<- | I]; [exact T | now apply IH].
Qed.

(** An [or] chain gives the first non-empty operand, and something empty
    or unset when there is none. *)
Lemma or_chain_first_non_empty (a : option string)
      (rest : list (option string)) :
  match first_non_empty (a :: rest) with
  | Some k => fold_left py_or rest a = Some k /\ k <> ""
  | None => truthy_str (fold_left py_or rest a) = false
  end.
Proof.
  revert a. induction rest as [|b rest IH]; intros a.
  - cbn [first_non_empty fold_left].
    destruct (truthy_str_cases a) as [(k & -> & N & T)|T]; rewrite T;
      [now split | reflexivity].
  - cbn [fold_left first_non_empty].
    destruct (truthy_str a) eqn:T.
    + replace (py_or a b) with a by (unfold py_or; now rewrite T).
      specialize (IH a). cbn [first_non_empty] in IH. now rewrite T in IH.
    + replace (py_or a b) with b by (unfold py_or; now rewrite T).
      exact (IH b).
Qed.

Lemma child_env_lookups (a : Ui.generate_args) (key : string) (env : environ) :
  let cenv := Ui.child_env a key env in
  cenv "OPENAI_API_BASE" = Some (Ui.g_base_url a) /\
  cenv "OPENAI_BASE_URL" = Some (Ui.g_base_url a) /\
  cenv "OPENAI_API_KEY" = Some key /\
  cenv "HOLODECK_MODEL" = Some (Ui.g_model a) /\
  cenv "GITHUB_TOKEN" = env "GITHUB_TOKEN" /\
  cenv "GH_TOKEN" = env "GH_TOKEN".
Proof.
  unfold Ui.child_env. cbv zeta.
  destruct (Ui.g_fast_mode a);
    match goal with
    | |- context [match ?e "OMP_NUM_THREADS" with _ => _ end] =>
        destruct (e "OMP_NUM_THREADS")
    end;
    unfold environ_set; repeat split.
Qed.

(** A client built without arguments inside the environment [generate]
    gives the child talks to the base URL and the model of the command
    line. Its credential is the [GITHUB_TOKEN] or the [GH_TOKEN] the
    launcher inherited, when one of them is non-empty, and the key
    [generate] resolved only otherwise. *)
Theorem child_client_configuration
        (a : Ui.generate_args) (key : string) (env : environ) :
  key <> "" ->
  let c := __init__ default_args (Ui.child_env a key env) in
  model c = Ui.g_model a /\
  base_url c
  = PyStr.rstrip_slash
      (if (Ui.g_base_url a =? "")%string then DEFAULT_BASE
       else Ui.g_base_url a) /\
  first_non_empty [env "GITHUB_TOKEN"; env "GH_TOKEN"; Some key]
  = api_key c /\
  truthy_str (api_key c) = true.
Proof.
  intros K c.
  destruct (child_env_lookups a key env) as (B1 & B2 & Ky & M & G & H).
  assert (TK : truthy_str (Some key) = true)
    by (simpl; now destruct (String.eqb_spec key "")).
  assert (A : first_non_empty [env "GITHUB_TOKEN"; env "GH_TOKEN"; Some key]
              = api_key c /\ truthy_str (api_key c) = true).
  { subst c. cbn [api_key __init__]. unfold resolve_api_key, default_args.
    cbn [arg_api_key]. rewrite G, H, Ky.
    change (py_or None (env "GITHUB_TOKEN")) with (env "GITHUB_TOKEN").
    pose proof (or_chain_first_non_empty
                  (env "GITHUB_TOKEN") [env "GH_TOKEN"; Some key]) as F.
    cbn [fold_left] in F.
    destruct (first_non_empty _) as [k|] eqn:E.
    - destruct F as [-> N]. split; [reflexivity|].
      simpl. now destruct (String.eqb_spec k "").
    - pose proof (first_non_empty_none _ E (Some key)) as X.
      rewrite TK in X. discriminate X. right; right; now left. }
  destruct A as [A TA].
  repeat split.
  - subst c. cbn [model __init__]. unfold resolve_model, default_args.
    cbn [arg_model py_or_str]. unfold getenv_default. now rewrite M.
  - subst c. cbn [base_url __init__]. unfold resolve_base_url, raw_base_url.
    unfold default_args. cbn [arg_base_url]. rewrite B1, B2.
    unfold py_or. cbn [truthy_str].
    destruct (Ui.g_base_url a =? "")%string eqn:E;
      cbn [negb py_or_str]; rewrite ?E; reflexivity.
  - exact A.
  - exact TA.
Qed.

Section GenerateFacts.

Variable python : string.
Variable run_stream : list string -> environ -> Z.

(** [generate] leaves [.holodeck.env] as it found it unless the child
    returned 0, the search for the latest scene after it did not raise,
    and one of the two remember flags is set: a failed generation, a
    missing key, a file that does not load or a [stat()] that raises
    never touch the file. *)
Theorem generate_writes_only_after_success
        (a : Ui.generate_args) (disk : option env_file) (root : scenes_root)
        (env : environ) :
  Ui.r_disk (Ui.generate python run_stream a disk root env) = disk \/
  (Ui.r_ending (Ui.generate python run_stream a disk root env)
   = Ui.Finished /\
   (Ui.g_remember_defaults a || Ui.g_remember_key a)%bool = true /\
   (exists cmd cenv,
       Ui.r_ran (Ui.generate python run_stream a disk root env)
       = Some (cmd, cenv) /\
       run_stream cmd cenv = 0) /\
   exists scene, Ui.latest_scene_json root = inr scene).
Proof.
  unfold Ui.generate.
  destruct (Ui.load_env_file disk env) as [env1|e env1]; [|now left].
  destruct (Ui.resolve_key a env1) as [key|]; [|now left].
  destruct (key =? "")%string; [now left|].
  destruct (run_stream _ _ =? 0) eqn:R; cbn [negb]; [|now left].
  destruct (Ui.latest_scene_json root) as [e|scene]; [now left|].
  destruct (_ || _)%bool eqn:F; [|now left].
  destruct (Ui.save_env_file _ _ disk); [|now left].
  right. cbn. repeat split; [|now exists scene].
  eexists _, _. split; [reflexivity|].
  now apply Z.eqb_eq.
Qed.

(** [generate] runs the child only with a key: the first non-empty value
    among the [--key] option, [OPENAI_API_KEY] and [GITHUB_TOKEN], the
    environment being the one [load_env_file] left. That key is on the
    command line and in [OPENAI_API_KEY] of the child. *)
Theorem generate_runs_only_with_a_key
        (a : Ui.generate_args) (disk : option env_file) (root : scenes_root)
        (env : environ) (cmd : list string) (cenv : environ) :
  Ui.r_ran (Ui.generate python run_stream a disk root env)
  = Some (cmd, cenv) ->
  exists key env1,
    Ui.load_env_file disk env = Loaded env1 /\
    first_non_empty [Some (Ui.g_api_key a); env1 "OPENAI_API_KEY";
                     env1 "GITHUB_TOKEN"] = Some key /\
    key <> "" /\
    cmd = Ui.command python a key /\
    cenv = Ui.child_env a key env1 /\
    cenv "OPENAI_API_KEY" = Some key.
Proof.
  unfold Ui.generate.
  destruct (Ui.load_env_file disk env) as [env1|e env1]; [|discriminate].
  destruct (Ui.resolve_key a env1) as [key|] eqn:RK; [|discriminate].
  destruct (String.eqb_spec key "") as [->|NE]; [discriminate|].
  assert (F : first_non_empty [Some (Ui.g_api_key a); env1 "OPENAI_API_KEY";
                               env1 "GITHUB_TOKEN"] = Some key).
  { pose proof (or_chain_first_non_empty
                  (Some (Ui.g_api_key a))
                  [env1 "OPENAI_API_KEY"; env1 "GITHUB_TOKEN"]) as X.
    cbn [fold_left] in X. fold (Ui.resolve_key a env1) in X. rewrite RK in X.
    destruct (first_non_empty _) as [k|]; [now destruct X as [[= ->] _]|].
    simpl in X. now destruct (String.eqb_spec key ""). }
  assert (G : forall res : Ui.generate_result,
             Ui.r_ran res = Some (Ui.command python a key,
                                  Ui.child_env a key env1) ->
             Ui.r_ran res = Some (cmd, cenv) ->
             exists key env2,
               Loaded env1 = Loaded env2 /\
               first_non_empty [Some (Ui.g_api_key a); env2 "OPENAI_API_KEY";
                                env2 "GITHUB_TOKEN"] = Some key /\
               key <> "" /\
               cmd = Ui.command python a key /\
               cenv = Ui.child_env a key env2 /\
               cenv "OPENAI_API_KEY" = Some key).
  { intros res -> [= <- <-]. exists key, env1. repeat split; try assumption.
    now destruct (child_env_lookups a key env1) as (_ & _ & Ky & _). }
  destruct (negb _); [now apply G|].
  destruct (Ui.latest_scene_json root); [now apply G|].
  destruct (_ || _)%bool; [|now apply G].
  destruct (Ui.save_env_file _ _ disk); now apply G.
Qed.

End GenerateFacts.

(** The two launchers remember the same entries: the dict [generate] of
    [holodeck_ui.py] hands to [save_env_file] and the one [app.py] hands
    to it, which always holds the key, lead to the same dict being
    written. *)
Theorem remembered_pairs_agree
        (a : Ui.generate_args) (key : string) (existing : dict) :
  EnvFile.merge_pairs (Ui.g_remember_key a) (Ui.remembered_pairs a key)
                      existing
  = EnvFile.merge_pairs (Ui.g_remember_key a)
                        (App.remembered_pairs (Ui.g_base_url a) (Ui.g_model a)
                                              key)
                        existing.
Proof.
  unfold Ui.remembered_pairs, App.remembered_pairs.
  destruct (Ui.g_remember_key a); reflexivity.
Qed.

(** ** The further properties at work on sample runs *)

Lemma non_json_other_status_is_terminal_witness :
  __call__ nat (Sample.scripted [Sample.html_502; Sample.chair_200])
           Sample.client "describe a chair" 0%nat
  = (Failed (TransportError 502 Sample.primary_url "<html>Bad Gateway</html>"),
     after_one Sample.client "describe a chair" 1%nat).
Proof.
  apply (non_json_other_status_is_terminal
           nat (Sample.scripted [Sample.html_502; Sample.chair_200])
           Sample.client "describe a chair" 0%nat 1%nat Sample.html_502);
    reflexivity.
Defined.

Lemma fallback_success_two_calls_witness :
  __call__ nat (Sample.scripted [Sample.html_404; Sample.chair_200])
           Sample.client "describe a chair" 0%nat
  = (Returned (JStr "A wooden chair."),
     after_two Sample.client "describe a chair" 2%nat).
Proof.
  apply (fallback_success_two_calls
           nat (Sample.scripted [Sample.html_404; Sample.chair_200])
           Sample.client "describe a chair" 0%nat 1%nat 2%nat
           Sample.html_404 Sample.chair_200 Sample.chair_body
           (JStr "A wooden chair."));
    reflexivity.
Defined.

Lemma error_member_is_never_success_witness :
  exists f,
    __call__ nat (Sample.constant Fixtures.error_and_content_200)
             Sample.client "describe a chair" 0%nat
    = (Failed f, after_one Sample.client "describe a chair" 1%nat) /\
    ((exists pe, f = PyError pe) \/
     (exists code ex,
         f = ModelError (status_code Fixtures.error_and_content_200) code ex
         /\ bounded_excerpt ex)).
Proof.
  apply (error_member_is_never_success
           nat (Sample.constant Fixtures.error_and_content_200)
           Sample.client "describe a chair" 0%nat 1%nat
           Fixtures.error_and_content_200
           [("error", JObj [("message", JStr "quota exceeded")]);
            ("choices",
             JArr [JObj [("message", JObj [("content", JStr "partial")])]])]
           (JObj [("message", JStr "quota exceeded")]));
    reflexivity.
Defined.

Lemma returned_only_from_success_witness :
  exists url r data,
    answered nat (Sample.constant Sample.chair_200) Sample.client
             "describe a chair" 0%nat url r /\
    status_code r < 300 /\
    body_json r = Some data /\
    Shape.error_field data = None /\
    Shape.content_path data = Some (JStr "A wooden chair.").
Proof.
  apply (returned_only_from_success
           nat (Sample.constant Sample.chair_200) Sample.client
           "describe a chair" 0%nat (JStr "A wooden chair.")
           (after_one Sample.client "describe a chair" 1%nat)).
  reflexivity.
Defined.

Lemma exhausted_only_past_fallback_witness :
  exists r2,
    answered nat (Sample.constant Sample.html_404)
             (__init__ Sample.args Sample.env_empty) "describe a chair" 0%nat
             (endpoint_fallback (__init__ Sample.args Sample.env_empty)) r2 /\
    body_json r2 = None /\ is_wrong_path_status (status_code r2) = true.
Proof.
  apply (exhausted_only_past_fallback
           nat (Sample.constant Sample.html_404) Sample.args Sample.env_empty
           "describe a chair" 0%nat
           (after_two (__init__ Sample.args Sample.env_empty)
                      "describe a chair" 2%nat)).
  reflexivity.
Defined.

Lemma bump_raises_within_hard_limit_witness :
  limits_after 8192 (1024, 4096) = (Z.max 1024 (Z.min 8192 4096), 4096) /\
  1024 <= fst (limits_after 8192 (1024, 4096)) <= 4096 /\
  (bump_nofile_limit 8192 (1024, 4096) = None
   <-> (8192 <= 1024 \/ 1024 = 4096)).
Proof.
  apply (bump_raises_within_hard_limit 8192 1024 4096). lia.
Defined.

Lemma bump_twice_is_once_witness :
  bump_nofile_limit 8192 (limits_after 8192 (1024, 4096)) = None.
Proof.
  apply (bump_twice_is_once 8192 1024 4096). lia.
Defined.

Lemma list_scene_jsons_is_prefix_witness :
  (forall l,
      App.list_scene_jsons 3 (Some Fixtures.scenes) = inr l ->
      l = [Fixtures.scene "data/scenes/c/2.json" 7;
           Fixtures.scene "data/scenes/c/1.json" 5;
           Fixtures.scene "data/scenes/a/2.json" 12] /\
      Z.of_nat (List.length l) <= 3) /\
  ((forall d, In d Fixtures.scenes ->
              d_stat_raises d = false /\
              forall j, In j (d_jsons d) -> f_stat_raises j = false) ->
   App.list_scene_jsons 3 (Some Fixtures.scenes)
   = inr [Fixtures.scene "data/scenes/c/2.json" 7;
          Fixtures.scene "data/scenes/c/1.json" 5;
          Fixtures.scene "data/scenes/a/2.json" 12]).
Proof.
  apply (list_scene_jsons_is_prefix 3 Fixtures.scenes). lia.
Defined.

Lemma latest_is_newest_of_newest_dir_witness :
  exists d,
    In d Fixtures.scenes /\
    In (Fixtures.scene "data/scenes/c/2.json" 7) (d_jsons d) /\
    (forall j', In j' (d_jsons d) -> f_mtime j' <= 7) /\
    (forall d', In d' Fixtures.scenes -> d_jsons d' <> [] ->
                d_mtime d' <= d_mtime d).
Proof.
  apply (latest_is_newest_of_newest_dir
           Fixtures.scenes (Fixtures.scene "data/scenes/c/2.json" 7)).
  reflexivity.
Defined.

Lemma stored_key_untouched_without_include_key_witness :
  EnvFile.merged PyText.strip Fixtures.new_pairs false
                 (Some (Text Fixtures.saved_file))
  = inr [ ("OPENAI_API_BASE", "https://g/v2");
          ("HOLODECK_MODEL", "openai/gpt-4.1");
          ("OPENAI_API_KEY", "old-key") ] /\
  dict_get "OPENAI_API_KEY"
           [ ("OPENAI_API_BASE", "https://g/v2");
             ("HOLODECK_MODEL", "openai/gpt-4.1");
             ("OPENAI_API_KEY", "old-key") ]
  = dict_get "OPENAI_API_KEY" Fixtures.saved_dict.
Proof.
  split; [reflexivity|].
  apply (stored_key_untouched_without_include_key
           PyText.strip Fixtures.new_pairs Fixtures.saved_dict _
           (Some (Text Fixtures.saved_file)));
    reflexivity.
Defined.

Lemma written_entries_witness :
  dict_get "OPENAI_API_BASE"
           [ ("OPENAI_API_BASE", "https://g/v2");
             ("HOLODECK_MODEL", "openai/gpt-4.1");
             ("OPENAI_API_KEY", "new-key") ]
  = if (("OPENAI_API_BASE" =? "OPENAI_API_KEY")%string && negb true)%bool
    then dict_get "OPENAI_API_BASE" Fixtures.saved_dict
    else match dict_get "OPENAI_API_BASE" Fixtures.new_pairs with
         | Some v => Some v
         | None => dict_get "OPENAI_API_BASE" Fixtures.saved_dict
         end.
Proof.
  apply (written_entries
           (fun line => line) Fixtures.new_pairs Fixtures.saved_dict _ true
           (Some (Text Fixtures.saved_file)) "OPENAI_API_BASE").
  - repeat constructor; simpl; intuition discriminate.
  - reflexivity.
  - reflexivity.
Defined.

Lemma save_over_saved_file_witness :
  Ui.save_env_file Fixtures.new_pairs false (Some (Text Fixtures.saved_file))
  = Saved (EnvFile.render
             (EnvFile.merge_pairs false Fixtures.new_pairs Fixtures.saved_dict))
  /\
  App.save_env_file Fixtures.new_pairs false (Some (Text Fixtures.saved_file))
  = Saved (EnvFile.render
             (EnvFile.merge_pairs false Fixtures.new_pairs Fixtures.saved_dict)).
Proof.
  apply (save_over_saved_file Fixtures.new_pairs Fixtures.saved_dict false).
  - reflexivity.
  - repeat constructor; simpl; intuition discriminate.
Defined.

Lemma load_env_file_never_overrides_witness :
  loaded_env (Ui.load_env_file (Some (Text Fixtures.saved_file))
                               (Sample.env_one "HOLODECK_MODEL" ""))
             "HOLODECK_MODEL" = Some "" /\
  loaded_env (App.load_env_file (Some (Text Fixtures.saved_file))
                                (Sample.env_one "HOLODECK_MODEL" ""))
             "HOLODECK_MODEL" = Some "".
Proof.
  apply (load_env_file_never_overrides
           (Some (Text Fixtures.saved_file)) (Sample.env_one "HOLODECK_MODEL" "")
           "HOLODECK_MODEL" "").
  reflexivity.
Defined.

Lemma load_env_file_twice_is_once_witness :
  EnvFile.load_env_file
    PyText.strip (Some (Text Fixtures.saved_file))
    (loaded_env (EnvFile.load_env_file PyText.strip (Some (Text Fixtures.saved_file))
                                       Sample.env_empty))
  = Loaded (loaded_env (EnvFile.load_env_file
                          PyText.strip (Some (Text Fixtures.saved_file))
                          Sample.env_empty)).
Proof.
  apply (load_env_file_twice_is_once
           PyText.strip (Some (Text Fixtures.saved_file)) Sample.env_empty).
  reflexivity.
Defined.

Lemma load_env_file_rejects_empty_name_witness :
  exists env',
    Ui.load_env_file (Some (Text Fixtures.nameless_file)) Sample.env_empty
    = LoadRaised IllegalEnviron env'.
Proof.
  apply (load_env_file_rejects_empty_name
           (Text Fixtures.nameless_file)
           (PyText.universal_newlines Fixtures.nameless_file)
           "  =x" "x" Sample.env_empty).
  - reflexivity.
  - vm_compute. right. left. reflexivity.
  - reflexivity.
  - reflexivity.
Defined.

Lemma saved_defaults_load_back_witness :
  exists content env',
    Ui.save_env_file Fixtures.new_pairs true (Some (Text Fixtures.saved_file))
    = Saved content /\
    Ui.load_env_file (Some (Text content))
                     (Sample.env_one "HOLODECK_MODEL" "mine")
    = Loaded env' /\
    forall name,
      env' name
      = match Sample.env_one "HOLODECK_MODEL" "mine" name with
        | Some x => Some x
        | None =>
            dict_get name
                     (EnvFile.merge_pairs true Fixtures.new_pairs
                                          Fixtures.saved_dict)
        end.
Proof.
  apply (saved_defaults_load_back
           Fixtures.new_pairs Fixtures.saved_dict true
           (Sample.env_one "HOLODECK_MODEL" "mine")); try reflexivity.
  repeat constructor; simpl; intuition discriminate.
Defined.

Lemma ui_saved_file_is_stable_witness :
  exists d,
    "A=2" ++ Fixtures.nl ++ "HOLODECK_MODEL=m" ++ Fixtures.nl
    = EnvFile.render d /\
    forallb clean_entry d = true /\ NoDup (map fst d) /\
    EnvFile.parse_existing
      PyText.strip
      (Some (Text ("A=2" ++ Fixtures.nl ++ "HOLODECK_MODEL=m"
                   ++ Fixtures.nl)))
    = inr d /\
    Ui.save_env_file
      [] false
      (Some (Text ("A=2" ++ Fixtures.nl ++ "HOLODECK_MODEL=m"
                   ++ Fixtures.nl)))
    = Saved ("A=2" ++ Fixtures.nl ++ "HOLODECK_MODEL=m" ++ Fixtures.nl).
Proof.
  apply (ui_saved_file_is_stable
           [("HOLODECK_MODEL", "m")] false false (Some (Text Fixtures.hand_file)));
    reflexivity.
Defined.

Lemma generate_runs_only_with_a_key_witness :
  exists key env1,
    Ui.load_env_file (Some (Text Fixtures.saved_file)) Sample.env_empty
    = Loaded env1 /\
    first_non_empty [Some (Ui.g_api_key Fixtures.args);
                     env1 "OPENAI_API_KEY"; env1 "GITHUB_TOKEN"]
    = Some key /\
    key <> "" /\
    Ui.command "python3" Fixtures.args "old-key"
    = Ui.command "python3" Fixtures.args key /\
    Ui.child_env Fixtures.args "old-key"
                 (loaded_env (Ui.load_env_file (Some (Text Fixtures.saved_file))
                                               Sample.env_empty))
    = Ui.child_env Fixtures.args key env1 /\
    Ui.child_env Fixtures.args "old-key"
                 (loaded_env (Ui.load_env_file (Some (Text Fixtures.saved_file))
                                               Sample.env_empty))
                 "OPENAI_API_KEY"
    = Some key.
Proof.
  apply (generate_runs_only_with_a_key
           "python3" Fixtures.run_ok Fixtures.args
           (Some (Text Fixtures.saved_file)) (Some Fixtures.scenes)
           Sample.env_empty).
  reflexivity.
Defined.

Lemma child_client_configuration_witness :
  let c := __init__ default_args
                    (Ui.child_env Fixtures.args "cli-key"
                                  (Sample.env_one "GITHUB_TOKEN" "ghp_parent")) in
  model c = "openai/gpt-4.1" /\
  base_url c = PyStr.rstrip_slash "https://h/api/" /\
  first_non_empty [Sample.env_one "GITHUB_TOKEN" "ghp_parent" "GITHUB_TOKEN";
                   Sample.env_one "GITHUB_TOKEN" "ghp_parent" "GH_TOKEN";
                   Some "cli-key"]
  = api_key c /\
  truthy_str (api_key c) = true.
Proof.
  apply (child_client_configuration
           Fixtures.args "cli-key" (Sample.env_one "GITHUB_TOKEN" "ghp_parent")).
  discriminate.
Defined.

(** The key given to [generate] does not reach a client that is built
    without arguments in the child when the launcher inherited a
    [GITHUB_TOKEN]. *)
Example inherited_token_shadows_key :
  api_key (__init__ default_args
             (Ui.child_env Fixtures.args "cli-key"
                (Sample.env_one "GITHUB_TOKEN" "ghp_parent")))
  = Some "ghp_parent".
Proof. reflexivity. Qed.

Example hand_file_normalised :
  Ui.save_env_file [] false (Some (Text Fixtures.hand_file))
  = Saved ("A=2" ++ Fixtures.nl).
Proof. reflexivity. Qed.

(** A dangling link in [data/scenes] ends [generate] after the child
    ran and before anything is saved, although [--remember] was given;
    without the link the defaults are saved. *)
Example generate_with_dangling_link :
  let r := Ui.generate "python3" Fixtures.run_ok Fixtures.args
                       (Some (Text Fixtures.saved_file))
                       (Some Fixtures.scenes_with_dangling_link)
                       Sample.env_empty in
  Ui.r_ending r = Ui.Raised StatError /\
  Ui.r_disk r = Some (Text Fixtures.saved_file) /\
  Ui.r_ran r <> None /\
  Ui.r_ending (Ui.generate "python3" Fixtures.run_ok Fixtures.args
                           (Some (Text Fixtures.saved_file))
                           (Some Fixtures.scenes) Sample.env_empty)
  = Ui.Finished.
Proof.
  repeat split. discriminate.
Qed.

(** A [.holodeck.env] that cannot be read or decoded ends [generate] at
    once, and makes [save_env_file] raise before the file is opened for
    writing. *)
Example unreadable_env_file :
  Ui.r_ending (Ui.generate "python3" Fixtures.run_ok Fixtures.args
                           (Some Unreadable) (Some Fixtures.scenes)
                           Sample.env_empty)
  = Ui.Raised ReadError /\
  Ui.r_ran (Ui.generate "python3" Fixtures.run_ok Fixtures.args
                        (Some Unreadable) (Some Fixtures.scenes)
                        Sample.env_empty)
  = None /\
  Ui.save_env_file Fixtures.new_pairs true (Some Unreadable)
  = SaveRaised ReadError /\
  App.save_env_file Fixtures.new_pairs true (Some Unreadable)
  = SaveRaised ReadError.
Proof.
  repeat split.
Qed.
